(** * update_all_skills.py: the skill migration script, embedded in Rocq

    The script rewrites the header of every SKILL.md below a fixed root,
    and creates a manifest (claw.json) and an instruction file
    (instructions.md) next to it.  All derived fields come from keyword
    tables and substring tests.

    Modelling choices.
    - A Python [str] is a Rocq [string]: the UTF-8 bytes of the text.  The
      keyword tables are ASCII, and substring tests on well-formed UTF-8
      agree with substring tests on code points.
    - Whitespace ([str.strip], the regex class [\s]) is the whitespace of
      Python: the ten characters of the ASCII range and the nineteen above
      it, U+0085, U+00A0, U+1680, U+2000 to U+200A, U+2028, U+2029, U+202F,
      U+205F and U+3000, each recognized by its UTF-8 bytes.
    - [str.lower] is the lowering of the ASCII letters, which is what it
      does on ASCII text; a property that depends on the letters that
      [lower] changes is stated for ASCII text.
    - A file holds the text that [read_text] returns and [write_text] is
      given; a missing file is [None].  [process_skill] is the run in which
      the document is read and the files are written without an error of
      the file system.
    - A skill directory is the list of its path components below [BASE].
    - A raised exception is a value of the result type [py]. *)

From Stdlib Require Import String Ascii List Bool Arith Lia.
From stdpp Require Import base gmap strings list pretty.
Import ListNotations.

Open Scope string_scope.
Open Scope list_scope.

(** ** Python string primitives *)

Module PyStr.

(** The line feed, the two quote characters and the backslash. *)
Definition LF : ascii := "010"%char.
Definition DQ : ascii := "034"%char.
Definition SQ : ascii := "039"%char.
Definition BS : ascii := "092"%char.
Definition nl : string := String LF EmptyString.
Definition dq : string := String DQ EmptyString.

(** [s.startswith(p)] *)
Fixpoint startswith (p s : string) : bool :=
  match p, s with
  | EmptyString, _ => true
  | String a p', String b s' => Ascii.eqb a b && startswith p' s'
  | String _ _, EmptyString => false
  end.

(** [kw in s] *)
Fixpoint str_in (kw s : string) : bool :=
  startswith kw s ||
  match s with
  | EmptyString => false
  | String _ s' => str_in kw s'
  end.

(** [any(kw in s for kw in kws)] *)
Definition any_in (kws : list string) (s : string) : bool :=
  existsb (fun kw => str_in kw s) kws.

(** [c in s] for a single character. *)
Fixpoint chr_in (c : ascii) (s : string) : bool :=
  match s with
  | EmptyString => false
  | String a s' => Ascii.eqb a c || chr_in c s'
  end.

(** [str.lower], on the ASCII letters. *)
Definition lower_ascii (c : ascii) : ascii :=
  let n := nat_of_ascii c in
  if (65 <=? n)%nat && (n <=? 90)%nat then ascii_of_nat (n + 32) else c.

Fixpoint lower (s : string) : string :=
  match s with
  | EmptyString => EmptyString
  | String c s' => String (lower_ascii c) (lower s')
  end.

(** [s.isascii()] *)
Fixpoint is_ascii (s : string) : bool :=
  match s with
  | EmptyString => true
  | String c s' => (nat_of_ascii c <? 128)%nat && is_ascii s'
  end.

(** The whitespace characters, those of [str.isspace] and of the regex
    class [\s], by their UTF-8 bytes.  Of one byte: TAB, LF, VT, FF, CR, the
    four separators U+001C to U+001F, and the space. *)
Definition ws1 (a : ascii) : bool :=
  let n := nat_of_ascii a in
  ((9 <=? n)%nat && (n <=? 13)%nat) || ((28 <=? n)%nat && (n <=? 32)%nat).

(** Of two bytes: U+0085 (C2 85) and U+00A0 (C2 A0). *)
Definition ws2 (a b : ascii) : bool :=
  let n := nat_of_ascii b in
  (nat_of_ascii a =? 194)%nat && ((n =? 133)%nat || (n =? 160)%nat).

(** Of three bytes: U+1680 (E1 9A 80), U+2000 to U+200A (E2 80 80 to
    E2 80 8A), U+2028 and U+2029 (E2 80 A8, E2 80 A9), U+202F (E2 80 AF),
    U+205F (E2 81 9F) and U+3000 (E3 80 80). *)
Definition ws3 (a b c : ascii) : bool :=
  let x := nat_of_ascii a in
  let y := nat_of_ascii b in
  let z := nat_of_ascii c in
  ((x =? 225)%nat && (y =? 154)%nat && (z =? 128)%nat)
  || ((x =? 226)%nat && (y =? 128)%nat
      && (((128 <=? z)%nat && (z <=? 138)%nat)
          || (z =? 168)%nat || (z =? 169)%nat || (z =? 175)%nat))
  || ((x =? 226)%nat && (y =? 129)%nat && (z =? 159)%nat)
  || ((x =? 227)%nat && (y =? 128)%nat && (z =? 128)%nat).

(** [s.lstrip()]: the whitespace characters at the start are taken off,
    one character of one, two or three bytes at a time. *)
Fixpoint lstrip (s : string) : string :=
  match s with
  | EmptyString => EmptyString
  | String a s1 =>
      if ws1 a then lstrip s1 else
      match s1 with
      | EmptyString => s
      | String b s2 =>
          if ws2 a b then lstrip s2 else
          match s2 with
          | EmptyString => s
          | String c s3 => if ws3 a b c then lstrip s3 else s
          end
      end
  end.

(** [s.isspace()], or [s] is empty: only whitespace characters. *)
Fixpoint all_space (s : string) : bool :=
  match s with
  | EmptyString => true
  | String a s1 =>
      if ws1 a then all_space s1 else
      match s1 with
      | EmptyString => false
      | String b s2 =>
          if ws2 a b then all_space s2 else
          match s2 with
          | EmptyString => false
          | String c s3 => ws3 a b c && all_space s3
          end
      end
  end.

(** [s.rstrip()]: the text up to the point from which only whitespace
    follows. *)
Fixpoint rstrip (s : string) : string :=
  match s with
  | EmptyString => EmptyString
  | String c s' => if all_space s then EmptyString else String c (rstrip s')
  end.

(** [s.strip()] *)
Definition strip (s : string) : string := rstrip (lstrip s).

(** The number of bytes of the whitespace character that [s] starts with;
    0 when it starts with none. *)
Definition space_len (s : string) : nat :=
  match s with
  | EmptyString => 0
  | String a s1 =>
      if ws1 a then 1 else
      match s1 with
      | EmptyString => 0
      | String b s2 =>
          if ws2 a b then 2 else
          match s2 with
          | EmptyString => 0
          | String c _ => if ws3 a b c then 3 else 0
          end
      end
  end.

(** A byte of the ASCII range that is not whitespace. *)
Definition plain (a : ascii) : bool :=
  (nat_of_ascii a <? 128)%nat && negb (ws1 a).

(** [s.lstrip(chars)], [s.rstrip(chars)] and [s.strip(chars)] for a set of
    ASCII characters. *)
Fixpoint lstrip_by (p : ascii -> bool) (s : string) : string :=
  match s with
  | EmptyString => EmptyString
  | String c s' => if p c then lstrip_by p s' else s
  end.

Fixpoint rstrip_by (p : ascii -> bool) (s : string) : string :=
  match s with
  | EmptyString => EmptyString
  | String c s' =>
      match rstrip_by p s' with
      | EmptyString => if p c then EmptyString else String c EmptyString
      | r => String c r
      end
  end.

Definition strip_by (p : ascii -> bool) (s : string) : string :=
  rstrip_by p (lstrip_by p s).

Definition strip_chr (c : ascii) : string -> string := strip_by (Ascii.eqb c).

(** [s.split(sep)] for a one-character separator: never empty. *)
Fixpoint split (sep : ascii) (s : string) : list string :=
  match s with
  | EmptyString => [EmptyString]
  | String c s' =>
      if Ascii.eqb c sep then EmptyString :: split sep s'
      else match split sep s' with
           | [] => [String c EmptyString]
           | l :: ls => String c l :: ls
           end
  end.

(** [s.partition(sep)] for a one-character separator: the text before the
    first separator and the text after it; the whole of [s] and the empty
    string when there is none. *)
Fixpoint partition (sep : ascii) (s : string) : string * string :=
  match s with
  | EmptyString => (EmptyString, EmptyString)
  | String c s' =>
      if Ascii.eqb c sep then (EmptyString, s')
      else let '(k, v) := partition sep s' in (String c k, v)
  end.

(** [sep.join(l)] *)
Fixpoint join (sep : string) (l : list string) : string :=
  match l with
  | [] => EmptyString
  | [x] => x
  | x :: l' => x +:+ sep +:+ join sep l'
  end.

(** [s[len(p):]] when [s.startswith(p)] *)
Fixpoint drop_prefix (p s : string) : option string :=
  match p, s with
  | EmptyString, _ => Some s
  | String a p', String b s' => if Ascii.eqb a b then drop_prefix p' s' else None
  | String _ _, EmptyString => None
  end.

(** Truthiness of an optional string: [None] and the empty string are false. *)
Definition truthy (o : option string) : bool :=
  match o with
  | None => false
  | Some EmptyString => false
  | Some _ => true
  end.

(** No line feed in [s]. *)
Definition one_line (s : string) : Prop := chr_in LF s = false.

(** What [kw in s] means: [s] is some text, then [kw], then some text. *)
Definition occurs_in (kw s : string) : Prop :=
  exists pre post, s = pre +:+ kw +:+ post.

End PyStr.
Import PyStr.

(** ** Constants and keyword tables *)

Definition HOMEPAGE : string := "https://datadrivenconstruction.io".
Definition AUTHOR : string := "datadrivenconstruction".

(** The final component of [BASE]: the name of the root directory itself. *)
Definition BASE_name : string := "DDC_Skills_for_AI_Agents_in_Construction".

(** The entries of [EMOJI_MAP] in the order of the dict display. *)
Definition EMOJI_MAP_items : list (string * string) :=
  [ ("Analytics", "📊");
    ("BIM-Analysis", "🔍");
    ("BIM-Visualization", "🖼️");
    ("CAD-Converters", "📄");
    ("Closeout", "✅");
    ("Cost-Management", "💰");
    ("CWICR-Database", "🗄️");
    ("Document-Control", "📋");
    ("Field-Operations", "🏗️");
    ("Kaggle-Notebooks", "📓");
    ("Procurement", "🛒");
    ("Project-Closeout", "✅");
    ("Resource-Management", "👷");
    ("Schedule-Integration", "📅");
    ("Schedule-Management", "📅");
    ("Sustainability", "🌱");
    ("1.1-Data-Evolution", "📚");
    ("1.2-Data-Silos-Integration", "🔗");
    ("2.1-Data-Types-Classification", "🏷️");
    ("2.2-Open-Data-Standards", "🌐");
    ("2.3-Pandas-LLM-Analysis", "🐼");
    ("2.4-PDF-CAD-to-Data", "📑");
    ("2.5-Data-Modeling-Standards", "📐");
    ("2.6-Data-Quality-Validation", "✔️");
    ("3.1-Cost-Estimation", "🧮");
    ("3.2-QTO-Auto-Estimates", "⚡");
    ("3.3-4D-BIM-CO2-Simulation", "🎬");
    ("3.4-ERP-Integration", "🔄");
    ("3.5-Interoperability", "🔀");
    ("4.1-Analytics-KPI-Dashboard", "📈");
    ("4.2-ETL-Automation", "⚙️");
    ("4.3-BIM-Validation-Pipeline", "🔎");
    ("4.4-Vector-Search-BigData", "🔢");
    ("4.5-ML-Cost-Prediction", "🤖");
    ("5.1-Digital-Maturity-Strategy", "🎯");
    ("AI-Agents", "🤖");
    ("Automation-Workflows", "🔧");
    ("Field-Automation", "📱");
    ("Open-Data-Transparency", "🌍");
    ("Safety-Quality", "🦺");
    ("Schedule-Optimization", "⏱️");
    ("Contract-Legal", "📝");
    ("Data-Validation", "✔️");
    ("Document-Generation", "📄");
    ("Financial-Management", "💵");
    ("Prompt-Engineering", "💡");
    ("Quality-Assurance", "🛡️");
    ("5_DDC_Innovative", "🚀") ].

Definition EMOJI_MAP : gmap string string := list_to_map EMOJI_MAP_items.

Definition WIN32_KEYWORDS : list string :=
  [ "RvtExporter"; "DwgExporter"; "DgnExporter"; "RVT2IFCconverter";
    "Revit"; ".rvt"; "AutoCAD"; "MicroStation"; ".dgn";
    "revit_"; "pyrevit" ].

Definition NETWORK_KEYWORDS : list string :=
  [ "requests.get"; "requests.post"; "urllib"; "httpx";
    "API_KEY"; "api_key"; "OPENAI_API"; "QDRANT";
    "webhook"; "REST API"; "GraphQL"; "endpoint";
    "telegram"; "slack"; "n8n" ].

(** A dict that the code iterates over is a list of items in insertion order. *)
Definition BIN_REQUIREMENTS : list (string * list string) :=
  [ ("python3", ["import "; "python"; "pip install"; "pandas"; "numpy"]);
    ("tesseract", ["tesseract"; "pytesseract"; "OCR"]);
    ("ifcopenshell", ["ifcopenshell"; "IfcOpenShell"]);
    ("IfcConvert", ["IfcConvert"]) ].

Definition ENV_REQUIREMENTS : list (string * list string) :=
  [ ("OPENAI_API_KEY", ["OPENAI_API_KEY"; "openai.api_key"; "OpenAI("]);
    ("QDRANT_URL", ["QDRANT_URL"; "QdrantClient"; "qdrant"]) ].

(** [d[key]] on a list of items; the keys used below are all present. *)
Fixpoint items_get {A} (key : string) (d : list (string * A)) : option A :=
  match d with
  | [] => None
  | (k, v) :: d' => if String.eqb k key then Some v else items_get key d'
  end.

(** ** Exceptions *)

Inductive exn : Type := IndexError | KeyError.

Inductive py (A : Type) : Type :=
| Ret (a : A)
| Raise (e : exn).
Arguments Ret {A} a.
Arguments Raise {A} e.

(** [py] is a monad; [x ← m; k] runs [m] and hands its value to [k], and a
    raised exception ends the computation. *)
#[global] Instance py_ret : MRet py := fun A a => Ret a.
#[global] Instance py_bind : MBind py := fun A B k m =>
  match m with
  | Ret a => k a
  | Raise e => Raise e
  end.

(** ** Paths *)

(** A path below [BASE], by its components relative to [BASE]; what
    [skill_path.relative_to(BASE).parts] is. *)
Definition Path : Type := list string.

(** [skill_dir.name] *)
Definition path_name (p : Path) : string := List.last p BASE_name.

(** [parts[i]] *)
Definition index (parts : list string) (i : nat) : py string :=
  match nth_error parts i with
  | Some s => Ret s
  | None => Raise IndexError
  end.

Definition get_subcategory (skill_path : Path) : py string :=
  let parts := skill_path in
  if (3 <=? length parts)%nat then index parts 1 else index parts 0.

Definition get_top_category (skill_path : Path) : py string :=
  index skill_path 0.

(** ** The classifier *)

Definition determine_emoji (skill_path : Path) (name : string) : py string :=
  subcat ← get_subcategory skill_path;
  topcat ← get_top_category skill_path;
  match EMOJI_MAP !! subcat with
  | Some e => Ret e
  | None =>
  match EMOJI_MAP !! topcat with
  | Some e => Ret e
  | None =>
    if any_in ["cost"; "estimat"; "budget"; "price"; "payment"] name then Ret "💰"
    else if any_in ["schedule"; "gantt"; "4d"; "timeline"] name then Ret "📅"
    else if any_in ["safety"; "inspection"; "compliance"] name then Ret "🦺"
    else if any_in ["report"; "document"; "pdf"; "docx"] name then Ret "📄"
    else if any_in ["bim"; "ifc"; "revit"] name then Ret "🏗️"
    else if any_in ["ml"; "predict"; "ai"; "neural"] name then Ret "🤖"
    else if any_in ["data"; "etl"; "pipeline"] name then Ret "📊"
    else Ret "🔧"
  end end.

(** The loop returns at the first marker found. *)
Fixpoint determine_os_loop (kws : list string) (content : string) : list string :=
  match kws with
  | [] => ["darwin"; "linux"; "win32"]
  | kw :: kws' => if str_in kw content then ["win32"] else determine_os_loop kws' content
  end.

Definition determine_os (content : string) : list string :=
  determine_os_loop WIN32_KEYWORDS content.

(** The result of [determine_requires]: the dict under "requires", as its
    items in insertion order, and the optional "primaryEnv" entry. *)
Record requires_info : Type := {
  requires : list (string * list string);
  primaryEnv : option string;
}.

(** One turn of the loop over [BIN_REQUIREMENTS.items()]. *)
Definition any_bins_step (content : string) (any_bins : list string)
    (item : string * list string) : list string :=
  let '(bin_name, keywords) := item in
  if String.eqb bin_name "python3" then any_bins
  else if any_in keywords content then any_bins ++ [bin_name]
  else any_bins.

(** One turn of the loop over [ENV_REQUIREMENTS.items()]. *)
Definition env_step (content : string) (st : list string * option string)
    (item : string * list string) : list string * option string :=
  let '(env, primary_env) := st in
  let '(env_name, keywords) := item in
  if any_in keywords content
  then (env ++ [env_name],
        if negb (truthy primary_env) then Some env_name else primary_env)
  else st.

(** [if l: d[key] = l] *)
Definition set_if_nonempty (key : string) (l : list string)
    (d : list (string * list string)) : list (string * list string) :=
  match l with
  | [] => d
  | _ => d ++ [(key, l)]
  end.

Definition determine_requires (content : string) : py requires_info :=
  match items_get "python3" BIN_REQUIREMENTS with
  | None => Raise KeyError
  | Some python_kws =>
    let bins := if any_in python_kws content then ["python3"] else [] in
    let any_bins := fold_left (any_bins_step content) BIN_REQUIREMENTS [] in
    let '(env, primary_env) := fold_left (env_step content) ENV_REQUIREMENTS ([], None) in
    let requires :=
      set_if_nonempty "env" env
        (set_if_nonempty "anyBins" any_bins
           (set_if_nonempty "bins" bins [])) in
    Ret {| requires := requires;
           primaryEnv := if truthy primary_env then primary_env else None |}
  end.

Definition determine_permissions (content : string) : list string :=
  let perms := ["filesystem"] in
  if any_in NETWORK_KEYWORDS content then perms ++ ["network"] else perms.

Definition tag_keywords : list (string * list string) :=
  [ ("estimation", ["estimat"; "cost"; "price"; "budget"]);
    ("BIM", ["bim"; "ifc"; "revit"; "rvt"]);
    ("cost-management", ["cost"; "budget"; "payment"; "invoice"]);
    ("scheduling", ["schedule"; "gantt"; "4d"; "critical-path"; "delay"]);
    ("data-processing", ["data"; "etl"; "pipeline"; "csv"; "json"; "xml"]);
    ("safety", ["safety"; "inspection"; "compliance"; "incident"]);
    ("reporting", ["report"; "dashboard"; "kpi"; "analytics"]);
    ("machine-learning", ["ml"; "predict"; "neural"; "model"; "forecast"]);
    ("document-management", ["document"; "pdf"; "docx"; "rfi"; "submittal"]);
    ("quality", ["quality"; "validation"; "check"; "verify"]);
    ("procurement", ["procurement"; "bid"; "material"; "subcontractor"]);
    ("sustainability", ["carbon"; "co2"; "energy"; "green"; "lifecycle"]);
    ("automation", ["automat"; "workflow"; "n8n"; "etl"]);
    ("CWICR", ["cwicr"]);
    ("GIS", ["gis"; "coordinate"; "spatial"; "geo"]);
    ("CAD", ["cad"; "dwg"; "dgn"; "drawing"]) ].

(** One turn of the loop over [tag_keywords.items()]. *)
Definition tags_step (combined : string) (tags : list string)
    (item : string * list string) : list string :=
  let '(tag, keywords) := item in
  if any_in keywords combined then tags ++ [tag] else tags.

Definition determine_tags (name description subcat topcat : string) : list string :=
  let tags := ["construction"] in
  let combined := lower (name +:+ " " +:+ description +:+ " " +:+ subcat) in
  let tags := fold_left (tags_step combined) tag_keywords tags in
  take 5 tags.

(** ** The instruction synthesizer *)

(** The fixed text of the template after the action phrase. *)
Definition instructions_tail : string :=
":
1. Gather the required input data from the user
2. Process the data using the methods described in SKILL.md
3. Present results in a clear, structured format
4. Offer follow-up analysis or export options

## Input Format
- The user provides project data, file paths, or parameters as described in SKILL.md
- Accept data in common formats: CSV, Excel, JSON, or direct input

## Output Format
- Present results in structured tables when applicable
- Include summary statistics and key findings
- Offer export to Excel/CSV/JSON when relevant

## Key Reference
- See SKILL.md for detailed implementation code, classes, and methods
- Follow the patterns and APIs defined in the skill documentation

## Constraints
- Only use data provided by the user or referenced in the skill
- Validate inputs before processing
- Report errors clearly with suggested fixes
- Follow construction industry standards and best practices
".

Definition generate_instructions (name description content : string) : string :=
  let desc_lower := lower description in
  let action :=
    if str_in "convert" desc_lower || str_in "extract" desc_lower
    then "convert or extract data"
    else if str_in "estimat" desc_lower || str_in "cost" desc_lower
    then "create cost estimates or analyze costs"
    else if str_in "analyz" desc_lower || str_in "analysis" desc_lower
    then "analyze data and generate insights"
    else if str_in "generat" desc_lower || str_in "creat" desc_lower
    then "generate documents or reports"
    else if str_in "manag" desc_lower || str_in "track" desc_lower
    then "manage and track project data"
    else if str_in "validat" desc_lower || str_in "check" desc_lower
    then "validate data quality and compliance"
    else if str_in "predict" desc_lower || str_in "forecast" desc_lower
    then "predict outcomes using data models"
    else if str_in "schedul" desc_lower
    then "manage schedules and timelines"
    else if str_in "search" desc_lower || str_in "query" desc_lower
    then "search and query data"
    else "assist with construction project tasks" in
  let domain :=
    if str_in "cwicr" name
    then "construction cost data using CWICR (Construction Work Item Cost Resource) database"
    else if str_in "bim" name || str_in "ifc" name || str_in "rvt" name
    then "BIM (Building Information Modeling) data processing"
    else if str_in "schedule" name || str_in "4d" name || str_in "gantt" name
    then "construction project scheduling"
    else if str_in "safety" name || str_in "inspection" name
    then "construction safety and compliance"
    else if str_in "cost" name || str_in "estimat" name || str_in "price" name
            || str_in "budget" name
    then "construction cost estimation and management"
    else if str_in "report" name || str_in "document" name || str_in "pdf" name
    then "construction document management and reporting"
    else if str_in "data" name || str_in "etl" name || str_in "pipeline" name
    then "construction data processing and analytics"
    else if str_in "ml" name || str_in "predict" name
    then "machine learning for construction"
    else if str_in "n8n" name || str_in "workflow" name || str_in "automat" name
    then "construction workflow automation"
    else if str_in "material" name || str_in "procurement" name
    then "construction procurement and materials management"
    else "construction project management" in
  "You are a construction industry assistant specializing in " +:+ domain +:+ "." +:+ nl +:+ nl
  +:+ description +:+ nl +:+ nl
  +:+ "When the user asks to " +:+ action +:+ instructions_tail.

(** ** JSON serialization *)

(** The values the script serializes: strings, lists and dicts (a dict as
    its items in insertion order). *)
#[warnings="-register-all"]
Inductive json : Type :=
| JStr (s : string)
| JArr (l : list json)
| JObj (items : list (string * json)).

Module Json.

Definition hex_digit (n : nat) : ascii :=
  if (n <? 10)%nat then ascii_of_nat (48 + n) else ascii_of_nat (87 + n).

(** The replacement of one character in a string: a backslash escape for
    the quote, the backslash and the control characters below 32. *)
Definition escape_chr (c : ascii) : string :=
  let n := nat_of_ascii c in
  if Ascii.eqb c DQ then String BS dq
  else if (n =? 92)%nat then String BS (String BS EmptyString)
  else if (n =? 8)%nat then String BS "b"
  else if (n =? 12)%nat then String BS "f"
  else if (n =? 10)%nat then String BS "n"
  else if (n =? 13)%nat then String BS "r"
  else if (n =? 9)%nat then String BS "t"
  else if (n <? 32)%nat
       then String BS "u00" +:+ String (hex_digit (n / 16)) (String (hex_digit (n mod 16)) EmptyString)
  else String c EmptyString.

Fixpoint escape (s : string) : string :=
  match s with
  | EmptyString => EmptyString
  | String c s' => escape_chr c +:+ escape s'
  end.

(** [encode_basestring]: the string between quotes, escaped; characters
    outside ASCII are kept ([ensure_ascii=False]). *)
Definition encode_basestring (s : string) : string :=
  dq +:+ escape s +:+ dq.

(** [json.dumps(j, ensure_ascii=False)]: on one line, with the separators
    [", "] and [": "]. *)
Fixpoint dumps (j : json) : string :=
  match j with
  | JStr s => encode_basestring s
  | JArr l => "[" +:+ join ", " (map dumps l) +:+ "]"
  | JObj items =>
      "{" +:+ join ", " (map (fun kv => let '(k, v) := kv in
                              encode_basestring k +:+ ": " +:+ dumps v) items)
      +:+ "}"
  end.

Fixpoint spaces (n : nat) : string :=
  match n with
  | O => EmptyString
  | S n' => String " "%char (spaces n')
  end.

(** A line feed and the indentation of nesting level [level]. *)
Definition newline_indent (indent level : nat) : string :=
  nl +:+ spaces (indent * level).

(** [json.dumps(j, indent=indent, ensure_ascii=False)] at nesting level
    [level]: one item per line, with the separators [","] and [": "];
    an empty list or dict stays on one line. *)
Fixpoint dumps_indent (indent level : nat) (j : json) : string :=
  match j with
  | JStr s => encode_basestring s
  | JArr [] => "[]"
  | JArr l =>
      "[" +:+ newline_indent indent (S level)
      +:+ join ("," +:+ newline_indent indent (S level))
               (map (dumps_indent indent (S level)) l)
      +:+ newline_indent indent level +:+ "]"
  | JObj [] => "{}"
  | JObj items =>
      "{" +:+ newline_indent indent (S level)
      +:+ join ("," +:+ newline_indent indent (S level))
               (map (fun kv => let '(k, v) := kv in
                     encode_basestring k +:+ ": " +:+ dumps_indent indent (S level) v)
                    items)
      +:+ newline_indent indent level +:+ "}"
  end.

End Json.

(** ** The manifest builder *)

Definition strs (l : list string) : json := JArr (map JStr l).

(** The dict that [build_metadata] serializes. *)
Definition metadata_dict (emoji : string) (os_list : list string) (homepage : string)
    (info : requires_info) : json :=
  let openclaw :=
    [ ("emoji", JStr emoji);
      ("os", strs os_list);
      ("homepage", JStr homepage);
      ("requires", JObj (map (fun kv => (kv.1, strs kv.2)) (requires info))) ] in
  let openclaw :=
    match primaryEnv info with
    | Some v => openclaw ++ [("primaryEnv", JStr v)]
    | None => openclaw
    end in
  JObj [("openclaw", JObj openclaw)].

Definition build_metadata (emoji : string) (os_list : list string) (homepage : string)
    (info : requires_info) : string :=
  Json.dumps (metadata_dict emoji os_list homepage info).

Definition build_claw_json (name description : string) (permissions tags : list string) : json :=
  JObj [ ("name", JStr name);
         ("version", JStr "2.0.0");
         ("description", JStr description);
         ("author", JStr AUTHOR);
         ("license", JStr "MIT");
         ("permissions", strs permissions);
         ("entry", JStr "instructions.md");
         ("tags", strs tags);
         ("models", strs ["claude-*"; "gpt-*"]);
         ("minOpenClawVersion", JStr "0.8.0") ].

(** ** The header parser *)

Module Frontmatter.

(** The pattern [^---\s*\n(.*?)\n---\s*\n] under [re.DOTALL], as a
    backtracking matcher: every function lists the ways its part of the
    pattern matches at the start of [s], in the order the regex engine
    tries them, each as the text left after the match. *)

(** [\s*\n]: the star is greedy, so the longest run of whitespace that a
    line feed follows comes first.  The star takes one whitespace character
    at a time, of one, two or three bytes; the line feed that ends the match
    is itself a whitespace character of one byte. *)
Fixpoint ws_then_nl (s : string) : list string :=
  match s with
  | EmptyString => []
  | String a s1 =>
      if ws1 a then ws_then_nl s1 ++ (if Ascii.eqb a LF then [s1] else []) else
      match s1 with
      | EmptyString => []
      | String b s2 =>
          if ws2 a b then ws_then_nl s2 else
          match s2 with
          | EmptyString => []
          | String c s3 => if ws3 a b c then ws_then_nl s3 else []
          end
      end
  end.

(** [\n---\s*\n] *)
Definition close_delim (s : string) : list string :=
  match drop_prefix (String LF "---") s with
  | Some r => ws_then_nl r
  | None => []
  end.

(** [(.*?)\n---\s*\n]: the star is lazy, so the shortest group comes
    first; each way is the group and the text left. *)
Fixpoint lazy_body (s : string) : list (string * string) :=
  map (fun r => (EmptyString, r)) (close_delim s) ++
  match s with
  | EmptyString => []
  | String c s' => map (fun gr => (String c gr.1, gr.2)) (lazy_body s')
  end.

(** [re.match] of the whole pattern: the first way, as [match.group(1)]
    and [content[match.end():]]. *)
Definition re_match (content : string) : option (string * string) :=
  match drop_prefix "---" content with
  | None => None
  | Some r => head (flat_map lazy_body (ws_then_nl r))
  end.

(** One turn of the loop over the lines of the header. *)
Definition add_line (fm : gmap string string) (line : string) : gmap string string :=
  let line := strip line in
  if chr_in ":"%char line then
    let '(key, value) := partition ":"%char line in
    let key := strip key in
    let value := strip_chr SQ (strip_chr DQ (strip value)) in
    <[key := value]> fm
  else fm.

End Frontmatter.

Definition parse_frontmatter (content : string) : option (gmap string string) * string :=
  match Frontmatter.re_match content with
  | None => (None, content)
  | Some (fm_text, body) =>
      (Some (fold_left Frontmatter.add_line (split LF fm_text) ∅), body)
  end.

(** ** Processing one skill *)

(** The three files of a skill directory. *)
Record skill_files : Type := {
  SKILL_md : option string;
  claw_json : option string;
  instructions_md : option string;
}.

(** [not fm]: no header, or a header without any field. *)
Definition no_fields (fm : option (gmap string string)) : bool :=
  match fm with
  | None => true
  | Some m => bool_decide (m = ∅)
  end.

(** The values [process_skill] derives before it writes anything. *)
Record derived : Type := {
  d_emoji : string;
  d_os : list string;
  d_requires : requires_info;
  d_permissions : list string;
  d_tags : list string;
}.

Definition derive (skill_dir : Path) (name description content : string) : py derived :=
  subcat ← get_subcategory skill_dir;
  topcat ← get_top_category skill_dir;
  emoji ← determine_emoji skill_dir name;
  let os_list := determine_os content in
  requires_info ← determine_requires content;
  let permissions := determine_permissions content in
  let tags := determine_tags name description subcat topcat in
  mret {| d_emoji := emoji; d_os := os_list; d_requires := requires_info;
          d_permissions := permissions; d_tags := tags |}.

(** [fm.get("name", fm.get("slug", skill_dir.name))] *)
Definition skill_name (skill_dir : Path) (fm : gmap string string) : string :=
  default (default (path_name skill_dir) (fm !! "slug")) (fm !! "name").

(** [fm.get("description", "")] *)
Definition skill_description (fm : gmap string string) : string :=
  default EmptyString (fm !! "description").

(** The six lines of the new header. *)
Definition new_fm_lines (name description metadata_str : string) : list string :=
  [ "---";
    "name: " +:+ dq +:+ name +:+ dq;
    "description: " +:+ dq +:+ description +:+ dq;
    "homepage: " +:+ dq +:+ HOMEPAGE +:+ dq;
    "metadata: " +:+ metadata_str;
    "---" ].

(** [process_skill]: what it returns (or raises) and the files afterwards. *)
Definition process_skill (skill_dir : Path) (fs : skill_files)
    : py (option string) * skill_files :=
  match SKILL_md fs with
  | None => (Ret None, fs)
  | Some content =>
    let '(fm, body) := parse_frontmatter content in
    if no_fields fm
    then (Ret (Some ("SKIP (no frontmatter): " +:+ path_name skill_dir)), fs)
    else
    let fm := default ∅ fm in
    if bool_decide (is_Some (fm !! "homepage"))
    then (Ret (Some ("SKIP (already updated): " +:+ path_name skill_dir)), fs)
    else
    let name := skill_name skill_dir fm in
    let description := skill_description fm in
    match derive skill_dir name description content with
    | Raise e => (Raise e, fs)
    | Ret d =>
      let metadata_str := build_metadata (d_emoji d) (d_os d) HOMEPAGE (d_requires d) in
      let new_content := join nl (new_fm_lines name description metadata_str) +:+ nl +:+ body in
      let fs := {| SKILL_md := Some new_content;
                   claw_json := claw_json fs;
                   instructions_md := instructions_md fs |} in
      let fs :=
        match claw_json fs with
        | Some _ => fs
        | None =>
            let claw_data := build_claw_json name description (d_permissions d) (d_tags d) in
            {| SKILL_md := SKILL_md fs;
               claw_json := Some (Json.dumps_indent 2 0 claw_data);
               instructions_md := instructions_md fs |}
        end in
      let fs :=
        match instructions_md fs with
        | Some _ => fs
        | None =>
            let instructions := generate_instructions name description content in
            {| SKILL_md := SKILL_md fs;
               claw_json := claw_json fs;
               instructions_md := Some instructions |}
        end in
      (Ret (Some ("OK: " +:+ name)), fs)
    end
  end.

(** ** Definitions that follow the words of the specification *)

Module Spec.

(** A keyword set matches a text when one of its keywords occurs in it. *)
Definition matches (kws : list string) (s : string) : Prop :=
  Exists (fun kw => occurs_in kw s) kws.

(** The names of a keyword table whose keyword sets match, in table order. *)
Definition matching_names (table : list (string * list string)) (s : string)
    : list string :=
  map fst (List.filter (fun item => any_in (snd item) s) table).

(** The seven fallback groups of the emoji selection, in order. *)
Definition name_groups : list (list string * string) :=
  [ (["cost"; "estimat"; "budget"; "price"; "payment"], "💰");
    (["schedule"; "gantt"; "4d"; "timeline"], "📅");
    (["safety"; "inspection"; "compliance"], "🦺");
    (["report"; "document"; "pdf"; "docx"], "📄");
    (["bim"; "ifc"; "revit"], "🏗️");
    (["ml"; "predict"; "ai"; "neural"], "🤖");
    (["data"; "etl"; "pipeline"], "📊") ].

(** First group with a keyword in the name wins; the tool emoji otherwise. *)
Definition emoji_by_name (name : string) : string :=
  match List.find (fun g => any_in (fst g) name) name_groups with
  | Some g => snd g
  | None => "🔧"
  end.

(** Sub-category, then top category, then the name, then the default. *)
Definition emoji_by_precedence (subcat topcat name : string) : string :=
  match EMOJI_MAP !! subcat with
  | Some e => e
  | None =>
      match EMOJI_MAP !! topcat with
      | Some e => e
      | None => emoji_by_name name
      end
  end.

(** Occurrences of a character in a text. *)
Fixpoint count_chr (c : ascii) (s : string) : nat :=
  match s with
  | EmptyString => 0
  | String a s' => (if Ascii.eqb a c then 1 else 0) + count_chr c s'
  end.

(** A document is a header of [n] lines, each ended by a line feed, and
    then the body. *)
Definition header_of_lines (n : nat) (doc body : string) : Prop :=
  exists lines, length lines = n /\ Forall one_line lines /\
                doc = join nl lines +:+ nl +:+ body.

(** A line that does not start with three dashes. *)
Definition no_dashes (l : string) : Prop := drop_prefix "---" l = None.

(** Put [l] in front of the group of a way to match the header pattern. *)
Definition extend (l : string) (gr : string * string) : string * string :=
  (l +:+ gr.1, gr.2).

(** What is left of a document after the closing delimiter, when [body]
    follows the delimiter line: the body without the blank lines at its
    start. *)
Definition after_close (body : string) : string :=
  List.hd body (Frontmatter.ws_then_nl body).

(** The text of SKILL.md after a skill is processed. *)
Definition new_content (name description body : string) (d : derived) : string :=
  join nl (new_fm_lines name description
             (build_metadata (d_emoji d) (d_os d) HOMEPAGE (d_requires d)))
  +:+ nl +:+ body.

(** The files after a skill with header [fm] and body [body] is processed:
    the document is rewritten, the manifest and the instruction file are
    created when they are missing. *)
Definition processed (skill_dir : Path) (fs : skill_files) (content : string)
    (fm : gmap string string) (body : string) (d : derived) : skill_files :=
  let name := skill_name skill_dir fm in
  let description := skill_description fm in
  {| SKILL_md := Some (new_content name description body d);
     claw_json :=
       Some (default (Json.dumps_indent 2 0
                        (build_claw_json name description (d_permissions d) (d_tags d)))
                     (claw_json fs));
     instructions_md :=
       Some (default (generate_instructions name description content)
                     (instructions_md fs)) |}.

End Spec.

(** ** Two small skills *)

Module Examples.

Definition dir : Path := ["1_DDC_Toolkit"; "Cost-Management"; "cost-report"].

Definition body : string :=
"Read the CSV file.
".

Definition content : string :=
"---
name: cost-report
description: Estimate costs from a CSV export
---
" +:+ body.

(** Only the document exists. *)
Definition files : skill_files :=
  {| SKILL_md := Some content; claw_json := None; instructions_md := None |}.

(** The manifest and the instruction file exist already. *)
Definition files_with_manifest : skill_files :=
  {| SKILL_md := Some content;
     claw_json := Some "{}";
     instructions_md := Some "Ask the site manager." |}.

(** A second skill with the same name and description, in another
    directory and with another document. *)
Definition other_dir : Path := ["5_DDC_Innovative"; "reports"].

Definition other_content : string :=
"---
description: 'Estimate costs from a CSV export'
slug: ignored
name: cost-report
---
import pandas
requests.get(url)
".

Definition other_files : skill_files :=
  {| SKILL_md := Some other_content; claw_json := None; instructions_md := None |}.

(** A text by its bytes. *)
Definition bytes (l : list nat) : string :=
  fold_right (fun n s => String (ascii_of_nat n) s) EmptyString l.

(** The no-break space U+00A0 and the em space U+2003, as UTF-8. *)
Definition NBSP : string := bytes [194; 160].
Definition EMSP : string := bytes [226; 128; 131].

(** The twenty-nine characters for which [str.isspace] holds, as UTF-8:
    U+0009 to U+000D, U+001C to U+0020, U+0085, U+00A0, U+1680, U+2000 to
    U+200A, U+2028, U+2029, U+202F, U+205F and U+3000. *)
Definition whitespace_characters : list string :=
  map bytes
    [ [9]; [10]; [11]; [12]; [13]; [28]; [29]; [30]; [31]; [32];
      [194; 133]; [194; 160]; [225; 154; 128];
      [226; 128; 128]; [226; 128; 129]; [226; 128; 130]; [226; 128; 131];
      [226; 128; 132]; [226; 128; 133]; [226; 128; 134]; [226; 128; 135];
      [226; 128; 136]; [226; 128; 137]; [226; 128; 138];
      [226; 128; 168]; [226; 128; 169]; [226; 128; 175]; [226; 129; 159];
      [227; 128; 128] ].

(** Characters next to those, for which it does not hold: U+0008, U+000E,
    U+001B, "!", U+0084, U+0086, U+00A1, U+167F, U+180E, U+200B, U+2027,
    U+202A, U+2060, U+3001 and U+FEFF. *)
Definition other_characters : list string :=
  map bytes
    [ [8]; [14]; [27]; [33]; [194; 132]; [194; 134]; [194; 161]; [225; 153; 191];
      [225; 160; 142]; [226; 128; 139]; [226; 128; 167]; [226; 128; 170];
      [226; 129; 160]; [227; 128; 129]; [239; 187; 191] ].

(** A document with such spaces after the delimiters, after a value, and
    alone on the line after the header. *)
Definition spaced_content : string :=
  "---" +:+ NBSP +:+ nl +:+ "name: x" +:+ NBSP +:+ nl +:+ "---" +:+ EMSP +:+ nl
  +:+ NBSP +:+ nl +:+ "Body" +:+ nl.

(** A migrated document with a no-break space after the key. *)
Definition migrated_files : skill_files :=
  {| SKILL_md := Some ("---" +:+ nl +:+ "homepage" +:+ NBSP +:+ ": y" +:+ nl
                       +:+ "---" +:+ nl);
     claw_json := None; instructions_md := None |}.

End Examples.

(** ** The batch *)

(** A directory with none of the three files. *)
Definition no_files : skill_files :=
  {| SKILL_md := None; claw_json := None; instructions_md := None |}.

#[global] Instance skill_files_eq_dec : EqDecision skill_files.
Proof. solve_decision. Defined.

(** The files of a directory, in a tree of skill directories. *)
Definition files_at (tree : gmap Path skill_files) (skill_dir : Path) : skill_files :=
  default no_files (tree !! skill_dir).

(** The tree after a run on one directory left its files as [fs]. *)
Definition write_back (tree : gmap Path skill_files) (skill_dir : Path)
    (fs : skill_files) : gmap Path skill_files :=
  if decide (files_at tree skill_dir = fs) then tree else <[skill_dir := fs]> tree.

(** [str(e)] *)
Definition exn_message (e : exn) : string :=
  match e with
  | IndexError => "list index out of range"
  | KeyError => "'python3'"
  end.

(** [s * n] *)
Fixpoint str_mul (s : string) (n : nat) : string :=
  match n with
  | O => EmptyString
  | S n' => s +:+ str_mul s n'
  end.

(** The counters of [main] and the lines printed so far. *)
Record tally : Type := {
  updated : nat;
  skipped : nat;
  errors : nat;
  printed : list string;
}.

Definition print (line : string) (t : tally) : tally :=
  {| updated := updated t; skipped := skipped t; errors := errors t;
     printed := printed t ++ [line] |}.

(** One turn of the loop of [main]: the [try] block around [process_skill]
    and the [except] clause. *)
Definition main_step (st : gmap Path skill_files * tally) (skill_dir : Path)
    : gmap Path skill_files * tally :=
  let '(tree, t) := st in
  let '(outcome, fs) := process_skill skill_dir (files_at tree skill_dir) in
  let tree := write_back tree skill_dir fs in
  match outcome with
  | Ret result =>
      if truthy result then
        let result := default EmptyString result in
        let t := print result t in
        if startswith "OK" result
        then (tree, {| updated := updated t + 1; skipped := skipped t;
                       errors := errors t; printed := printed t |})
        else if startswith "SKIP" result
        then (tree, {| updated := updated t; skipped := skipped t + 1;
                       errors := errors t; printed := printed t |})
        else (tree, t)
      else (tree, t)
  | Raise e =>
      let t := print ("ERROR: " +:+ path_name skill_dir +:+ " - " +:+ exn_message e) t in
      (tree, {| updated := updated t; skipped := skipped t;
                errors := errors t + 1; printed := printed t |})
  end.

(** [main], from the list that [sorted] makes of the directories that
    [BASE.rglob("SKILL.md")] finds, and the files of those directories. *)
Definition main (skill_dirs : list Path) (tree : gmap Path skill_files)
    : gmap Path skill_files * tally :=
  let t := {| updated := 0; skipped := 0; errors := 0; printed := [] |} in
  let t := print ("Found " +:+ pretty (length skill_dirs) +:+ " skills total") t in
  let t := print (str_mul "=" 60) t in
  let '(tree, t) := fold_left main_step skill_dirs (tree, t) in
  let t := print (str_mul "=" 60) t in
  let t := print ("Updated: " +:+ pretty (updated t)) t in
  let t := print ("Skipped: " +:+ pretty (skipped t)) t in
  let t := print ("Errors:  " +:+ pretty (errors t)) t in
  let t := print ("Total:   " +:+ pretty (updated t + skipped t + errors t)) t in
  (tree, t).

(** ** More definitions that state properties *)

Module Header.

(** A document with a header: three dashes, whitespace up to a line feed,
    the header text, a line feed and three dashes, whitespace up to a line
    feed, and the rest. *)
Definition shaped (content text rest : string) : Prop :=
  exists w1 w2,
    all_space w1 = true /\ all_space w2 = true /\
    content = "---" +:+ w1 +:+ nl +:+ text +:+ nl +:+ "---" +:+ w2 +:+ nl +:+ rest.

(** The field that a line of the header gives: none without a colon. *)
Definition line_item (line : string) : option (string * string) :=
  let line := strip line in
  if chr_in ":"%char line then
    let '(key, value) := partition ":"%char line in
    Some (strip key, strip_chr SQ (strip_chr DQ (strip value)))
  else None.

(** The value that a line gives for [key], if it is a line for that key. *)
Definition value_for (key line : string) : option string :=
  match line_item line with
  | Some (k, v) => if String.eqb k key then Some v else None
  | None => None
  end.

(** A text that stripping quotes leaves as it is. *)
Definition quote_clean (v : string) : Prop :=
  strip_chr DQ v = v /\ strip_chr SQ v = v.

(** The four fields of a header that [process_skill] wrote. *)
Definition written_fields (name description metadata_str : string)
    : gmap string string :=
  <["metadata" := metadata_str]>
    (<["homepage" := HOMEPAGE]>
       (<["description" := description]>
          (<["name" := name]> ∅))).

End Header.

Module Phrases.

(** The ten checks of the domain phrase, in the order of the [if] chain:
    the keywords of a check and its phrase. *)
Definition domain_groups : list (list string * string) :=
  [ (["cwicr"],
     "construction cost data using CWICR (Construction Work Item Cost Resource) database");
    (["bim"; "ifc"; "rvt"], "BIM (Building Information Modeling) data processing");
    (["schedule"; "4d"; "gantt"], "construction project scheduling");
    (["safety"; "inspection"], "construction safety and compliance");
    (["cost"; "estimat"; "price"; "budget"], "construction cost estimation and management");
    (["report"; "document"; "pdf"], "construction document management and reporting");
    (["data"; "etl"; "pipeline"], "construction data processing and analytics");
    (["ml"; "predict"], "machine learning for construction");
    (["n8n"; "workflow"; "automat"], "construction workflow automation");
    (["material"; "procurement"], "construction procurement and materials management") ].

(** The nine checks of the action phrase. *)
Definition action_groups : list (list string * string) :=
  [ (["convert"; "extract"], "convert or extract data");
    (["estimat"; "cost"], "create cost estimates or analyze costs");
    (["analyz"; "analysis"], "analyze data and generate insights");
    (["generat"; "creat"], "generate documents or reports");
    (["manag"; "track"], "manage and track project data");
    (["validat"; "check"], "validate data quality and compliance");
    (["predict"; "forecast"], "predict outcomes using data models");
    (["schedul"], "manage schedules and timelines");
    (["search"; "query"], "search and query data") ].

(** The phrase of the first check with a keyword in the text, and the
    default phrase when no check has one. *)
Definition first_phrase (groups : list (list string * string)) (default s : string)
    : string :=
  match List.find (fun g => any_in (fst g) s) groups with
  | Some g => snd g
  | None => default
  end.

End Phrases.

(** * Properties *)

(** ** Strings *)

Section StringFacts.

Lemma app_cons (c : ascii) (s t : string) : String c s +:+ t = String c (s +:+ t).
Proof. reflexivity. Qed.

Lemma app_nil_l (s : string) : EmptyString +:+ s = s.
Proof. reflexivity. Qed.

Lemma app_nil_r (s : string) : s +:+ EmptyString = s.
Proof. induction s as [|c s IH]; [reflexivity|]. rewrite app_cons, IH. reflexivity. Qed.

Lemma app_assoc (s t u : string) : (s +:+ t) +:+ u = s +:+ t +:+ u.
Proof.
  induction s as [|c s IH]; [reflexivity|]. rewrite !app_cons, IH. reflexivity.
Qed.

Lemma startswith_spec (p s : string) :
  startswith p s = true <-> exists post, s = p +:+ post.
Proof.
  revert s. induction p as [|a p IH]; intros s; simpl.
  - split; [intros _; exists s; reflexivity | reflexivity].
  - destruct s as [|b s].
    + split; [discriminate | intros [post H]; discriminate].
    + rewrite andb_true_iff, IH. destruct (Ascii.eqb_spec a b) as [->|Hne].
      * split; [intros [_ [post H]] | intros [post H]; split; [reflexivity|]];
          exists post; rewrite app_cons in *; congruence.
      * split; [intros [? _]; discriminate
               | intros [post H]; rewrite app_cons in H; congruence].
Qed.

(** The substring test decides occurrence. *)
Lemma str_in_spec (kw s : string) : str_in kw s = true <-> occurs_in kw s.
Proof.
  unfold occurs_in. induction s as [|c s IH]; simpl.
  - rewrite orb_false_r, startswith_spec. split.
    + intros [post H]. exists EmptyString, post. exact H.
    + intros (pre & post & H). destruct pre; [exists post; exact H|discriminate].
  - rewrite orb_true_iff, startswith_spec, IH. split.
    + intros [[post H]|(pre & post & H)].
      * exists EmptyString, post. exact H.
      * exists (String c pre), post. rewrite app_cons. congruence.
    + intros (pre & post & H). destruct pre as [|a pre].
      * left. exists post. exact H.
      * right. exists pre, post. rewrite app_cons in H. congruence.
Qed.

Lemma any_in_spec (kws : list string) (s : string) :
  any_in kws s = true <-> Spec.matches kws s.
Proof.
  unfold any_in, Spec.matches. rewrite existsb_exists, List.Exists_exists.
  split; intros (kw & Hin & H); exists kw; (split; [exact Hin|]);
    apply str_in_spec; exact H.
Qed.

Lemma any_in_false (kws : list string) (s : string) :
  any_in kws s = false <-> ~ Spec.matches kws s.
Proof. rewrite <- any_in_spec. destruct (any_in kws s); intuition congruence. Qed.

End StringFacts.

(** ** The loops over keyword tables *)

Section Loops.

Variable content : string.

Lemma tags_loop (table : list (string * list string)) (tags : list string) :
  fold_left (tags_step content) table tags = tags ++ Spec.matching_names table content.
Proof.
  revert tags. induction table as [|[tag kws] table IH]; intros tags; simpl.
  - rewrite List.app_nil_r. reflexivity.
  - unfold Spec.matching_names in *. simpl. rewrite IH.
    destruct (any_in kws content); simpl; [rewrite <- List.app_assoc|]; reflexivity.
Qed.

Lemma env_loop (table : list (string * list string)) (env : list string) :
  Forall (fun item => fst item <> EmptyString) table ->
  Forall (fun name => name <> EmptyString) env ->
  fold_left (env_step content) table (env, List.hd_error env) =
    let env' := env ++ Spec.matching_names table content in
    (env', List.hd_error env').
Proof.
  revert env. induction table as [|[env_name kws] table IH]; intros env Htable Henv.
  - unfold Spec.matching_names. simpl. rewrite List.app_nil_r. reflexivity.
  - inversion Htable as [|? ? Hname Htable']; subst. simpl in Hname.
    cbn [fold_left env_step]. unfold Spec.matching_names in *. cbn [List.filter snd].
    destruct (any_in kws content) eqn:Hk; [|apply IH; assumption].
    assert ((if negb (truthy (List.hd_error env)) then Some env_name
             else List.hd_error env) = List.hd_error (env ++ [env_name])) as ->.
    { destruct env as [|x env]; [reflexivity|].
      inversion Henv; subst. destruct x; [congruence|reflexivity]. }
    rewrite IH; [|assumption|].
    + cbn [map fst]. cbn zeta. rewrite <- List.app_assoc. reflexivity.
    + apply Forall_app. split; [assumption|]. constructor; [assumption|constructor].
Qed.

End Loops.

(** ** The classifier *)

Lemma get_subcategory_top (skill_path : Path) (subcat : string) :
  get_subcategory skill_path = Ret subcat ->
  exists topcat, get_top_category skill_path = Ret topcat.
Proof.
  destruct skill_path as [|top rest]; [discriminate|].
  intros _. exists top. reflexivity.
Qed.

(** C1, as amended.  For the skill "cwicr-cost-lookup" of the sub-category
    "CWICR-Database", whatever its top category, and a raw text without a
    network marker: the emoji is the one of the sub-category, the
    permissions are exactly "filesystem", and the tags are exactly
    construction, estimation, cost-management, data-processing and
    procurement.  "CWICR" is the fifth tag that matches, hence the sixth
    entry, which the cap of five drops. *)
Theorem cwicr_cost_lookup_classified (skill_path : Path) (topcat content : string) :
  get_subcategory skill_path = Ret "CWICR-Database" ->
  ~ Spec.matches NETWORK_KEYWORDS content ->
  let name := "cwicr-cost-lookup" in
  let description := "Estimate material costs using the CWICR database" in
  let subcat := "CWICR-Database" in
  determine_emoji skill_path name = Ret "🗄️" /\
  EMOJI_MAP !! subcat = Some "🗄️" /\
  determine_tags name description subcat topcat =
    ["construction"; "estimation"; "cost-management"; "data-processing"; "procurement"] /\
  Spec.matching_names tag_keywords (lower (name +:+ " " +:+ description +:+ " " +:+ subcat)) =
    ["estimation"; "cost-management"; "data-processing"; "procurement"; "CWICR"] /\
  determine_permissions content = ["filesystem"].
Proof.
  intros Hsub Hnet name description subcat.
  destruct (get_subcategory_top _ _ Hsub) as [top Htop].
  split; [|split; [|split; [|split]]].
  - unfold determine_emoji. rewrite Hsub, Htop. reflexivity.
  - reflexivity.
  - vm_compute. reflexivity.
  - vm_compute. reflexivity.
  - unfold determine_permissions. apply any_in_false in Hnet. rewrite Hnet. reflexivity.
Qed.

Lemma cwicr_cost_lookup_classified_witness :
  determine_emoji ["1_DDC_Toolkit"; "CWICR-Database"; "cwicr-cost-lookup"]
    "cwicr-cost-lookup" = Ret "🗄️" /\
  determine_permissions "Look up unit costs in a local CSV export." = ["filesystem"].
Proof.
  pose proof (cwicr_cost_lookup_classified
                ["1_DDC_Toolkit"; "CWICR-Database"; "cwicr-cost-lookup"]
                "1_DDC_Toolkit" "Look up unit costs in a local CSV export."
                eq_refl) as H.
  assert (~ Spec.matches NETWORK_KEYWORDS "Look up unit costs in a local CSV export.") as Hnet.
  { apply any_in_false. vm_compute. reflexivity. }
  destruct (H Hnet) as (He & _ & _ & _ & Hp). split; [exact He | exact Hp].
Defined.

(** C1, as stated, fails: the tag list of the example begins as the claim
    says but does not contain "CWICR". *)
Lemma cwicr_cost_lookup_tags_without_CWICR :
  let tags := determine_tags "cwicr-cost-lookup"
                "Estimate material costs using the CWICR database"
                "CWICR-Database" "1_DDC_Toolkit" in
  List.firstn 3 tags = ["construction"; "estimation"; "cost-management"] /\
  ~ In "CWICR" tags.
Proof.
  vm_compute. split; [reflexivity|].
  intros H. repeat (destruct H as [H|H]; [discriminate H|]). exact H.
Qed.

Lemma tag_names_NoDup : NoDup ("construction" :: map fst tag_keywords).
Proof. refine (bool_decide_unpack _ _). vm_compute. exact I. Qed.

Lemma matching_names_sublist (table : list (string * list string)) (s : string) :
  Spec.matching_names table s `sublist_of` map fst table.
Proof.
  unfold Spec.matching_names. induction table as [|[k kws] table IH]; simpl.
  - constructor.
  - destruct (any_in kws s); simpl; [apply sublist_skip | apply sublist_cons]; exact IH.
Qed.

(** C3.  Whatever the name, the description and the categories, the tag
    list starts with "construction", has at most five entries and has no
    entry twice. *)
Theorem determine_tags_invariant (name description subcat topcat : string) :
  let tags := determine_tags name description subcat topcat in
  List.hd_error tags = Some "construction" /\ length tags <= 5 /\ NoDup tags.
Proof.
  unfold determine_tags. cbv zeta. rewrite tags_loop.
  set (combined := lower _). split; [|split].
  - reflexivity.
  - rewrite length_take. lia.
  - eapply sublist_NoDup; [exact tag_names_NoDup|].
    etrans; [apply sublist_take|].
    apply (sublist_skip "construction"), matching_names_sublist.
Qed.

Lemma determine_os_loop_spec (kws : list string) (content : string) :
  determine_os_loop kws content =
    if any_in kws content then ["win32"] else ["darwin"; "linux"; "win32"].
Proof.
  induction kws as [|kw kws IH]; simpl; [reflexivity|].
  destruct (str_in kw content); [reflexivity | exact IH].
Qed.

(** C4.  The OS list is exactly "win32" when a Windows-only marker occurs
    anywhere in the raw text, and exactly the three platforms otherwise. *)
Theorem determine_os_spec (content : string) :
  (Spec.matches WIN32_KEYWORDS content -> determine_os content = ["win32"]) /\
  (~ Spec.matches WIN32_KEYWORDS content ->
   determine_os content = ["darwin"; "linux"; "win32"]).
Proof.
  unfold determine_os. rewrite determine_os_loop_spec. split; intros H.
  - apply any_in_spec in H. rewrite H. reflexivity.
  - apply any_in_false in H. rewrite H. reflexivity.
Qed.

Lemma determine_os_spec_witness :
  determine_os "Export the Revit model from model.rvt" = ["win32"] /\
  determine_os "Read quantities from a CSV file" = ["darwin"; "linux"; "win32"].
Proof.
  split.
  - apply (proj1 (determine_os_spec _)). apply any_in_spec. vm_compute. reflexivity.
  - apply (proj2 (determine_os_spec _)). apply any_in_false. vm_compute. reflexivity.
Defined.

Lemma name_fallback_refines (name : string) :
  (if any_in ["cost"; "estimat"; "budget"; "price"; "payment"] name then "💰"
   else if any_in ["schedule"; "gantt"; "4d"; "timeline"] name then "📅"
   else if any_in ["safety"; "inspection"; "compliance"] name then "🦺"
   else if any_in ["report"; "document"; "pdf"; "docx"] name then "📄"
   else if any_in ["bim"; "ifc"; "revit"] name then "🏗️"
   else if any_in ["ml"; "predict"; "ai"; "neural"] name then "🤖"
   else if any_in ["data"; "etl"; "pipeline"] name then "📊"
   else "🔧") = Spec.emoji_by_name name.
Proof.
  unfold Spec.emoji_by_name, Spec.name_groups. cbn [List.find fst snd].
  repeat match goal with |- context [any_in ?k name] => destruct (any_in k name) end;
    reflexivity.
Qed.

Lemma determine_emoji_returns (skill_path : Path) (name subcat topcat : string) :
  get_subcategory skill_path = Ret subcat ->
  get_top_category skill_path = Ret topcat ->
  determine_emoji skill_path name = Ret (Spec.emoji_by_precedence subcat topcat name).
Proof.
  intros Hsub Htop.
  unfold determine_emoji, Spec.emoji_by_precedence. rewrite Hsub, Htop.
  cbn [mbind py_bind]. rewrite <- name_fallback_refines.
  destruct (EMOJI_MAP !! subcat); [reflexivity|].
  destruct (EMOJI_MAP !! topcat); [reflexivity|].
  repeat match goal with |- context [any_in ?k name] => destruct (any_in k name) end;
    reflexivity.
Qed.

(** C5.  For a skill directory below the root, the emoji is chosen by
    precedence: the entry of the sub-category in the emoji table; failing
    that the entry of the top category; failing that the first of the seven
    name-keyword groups with a keyword in the name; failing that the tool
    emoji.  A sub-category in the table wins over any name, as for the
    sub-category "CWICR-Database" and a name with "cost" in it. *)
Theorem determine_emoji_precedence (skill_path : Path) (name subcat topcat : string) :
  get_subcategory skill_path = Ret subcat ->
  get_top_category skill_path = Ret topcat ->
  determine_emoji skill_path name = Ret (Spec.emoji_by_precedence subcat topcat name) /\
  (forall e, EMOJI_MAP !! subcat = Some e -> determine_emoji skill_path name = Ret e) /\
  (forall e, EMOJI_MAP !! subcat = None -> EMOJI_MAP !! topcat = Some e ->
             determine_emoji skill_path name = Ret e) /\
  (EMOJI_MAP !! subcat = None -> EMOJI_MAP !! topcat = None ->
   determine_emoji skill_path name = Ret (Spec.emoji_by_name name)).
Proof.
  intros Hsub Htop.
  pose proof (determine_emoji_returns skill_path name subcat topcat Hsub Htop) as Heq.
  split; [exact Heq|]. rewrite Heq. unfold Spec.emoji_by_precedence.
  split; [|split].
  - intros e ->. reflexivity.
  - intros e -> ->. reflexivity.
  - intros -> ->. reflexivity.
Qed.

Lemma determine_emoji_precedence_witness :
  determine_emoji ["1_DDC_Toolkit"; "CWICR-Database"; "cost-estimator"] "cost-estimator"
    = Ret "🗄️" /\
  Spec.emoji_by_name "cost-estimator" = "💰".
Proof.
  split; [|reflexivity].
  exact (proj1 (determine_emoji_precedence
                  ["1_DDC_Toolkit"; "CWICR-Database"; "cost-estimator"] "cost-estimator"
                  "CWICR-Database" "1_DDC_Toolkit" eq_refl eq_refl)).
Defined.

(** C6.  The permissions start with "filesystem", and hold "network"
    exactly when a networking marker occurs in the raw text. *)
Theorem determine_permissions_spec (content : string) :
  List.hd_error (determine_permissions content) = Some "filesystem" /\
  (In "network" (determine_permissions content) <-> Spec.matches NETWORK_KEYWORDS content).
Proof.
  unfold determine_permissions. rewrite <- any_in_spec.
  destruct (any_in NETWORK_KEYWORDS content); simpl; split; try reflexivity.
  - split; [reflexivity | intros _; right; left; reflexivity].
  - split; [intros [H|[]]; discriminate H | discriminate].
Qed.

Lemma matching_names_In (table : list (string * list string)) (s name : string) :
  In name (Spec.matching_names table s) -> In name (map fst table).
Proof.
  intros H. apply list_elem_of_In. apply list_elem_of_In in H.
  eapply elem_of_sublist; [exact H | apply matching_names_sublist].
Qed.

Lemma first_match_is_head {A} (f : string * A -> bool) (table : list (string * A)) :
  List.hd_error (map fst (List.filter f table)) = option_map fst (List.find f table).
Proof.
  induction table as [|item table IH]; simpl; [reflexivity|].
  destruct (f item); [reflexivity | exact IH].
Qed.

Lemma items_get_set_other {A} (key k : string) (v : A) (d : list (string * A)) :
  k <> key -> items_get key (d ++ [(k, v)]) = items_get key d.
Proof.
  intros Hne. induction d as [|[k' v'] d IH]; simpl.
  - apply String.eqb_neq in Hne. rewrite Hne. reflexivity.
  - destruct (String.eqb k' key); [reflexivity | exact IH].
Qed.

Lemma items_get_set_new {A} (key : string) (v : A) (d : list (string * A)) :
  items_get key d = None -> items_get key (d ++ [(key, v)]) = Some v.
Proof.
  induction d as [|[k' v'] d IH]; simpl.
  - intros _. rewrite String.eqb_refl. reflexivity.
  - destruct (String.eqb k' key); [discriminate | exact IH].
Qed.

Lemma items_get_set_if_other (key k : string) (l : list string)
    (d : list (string * list string)) :
  k <> key -> items_get key (set_if_nonempty k l d) = items_get key d.
Proof.
  intros Hne. destruct l; [reflexivity|]. apply items_get_set_other. exact Hne.
Qed.

Lemma determine_requires_returns (content : string) :
  exists info, determine_requires content = Ret info.
Proof.
  unfold determine_requires.
  change (items_get "python3" BIN_REQUIREMENTS)
    with (Some ["import "; "python"; "pip install"; "pandas"; "numpy"]). cbv iota beta.
  destruct (fold_left (env_step content) ENV_REQUIREMENTS ([], None)) as [env primary_env].
  eexists. reflexivity.
Qed.

(** C7.  The environment variables whose keyword set matches the raw text
    are collected under "env" in the order of the table; the primary
    variable is the first of them, that is the first entry of the table that
    matches; without any match there is neither an "env" entry nor a
    "primaryEnv" entry, in the result and in the metadata record built from
    it. *)
Theorem determine_requires_env (content : string) :
  let matching := Spec.matching_names ENV_REQUIREMENTS content in
  exists info,
    determine_requires content = Ret info /\
    items_get "env" (requires info) =
      match matching with [] => None | _ => Some matching end /\
    primaryEnv info = List.hd_error matching /\
    primaryEnv info =
      option_map fst (List.find (fun item => any_in (snd item) content) ENV_REQUIREMENTS) /\
    forall emoji os_list homepage,
      metadata_dict emoji os_list homepage info =
        JObj [("openclaw",
               JObj ([ ("emoji", JStr emoji); ("os", strs os_list);
                       ("homepage", JStr homepage);
                       ("requires", JObj (map (fun kv => (kv.1, strs kv.2)) (requires info))) ]
                     ++ match List.hd_error matching with
                        | Some v => [("primaryEnv", JStr v)]
                        | None => []
                        end))].
Proof.
  intros matching. unfold determine_requires.
  change (items_get "python3" BIN_REQUIREMENTS)
    with (Some ["import "; "python"; "pip install"; "pandas"; "numpy"]). cbv iota beta.
  set (bins := if any_in _ content then _ else _).
  set (any_bins := fold_left _ BIN_REQUIREMENTS []).
  change (@nil string, @None string) with (@nil string, List.hd_error (@nil string)).
  rewrite env_loop; [|repeat constructor; discriminate|constructor].
  cbn [app]. fold matching.
  assert (truthy (List.hd_error matching) = true \/ List.hd_error matching = None) as Hprim.
  { destruct matching as [|x m] eqn:E; [right; reflexivity|left].
    assert (In x (map fst ENV_REQUIREMENTS)) as Hin.
    { apply (matching_names_In _ content). fold matching. rewrite E. left. reflexivity. }
    simpl in Hin. destruct Hin as [<-|[<-|[]]]; reflexivity. }
  assert ((if truthy (List.hd_error matching) then List.hd_error matching else None)
          = List.hd_error matching) as Hp.
  { destruct Hprim as [->| ->]; reflexivity. }
  eexists. split; [reflexivity|]. cbn [requires primaryEnv]. rewrite Hp.
  split; [|split; [|split]].
  - destruct matching as [|x m]; cbn [set_if_nonempty].
    + rewrite !items_get_set_if_other by discriminate. reflexivity.
    + apply items_get_set_new. rewrite !items_get_set_if_other by discriminate. reflexivity.
  - reflexivity.
  - apply first_match_is_head.
  - intros emoji os_list homepage. unfold metadata_dict. cbn [requires primaryEnv].
    destruct (List.hd_error matching); reflexivity.
Qed.

(** ** Lines *)

Section Lines.

Lemma chr_in_app (c : ascii) (s t : string) :
  chr_in c (s +:+ t) = chr_in c s || chr_in c t.
Proof.
  induction s as [|a s IH]; [reflexivity|].
  rewrite app_cons. simpl. rewrite IH, orb_assoc. reflexivity.
Qed.

Lemma one_line_app (s t : string) : one_line (s +:+ t) <-> one_line s /\ one_line t.
Proof. unfold one_line. rewrite chr_in_app. apply orb_false_iff. Qed.

Lemma one_line_cons (c : ascii) (s : string) :
  one_line (String c s) <-> c <> LF /\ one_line s.
Proof.
  unfold one_line. simpl. rewrite orb_false_iff.
  destruct (Ascii.eqb_spec c LF); intuition congruence.
Qed.

Lemma one_line_lstrip (p : ascii -> bool) (s : string) :
  one_line s -> one_line (lstrip_by p s).
Proof.
  induction s as [|c s IH]; [trivial|]. intros H. simpl.
  destruct (p c); [|exact H]. apply IH. apply one_line_cons in H. tauto.
Qed.

Lemma one_line_rstrip (p : ascii -> bool) (s : string) :
  one_line s -> one_line (rstrip_by p s).
Proof.
  induction s as [|c s IH]; [trivial|]. intros H. apply one_line_cons in H.
  destruct H as [Hc Hs]. specialize (IH Hs). simpl.
  destruct (rstrip_by p s) as [|a r].
  - destruct (p c); [reflexivity|]. apply one_line_cons. split; [exact Hc|reflexivity].
  - apply one_line_cons. split; assumption.
Qed.

Lemma one_line_strip_by (p : ascii -> bool) (s : string) :
  one_line s -> one_line (strip_by p s).
Proof. intros H. apply one_line_rstrip, one_line_lstrip, H. Qed.

Lemma one_line_partition (sep : ascii) (s : string) :
  one_line s -> one_line (partition sep s).1 /\ one_line (partition sep s).2.
Proof.
  induction s as [|c s IH]; [split; reflexivity|]. intros H.
  apply one_line_cons in H. destruct H as [Hc Hs]. specialize (IH Hs). simpl.
  destruct (Ascii.eqb c sep); [split; [reflexivity|exact Hs]|].
  destruct (partition sep s) as [k v]. simpl in *.
  split; [apply one_line_cons|]; tauto.
Qed.

(** The pieces of a text split at line feeds have no line feed. *)
Lemma split_one_line (s : string) : Forall one_line (split LF s).
Proof.
  induction s as [|c s IH]; simpl.
  - constructor; [reflexivity|constructor].
  - destruct (Ascii.eqb_spec c LF) as [->|Hc].
    + constructor; [reflexivity|exact IH].
    + destruct (split LF s) as [|l ls].
      * constructor; [|constructor]. apply one_line_cons. split; [exact Hc|reflexivity].
      * inversion IH; subst.
        constructor; [|assumption]. apply one_line_cons. split; assumption.
Qed.

Lemma split_cons_one_line (l s : string) :
  one_line l -> split LF (l +:+ String LF s) = l :: split LF s.
Proof.
  induction l as [|c l IH]; intros H.
  - reflexivity.
  - apply one_line_cons in H. destruct H as [Hc Hl]. rewrite app_cons. simpl.
    apply Ascii.eqb_neq in Hc. rewrite Hc, (IH Hl). reflexivity.
Qed.

Lemma split_one (l : string) : one_line l -> split LF l = [l].
Proof.
  induction l as [|c l IH]; intros H; [reflexivity|].
  apply one_line_cons in H. destruct H as [Hc Hl]. simpl.
  apply Ascii.eqb_neq in Hc. rewrite Hc, (IH Hl). reflexivity.
Qed.

(** Splitting undoes joining, for lines without a line feed. *)
Lemma split_join (ls : list string) :
  ls <> [] -> Forall one_line ls -> split LF (join nl ls) = ls.
Proof.
  induction ls as [|l ls IH]; [congruence|]. intros _ H.
  inversion H as [|? ? Hl Hls]; subst. destruct ls as [|l' ls].
  - apply split_one, Hl.
  - change (join nl (l :: l' :: ls)) with (l +:+ String LF (join nl (l' :: ls))).
    rewrite split_cons_one_line by exact Hl. rewrite IH; [reflexivity|discriminate|exact Hls].
Qed.

Lemma one_line_join (sep : string) (ls : list string) :
  one_line sep -> Forall one_line ls -> one_line (join sep ls).
Proof.
  intros Hsep. induction ls as [|l ls IH]; intros H; [reflexivity|].
  inversion H as [|? ? Hl Hls]; subst. destruct ls as [|l' ls]; [exact Hl|].
  change (join sep (l :: l' :: ls)) with (l +:+ sep +:+ join sep (l' :: ls)).
  rewrite !one_line_app. auto.
Qed.

Lemma count_chr_app (c : ascii) (s t : string) :
  Spec.count_chr c (s +:+ t) = Spec.count_chr c s + Spec.count_chr c t.
Proof.
  induction s as [|a s IH]; [reflexivity|]. rewrite app_cons. simpl. rewrite IH. lia.
Qed.

Lemma count_one_line (s : string) : one_line s -> Spec.count_chr LF s = 0.
Proof.
  induction s as [|a s IH]; [reflexivity|]. intros H.
  apply one_line_cons in H. destruct H as [Ha Hs]. simpl.
  apply Ascii.eqb_neq in Ha. rewrite Ha, (IH Hs). reflexivity.
Qed.

Lemma count_join (ls : list string) :
  Forall one_line ls -> Spec.count_chr LF (join nl ls) = pred (length ls).
Proof.
  induction ls as [|l ls IH]; [reflexivity|]. intros H.
  inversion H as [|? ? Hl Hls]; subst. destruct ls as [|l' ls].
  - apply count_one_line, Hl.
  - change (join nl (l :: l' :: ls)) with (l +:+ nl +:+ join nl (l' :: ls)).
    rewrite !count_chr_app, (count_one_line l Hl), (IH Hls). reflexivity.
Qed.

(** A header of [n] lines before the body fixes the number of line feeds
    of the document, hence [n]. *)
Lemma header_of_lines_count (n : nat) (doc body : string) :
  0 < n -> Spec.header_of_lines n doc body ->
  Spec.count_chr LF doc = n + Spec.count_chr LF body.
Proof.
  intros Hn (ls & Hlen & Hls & ->).
  rewrite !count_chr_app, (count_join ls Hls), Hlen. simpl. lia.
Qed.

End Lines.

(** ** Whitespace *)

Section Whitespace.

Import Frontmatter.

(** Induction along the whitespace characters at the start of a text. *)
Lemma space_ind (P : string -> Prop) :
  (forall s, space_len s = 0 -> P s) ->
  (forall a s, ws1 a = true -> P s -> P (String a s)) ->
  (forall a b s, ws1 a = false -> ws2 a b = true -> P s -> P (String a (String b s))) ->
  (forall a b c s, ws1 a = false -> ws2 a b = false -> ws3 a b c = true ->
                   P s -> P (String a (String b (String c s)))) ->
  forall s, P s.
Proof.
  intros Hnone H1 H2 H3.
  assert (forall n s, String.length s <= n -> P s) as Hall.
  { induction n as [|n IH]; intros s Hlen.
    - destruct s; [|cbn in Hlen; lia]. apply Hnone. reflexivity.
    - destruct s as [|a s1]; [apply Hnone; reflexivity|].
      destruct (ws1 a) eqn:Ha; [apply H1; [exact Ha|]; apply IH; cbn in Hlen; lia|].
      destruct s1 as [|b s2]; [apply Hnone; cbn; rewrite Ha; reflexivity|].
      destruct (ws2 a b) eqn:Hb; [apply H2; [exact Ha|exact Hb|]; apply IH; cbn in Hlen; lia|].
      destruct s2 as [|c s3]; [apply Hnone; cbn; rewrite Ha, Hb; reflexivity|].
      destruct (ws3 a b c) eqn:Hc.
      + apply H3; [exact Ha|exact Hb|exact Hc|]. apply IH. cbn in Hlen. lia.
      + apply Hnone. cbn. rewrite Ha, Hb, Hc. reflexivity. }
  intros s. apply (Hall (String.length s)). lia.
Qed.

(** The three tests of a text that starts with no whitespace character. *)
Lemma space_len_0 (s : string) :
  space_len s = 0 ->
  match s with
  | EmptyString => True
  | String a s1 =>
      ws1 a = false /\
      match s1 with
      | EmptyString => True
      | String b s2 =>
          ws2 a b = false /\
          match s2 with
          | EmptyString => True
          | String c _ => ws3 a b c = false
          end
      end
  end.
Proof.
  destruct s as [|a [|b [|c s]]]; cbn [space_len]; trivial.
  - destruct (ws1 a); [discriminate|]. auto.
  - destruct (ws1 a); [discriminate|]. destruct (ws2 a b); [discriminate|]. auto.
  - destruct (ws1 a); [discriminate|]. destruct (ws2 a b); [discriminate|].
    destruct (ws3 a b c); [discriminate|]. auto.
Qed.

Ltac no_space H :=
  apply space_len_0 in H;
  match type of H with
  | match ?s with _ => _ end =>
      destruct s as [|? [|? [|? ?]]]; cbn;
      repeat match goal with
             | H : _ /\ _ |- _ => destruct H
             | H : _ = false |- _ => rewrite H; clear H
             end
  end.

Lemma lstrip_none (s : string) : space_len s = 0 -> lstrip s = s.
Proof. intros H. no_space H; reflexivity. Qed.

Lemma all_space_none (s : string) :
  space_len s = 0 -> all_space s = match s with EmptyString => true | _ => false end.
Proof. intros H. no_space H; reflexivity. Qed.

Lemma ws_then_nl_none (s : string) : space_len s = 0 -> ws_then_nl s = [].
Proof. intros H. no_space H; reflexivity. Qed.

Lemma lstrip_1 (a : ascii) (s : string) : ws1 a = true -> lstrip (String a s) = lstrip s.
Proof. intros H. cbn [lstrip]. rewrite H. reflexivity. Qed.

Lemma lstrip_2 (a b : ascii) (s : string) :
  ws1 a = false -> ws2 a b = true -> lstrip (String a (String b s)) = lstrip s.
Proof. intros Ha Hb. cbn [lstrip]. rewrite Ha, Hb. reflexivity. Qed.

Lemma lstrip_3 (a b c : ascii) (s : string) :
  ws1 a = false -> ws2 a b = false -> ws3 a b c = true ->
  lstrip (String a (String b (String c s))) = lstrip s.
Proof. intros Ha Hb Hc. cbn [lstrip]. rewrite Ha, Hb, Hc. reflexivity. Qed.

Lemma all_space_1 (a : ascii) (s : string) :
  ws1 a = true -> all_space (String a s) = all_space s.
Proof. intros H. cbn [all_space]. rewrite H. reflexivity. Qed.

Lemma all_space_2 (a b : ascii) (s : string) :
  ws1 a = false -> ws2 a b = true -> all_space (String a (String b s)) = all_space s.
Proof. intros Ha Hb. cbn [all_space]. rewrite Ha, Hb. reflexivity. Qed.

Lemma all_space_3 (a b c : ascii) (s : string) :
  ws1 a = false -> ws2 a b = false -> ws3 a b c = true ->
  all_space (String a (String b (String c s))) = all_space s.
Proof. intros Ha Hb Hc. cbn [all_space]. rewrite Ha, Hb, Hc. reflexivity. Qed.

Lemma ws_then_nl_1 (a : ascii) (s : string) :
  ws1 a = true ->
  ws_then_nl (String a s) = ws_then_nl s ++ (if Ascii.eqb a LF then [s] else []).
Proof. intros H. cbn [ws_then_nl]. rewrite H. reflexivity. Qed.

Lemma ws_then_nl_2 (a b : ascii) (s : string) :
  ws1 a = false -> ws2 a b = true -> ws_then_nl (String a (String b s)) = ws_then_nl s.
Proof. intros Ha Hb. cbn [ws_then_nl]. rewrite Ha, Hb. reflexivity. Qed.

Lemma ws_then_nl_3 (a b c : ascii) (s : string) :
  ws1 a = false -> ws2 a b = false -> ws3 a b c = true ->
  ws_then_nl (String a (String b (String c s))) = ws_then_nl s.
Proof. intros Ha Hb Hc. cbn [ws_then_nl]. rewrite Ha, Hb, Hc. reflexivity. Qed.

(** A whitespace character at the start of a text is one at the start of
    every longer text. *)
Lemma space_len_app (x y : string) :
  space_len x <> 0 -> space_len (x +:+ y) = space_len x.
Proof.
  destruct x as [|a [|b [|c x]]]; rewrite ?app_cons, ?app_nil_l; cbn [space_len].
  - congruence.
  - destruct (ws1 a); [reflexivity|congruence].
  - destruct (ws1 a); [reflexivity|]. destruct (ws2 a b); [reflexivity|congruence].
  - reflexivity.
Qed.

(** What [lstrip] takes off is whitespace. *)
Lemma lstrip_suffix (s : string) :
  exists w, all_space w = true /\ s = w +:+ lstrip s.
Proof.
  induction s as [s H|a s Ha [w [Hw IH]]|a b s Ha Hb [w [Hw IH]]
                 |a b c s Ha Hb Hc [w [Hw IH]]] using space_ind.
  - exists EmptyString. rewrite (lstrip_none _ H). split; reflexivity.
  - exists (String a w). rewrite (lstrip_1 _ _ Ha), (all_space_1 _ _ Ha), app_cons, <- IH.
    split; [exact Hw|reflexivity].
  - exists (String a (String b w)).
    rewrite (lstrip_2 _ _ _ Ha Hb), (all_space_2 _ _ _ Ha Hb), !app_cons, <- IH.
    split; [exact Hw|reflexivity].
  - exists (String a (String b (String c w))).
    rewrite (lstrip_3 _ _ _ _ Ha Hb Hc), (all_space_3 _ _ _ _ Ha Hb Hc), !app_cons, <- IH.
    split; [exact Hw|reflexivity].
Qed.

Lemma lstrip_clean (s : string) : space_len (lstrip s) = 0.
Proof.
  induction s as [s H|a s Ha IH|a b s Ha Hb IH|a b c s Ha Hb Hc IH] using space_ind.
  - rewrite (lstrip_none _ H). exact H.
  - rewrite (lstrip_1 _ _ Ha). exact IH.
  - rewrite (lstrip_2 _ _ _ Ha Hb). exact IH.
  - rewrite (lstrip_3 _ _ _ _ Ha Hb Hc). exact IH.
Qed.

Lemma all_space_app (x y : string) :
  all_space x = true -> all_space (x +:+ y) = all_space y.
Proof.
  induction x as [s H|a s Ha IH|a b s Ha Hb IH|a b c s Ha Hb Hc IH] using space_ind.
  - rewrite (all_space_none _ H). destruct s; [reflexivity|discriminate].
  - rewrite app_cons, !(all_space_1 _ _ Ha). exact IH.
  - rewrite !app_cons, !(all_space_2 _ _ _ Ha Hb). exact IH.
  - rewrite !app_cons, !(all_space_3 _ _ _ _ Ha Hb Hc). exact IH.
Qed.

Lemma plain_ws1 (z : ascii) : plain z = true -> ws1 z = false.
Proof.
  unfold plain. intros H. apply andb_true_iff in H as [_ H].
  destruct (ws1 z); [discriminate|reflexivity].
Qed.

Lemma plain_lt (z : ascii) : plain z = true -> nat_of_ascii z < 128.
Proof.
  unfold plain. intros H. apply andb_true_iff in H as [H _]. apply Nat.ltb_lt, H.
Qed.

Ltac ws_false :=
  apply not_true_is_false; unfold ws2, ws3; cbv zeta;
  rewrite ?orb_true_iff, ?andb_true_iff, ?orb_true_iff, ?andb_true_iff,
    ?Nat.eqb_eq, ?Nat.leb_le; lia.

Lemma plain_ws2_l (z b : ascii) : plain z = true -> ws2 z b = false.
Proof. intros H. apply plain_lt in H. ws_false. Qed.

Lemma plain_ws2_r (a z : ascii) : plain z = true -> ws2 a z = false.
Proof. intros H. apply plain_lt in H. ws_false. Qed.

Lemma plain_ws3_l (z b c : ascii) : plain z = true -> ws3 z b c = false.
Proof. intros H. apply plain_lt in H. ws_false. Qed.

Lemma plain_ws3_m (a z c : ascii) : plain z = true -> ws3 a z c = false.
Proof. intros H. apply plain_lt in H. ws_false. Qed.

Lemma plain_ws3_r (a b z : ascii) : plain z = true -> ws3 a b z = false.
Proof. intros H. apply plain_lt in H. ws_false. Qed.

(** No whitespace character starts with a plain byte. *)
Lemma space_len_plain (a : ascii) (s : string) :
  plain a = true -> space_len (String a s) = 0.
Proof.
  intros H. cbn [space_len]. rewrite (plain_ws1 _ H).
  destruct s as [|b [|c s]]; [reflexivity|..];
    rewrite (plain_ws2_l _ _ H); [reflexivity|].
  rewrite (plain_ws3_l _ _ _ H). reflexivity.
Qed.

(** No whitespace character holds a plain byte. *)
Lemma space_len_snoc_plain (x : string) (z : ascii) :
  plain z = true -> space_len x = 0 -> space_len (x +:+ String z EmptyString) = 0.
Proof.
  intros Hz H. apply space_len_0 in H.
  destruct x as [|a [|b [|c x]]]; rewrite ?app_cons, ?app_nil_l; cbn [space_len].
  - rewrite (plain_ws1 _ Hz). reflexivity.
  - destruct H as [-> _]. rewrite (plain_ws2_r _ _ Hz). reflexivity.
  - destruct H as [-> [-> _]]. rewrite (plain_ws3_r _ _ _ Hz). reflexivity.
  - destruct H as [-> [-> ->]]. reflexivity.
Qed.

(** A text that ends with a plain byte is not whitespace. *)
Lemma all_space_snoc_plain (x : string) (z : ascii) :
  plain z = true -> all_space (x +:+ String z EmptyString) = false.
Proof.
  intros Hz.
  induction x as [s H|a s Ha IH|a b s Ha Hb IH|a b c s Ha Hb Hc IH] using space_ind.
  - rewrite (all_space_none _ (space_len_snoc_plain _ _ Hz H)). destruct s; reflexivity.
  - rewrite app_cons, (all_space_1 _ _ Ha). exact IH.
  - rewrite !app_cons, (all_space_2 _ _ _ Ha Hb). exact IH.
  - rewrite !app_cons, (all_space_3 _ _ _ _ Ha Hb Hc). exact IH.
Qed.

(** What [rstrip] takes off is whitespace. *)
Lemma rstrip_prefix (s : string) :
  exists w, all_space w = true /\ s = rstrip s +:+ w.
Proof.
  induction s as [|c s (w & Hw & IH)]; [exists EmptyString; split; reflexivity|].
  cbn [rstrip]. destruct (all_space (String c s)) eqn:Hall.
  - exists (String c s). split; [exact Hall|reflexivity].
  - exists w. split; [exact Hw|]. rewrite app_cons, <- IH. reflexivity.
Qed.

Lemma rstrip_idem (s : string) : rstrip (rstrip s) = rstrip s.
Proof.
  induction s as [|c s IH]; [reflexivity|].
  cbn [rstrip]. destruct (all_space (String c s)) eqn:Hall; [reflexivity|].
  cbn [rstrip]. rewrite IH.
  destruct (all_space (String c (rstrip s))) eqn:Hall'; [|reflexivity].
  destruct (rstrip_prefix s) as (w & Hw & Hs).
  pose proof (all_space_app _ w Hall') as H.
  rewrite app_cons, <- Hs, Hw in H. congruence.
Qed.

Lemma rstrip_snoc_plain (t : string) (z : ascii) :
  plain z = true -> rstrip (t +:+ String z EmptyString) = t +:+ String z EmptyString.
Proof.
  intros Hz. induction t as [|a t IH].
  - pose proof (all_space_snoc_plain EmptyString z Hz) as H. rewrite app_nil_l in *.
    cbn [rstrip]. rewrite H. reflexivity.
  - pose proof (all_space_snoc_plain (String a t) z Hz) as H. rewrite app_cons in *.
    cbn [rstrip]. rewrite H, IH. reflexivity.
Qed.

Lemma rstrip_clean (t : string) : space_len t = 0 -> space_len (rstrip t) = 0.
Proof.
  intros Ht. destruct (rstrip_prefix t) as (w & _ & Hw).
  destruct (space_len (rstrip t)) as [|k] eqn:Hk; [reflexivity|].
  pose proof (space_len_app (rstrip t) w) as H.
  rewrite <- Hw, Ht, Hk in H. symmetry. apply H. discriminate.
Qed.

(** Stripping a second time changes nothing. *)
Lemma strip_idem (s : string) : strip (strip s) = strip s.
Proof.
  unfold strip.
  rewrite (lstrip_none (rstrip (lstrip s))) by apply rstrip_clean, lstrip_clean.
  apply rstrip_idem.
Qed.

Lemma chr_in_strip (c : ascii) (s : string) :
  chr_in c s = false -> chr_in c (strip s) = false.
Proof.
  intros H. unfold strip.
  destruct (lstrip_suffix s) as (w1 & _ & H1).
  destruct (rstrip_prefix (lstrip s)) as (w2 & _ & H2).
  rewrite H1, H2, !chr_in_app in H.
  apply orb_false_iff in H as [_ H]. apply orb_false_iff in H as [H _]. exact H.
Qed.

Lemma one_line_strip (s : string) : one_line s -> one_line (strip s).
Proof. apply chr_in_strip. Qed.

(** A text that starts and ends with plain bytes is left as it is. *)
Lemma strip_fixed (a z : ascii) (s t : string) :
  plain a = true -> plain z = true ->
  String a s = t +:+ String z EmptyString ->
  strip (String a s) = String a s.
Proof.
  intros Ha Hz Heq. unfold strip.
  rewrite (lstrip_none _ (space_len_plain a s Ha)), Heq.
  apply rstrip_snoc_plain, Hz.
Qed.

(** Every way to match [\s*\n] takes whitespace and a line feed. *)
Lemma ws_then_nl_sound (s r : string) :
  In r (ws_then_nl s) -> exists w, all_space w = true /\ s = w +:+ nl +:+ r.
Proof.
  induction s as [s H|a s Ha IH|a b s Ha Hb IH|a b c s Ha Hb Hc IH] using space_ind.
  - rewrite (ws_then_nl_none _ H). intros [].
  - rewrite (ws_then_nl_1 _ _ Ha), in_app_iff. intros [Hin|Hin].
    + destruct (IH Hin) as (w & Hw & ->). exists (String a w).
      rewrite (all_space_1 _ _ Ha). split; [exact Hw|reflexivity].
    + destruct (Ascii.eqb_spec a LF) as [->|]; [|destruct Hin].
      destruct Hin as [<-|[]]. exists EmptyString. split; reflexivity.
  - rewrite (ws_then_nl_2 _ _ _ Ha Hb). intros Hin.
    destruct (IH Hin) as (w & Hw & ->). exists (String a (String b w)).
    rewrite (all_space_2 _ _ _ Ha Hb). split; [exact Hw|reflexivity].
  - rewrite (ws_then_nl_3 _ _ _ _ Ha Hb Hc). intros Hin.
    destruct (IH Hin) as (w & Hw & ->). exists (String a (String b (String c w))).
    rewrite (all_space_3 _ _ _ _ Ha Hb Hc). split; [exact Hw|reflexivity].
Qed.

Lemma ws_then_nl_complete (w r : string) :
  all_space w = true -> In r (ws_then_nl (w +:+ nl +:+ r)).
Proof.
  induction w as [s H|a s Ha IH|a b s Ha Hb IH|a b c s Ha Hb Hc IH] using space_ind.
  - rewrite (all_space_none _ H). destruct s; [|discriminate]. intros _.
    change (EmptyString +:+ nl +:+ r) with (String LF r).
    rewrite (ws_then_nl_1 LF r eq_refl). apply in_or_app. right. left. reflexivity.
  - rewrite (all_space_1 _ _ Ha), app_cons, (ws_then_nl_1 _ _ Ha). intros Hw.
    apply in_or_app. left. exact (IH Hw).
  - rewrite (all_space_2 _ _ _ Ha Hb), !app_cons, (ws_then_nl_2 _ _ _ Ha Hb). exact IH.
  - rewrite (all_space_3 _ _ _ _ Ha Hb Hc), !app_cons, (ws_then_nl_3 _ _ _ _ Ha Hb Hc).
    exact IH.
Qed.

Lemma ws_then_nl_settled (s r : string) :
  head (ws_then_nl s) = Some r -> ws_then_nl r = [].
Proof.
  induction s as [s H|a s Ha IH|a b s Ha Hb IH|a b c s Ha Hb Hc IH] using space_ind.
  - rewrite (ws_then_nl_none _ H). discriminate.
  - rewrite (ws_then_nl_1 _ _ Ha). destruct (ws_then_nl s) as [|x xs] eqn:Hs.
    + destruct (Ascii.eqb a LF); [|discriminate]. intros [= <-]. exact Hs.
    + intros [= <-]. apply IH. reflexivity.
  - rewrite (ws_then_nl_2 _ _ _ Ha Hb). exact IH.
  - rewrite (ws_then_nl_3 _ _ _ _ Ha Hb Hc). exact IH.
Qed.

Lemma ascii_of (a : ascii) (n : nat) : nat_of_ascii a = n -> a = ascii_of_nat n.
Proof. intros <-. symmetry. apply ascii_nat_embedding. Qed.

Ltac ws_cases H :=
  unfold ws1, ws2, ws3 in H; cbv zeta in H;
  rewrite ?orb_true_iff, ?andb_true_iff, ?orb_true_iff, ?andb_true_iff,
    ?Nat.eqb_eq, ?Nat.leb_le in H.

(** The whitespace characters are the twenty-nine of the table. *)
Lemma space_len_characters (s : string) :
  space_len s <> 0 <->
  exists w r, In w Examples.whitespace_characters /\ s = w +:+ r.
Proof.
  split.
  - intros H.
    assert (forall w r, s = w +:+ r ->
              existsb (String.eqb w) Examples.whitespace_characters = true ->
              exists w r, In w Examples.whitespace_characters /\ s = w +:+ r) as Hfound.
    { intros w r Hs Hw. exists w, r. split; [|exact Hs].
      apply existsb_exists in Hw as (x & Hin & Hx). apply String.eqb_eq in Hx. subst x.
      exact Hin. }
    destruct s as [|a s1]; [contradiction H; reflexivity|]. cbn [space_len] in H.
    destruct (ws1 a) eqn:Ha.
    { apply (Hfound (String a EmptyString) s1); [reflexivity|].
      ws_cases Ha. remember (nat_of_ascii a) as n eqn:Hn.
      assert (In n [9; 10; 11; 12; 13; 28; 29; 30; 31; 32]) as Hin by (cbn; lia).
      rewrite (ascii_of a n (eq_sym Hn)). clear Hn Ha.
      repeat (destruct Hin as [<-|Hin]; [vm_compute; reflexivity|]). destruct Hin. }
    destruct s1 as [|b s2]; [contradiction H; reflexivity|].
    destruct (ws2 a b) eqn:Hb.
    { apply (Hfound (String a (String b EmptyString)) s2); [reflexivity|].
      ws_cases Hb. destruct Hb as [Hx Hy].
      rewrite (ascii_of a _ Hx).
      destruct Hy as [Hy|Hy]; rewrite (ascii_of b _ Hy); vm_compute; reflexivity. }
    destruct s2 as [|c s3]; [contradiction H; reflexivity|].
    destruct (ws3 a b c) eqn:Hc; [|contradiction H; reflexivity].
    apply (Hfound (String a (String b (String c EmptyString))) s3); [reflexivity|].
    ws_cases Hc. remember (nat_of_ascii a) as x eqn:Hx.
    remember (nat_of_ascii b) as y eqn:Hy. remember (nat_of_ascii c) as z eqn:Hz.
    rewrite (ascii_of a x (eq_sym Hx)), (ascii_of b y (eq_sym Hy)),
      (ascii_of c z (eq_sym Hz)).
    clear Hx Hy Hz Ha Hb Hfound H.
    assert (x = 225 /\ y = 154 /\ z = 128 \/
            x = 226 /\ y = 128 /\
              In z [128; 129; 130; 131; 132; 133; 134; 135; 136; 137; 138; 168; 169; 175] \/
            x = 226 /\ y = 129 /\ z = 159 \/
            x = 227 /\ y = 128 /\ z = 128) as Hn by (cbn; lia).
    destruct Hn as [(-> & -> & ->)|[(-> & -> & Hin)|[(-> & -> & ->)|(-> & -> & ->)]]];
      try (vm_compute; reflexivity).
    repeat (destruct Hin as [<-|Hin]; [vm_compute; reflexivity|]). destruct Hin.
  - intros (w & r & Hin & ->).
    unfold Examples.whitespace_characters in Hin. cbn [map] in Hin.
    repeat (destruct Hin as [<-|Hin]; [discriminate|]). destruct Hin.
Qed.

End Whitespace.

(** ** JSON texts *)

Section JsonFacts.

(** Induction on a JSON value, with the hypothesis for every element. *)
Lemma json_induction (P : json -> Prop) :
  (forall s, P (JStr s)) ->
  (forall l, Forall P l -> P (JArr l)) ->
  (forall items, Forall (fun kv => P (snd kv)) items -> P (JObj items)) ->
  forall j, P j.
Proof.
  intros Hs Ha Ho. fix IH 1. intros [s|l|items].
  - apply Hs.
  - apply Ha. induction l as [|j l IHl]; constructor; [apply IH | exact IHl].
  - apply Ho. induction items as [|[k v] items IHi]; constructor; [apply IH | exact IHi].
Qed.

Lemma escape_chr_one_line (c : ascii) : one_line (Json.escape_chr c).
Proof. destruct c as [[] [] [] [] [] [] [] []]; reflexivity. Qed.

Lemma escape_one_line (s : string) : one_line (Json.escape s).
Proof.
  induction s as [|c s IH]; [reflexivity|]. simpl.
  apply one_line_app. split; [apply escape_chr_one_line | exact IH].
Qed.

Lemma encode_basestring_one_line (s : string) : one_line (Json.encode_basestring s).
Proof.
  unfold Json.encode_basestring. rewrite !one_line_app.
  split; [reflexivity|]. split; [apply escape_one_line | reflexivity].
Qed.

(** The serialization without indentation is a single line, whatever the
    strings in the value. *)
Lemma dumps_one_line (j : json) : one_line (Json.dumps j).
Proof.
  induction j as [s|l IH|items IH] using json_induction; cbn [Json.dumps].
  - apply encode_basestring_one_line.
  - rewrite !one_line_app. split; [reflexivity|]. split; [|reflexivity].
    apply one_line_join; [reflexivity|].
    induction IH; constructor; assumption.
  - rewrite !one_line_app. split; [reflexivity|]. split; [|reflexivity].
    apply one_line_join; [reflexivity|].
    induction IH as [|[k v] items Hv _ IHi]; constructor; [|exact IHi].
    rewrite !one_line_app. split; [apply encode_basestring_one_line|].
    split; [reflexivity | exact Hv].
Qed.

Lemma build_metadata_one_line emoji os_list homepage info :
  one_line (build_metadata emoji os_list homepage info).
Proof. apply dumps_one_line. Qed.

End JsonFacts.

(** ** The header pattern *)

Section HeaderPattern.

Import Frontmatter Spec.

Lemma close_delim_not_nl (a : ascii) (s : string) :
  a <> LF -> close_delim (String a s) = [].
Proof.
  intros H. unfold close_delim. cbn [drop_prefix].
  destruct (Ascii.eqb_spec LF a); [congruence|reflexivity].
Qed.

Lemma lazy_body_cons (c : ascii) (s : string) :
  lazy_body (String c s) =
    map (fun r => (EmptyString, r)) (close_delim (String c s))
    ++ map (fun gr => (String c gr.1, gr.2)) (lazy_body s).
Proof. reflexivity. Qed.

Lemma lazy_body_one_line (l s : string) :
  one_line l -> lazy_body (l +:+ s) = map (extend l) (lazy_body s).
Proof.
  induction l as [|a l IH]; intros H.
  - rewrite app_nil_l. rewrite <- (List.map_id (lazy_body s)) at 1.
    apply List.map_ext. intros [g r]. reflexivity.
  - apply one_line_cons in H. destruct H as [Ha Hl].
    rewrite app_cons, lazy_body_cons, (close_delim_not_nl _ _ Ha), (IH Hl).
    cbn [map app]. rewrite List.map_map. apply List.map_ext. intros [g r]. reflexivity.
Qed.

Lemma lazy_body_nl (x : string) :
  no_dashes x -> lazy_body (String LF x) = map (extend nl) (lazy_body x).
Proof.
  intros H. rewrite lazy_body_cons. unfold close_delim.
  change (drop_prefix (String LF "---") (String LF x)) with (drop_prefix "---" x).
  unfold no_dashes in H. rewrite H. reflexivity.
Qed.

Lemma no_dashes_app (l s : string) : no_dashes l -> no_dashes (l +:+ String LF s).
Proof.
  unfold no_dashes.
  destruct l as [|a [|b [|c l]]]; rewrite ?app_cons, ?app_nil_l; cbn [drop_prefix];
    change (Ascii.eqb "-" LF) with false;
    repeat match goal with
           | |- context [Ascii.eqb ?x ?y] => destruct (Ascii.eqb x y) eqn:?
           end; trivial; try discriminate.
Qed.

Lemma join_cons_shape (l : string) (ls : list string) (rest : string) :
  exists t, join nl (l :: ls) +:+ String LF rest = l +:+ String LF t.
Proof.
  destruct ls as [|l' ls].
  - exists rest. reflexivity.
  - exists (join nl (l' :: ls) +:+ String LF rest).
    change (join nl (l :: l' :: ls)) with (l +:+ nl +:+ join nl (l' :: ls)).
    rewrite !app_assoc. reflexivity.
Qed.

(** The lazy group runs over header lines that have no line feed and do
    not start with three dashes: it cannot end before their end. *)
Lemma lazy_body_lines (ls : list string) (rest : string) :
  ls <> [] -> Forall one_line ls -> Forall no_dashes (tail ls) ->
  lazy_body (join nl ls +:+ String LF rest) =
    map (extend (join nl ls)) (lazy_body (String LF rest)).
Proof.
  induction ls as [|l ls IH]; [congruence|]. intros _ Hone Hdash.
  inversion Hone as [|? ? Hl Hls]; subst. destruct ls as [|l' ls].
  - apply lazy_body_one_line, Hl.
  - cbn [tail] in Hdash. inversion Hdash as [|? ? Hl' Hdash']; subst.
    change (join nl (l :: l' :: ls)) with (l +:+ nl +:+ join nl (l' :: ls)).
    rewrite !app_assoc. rewrite (lazy_body_one_line l _ Hl).
    change (nl +:+ join nl (l' :: ls) +:+ String LF rest)
      with (String LF (join nl (l' :: ls) +:+ String LF rest)).
    destruct (join_cons_shape l' ls rest) as [t Ht].
    pose proof (no_dashes_app l' t Hl') as Hnd. rewrite <- Ht in Hnd.
    rewrite (lazy_body_nl _ Hnd).
    rewrite IH; [|discriminate|exact Hls|].
    + rewrite !List.map_map. apply List.map_ext. intros [g r].
      unfold extend. cbn [fst snd]. rewrite !app_assoc. reflexivity.
    + destruct ls; [constructor|exact Hdash'].
Qed.

Lemma head_map {A B} (f : A -> B) (l : list A) : head (map f l) = f <$> head l.
Proof. destruct l; reflexivity. Qed.

(** The pattern on a document whose header is the opening delimiter, lines
    as above of which the first starts with no whitespace, and the closing
    delimiter: the group is exactly those lines. *)
Lemma re_match_header (ls : list string) (body : string) :
  ls <> [] -> Forall one_line ls -> Forall no_dashes (tail ls) ->
  ws_then_nl (join nl ls +:+ String LF ("---" +:+ String LF body)) = [] ->
  re_match ("---" +:+ String LF (join nl ls +:+ String LF ("---" +:+ String LF body)))
    = Some (join nl ls, after_close body).
Proof.
  intros Hne Hone Hdash Hws. unfold re_match.
  change (drop_prefix "---" ("---" +:+ ?x)) with (Some x). cbv iota beta.
  rewrite (ws_then_nl_1 LF _ eq_refl).
  rewrite Hws. change (Ascii.eqb LF LF) with true. cbv iota. cbn [app flat_map].
  rewrite List.app_nil_r, (lazy_body_lines ls _ Hne Hone Hdash), head_map.
  rewrite lazy_body_cons. unfold close_delim at 1.
  change (drop_prefix (String LF "---") (String LF ("---" +:+ ?x))) with (Some x).
  cbv iota beta. rewrite (ws_then_nl_1 LF _ eq_refl).
  change (Ascii.eqb LF LF) with true. cbv iota.
  unfold after_close. destruct (ws_then_nl body) as [|r rs]; cbn [app map head List.hd];
    unfold extend; cbn [fmap option_fmap option_map fst snd]; rewrite app_nil_r; reflexivity.
Qed.

End HeaderPattern.

(** ** Processing one skill *)

Section ProcessSkill.

Import Frontmatter Spec.

Implicit Types (fm : gmap string string) (fs : skill_files) (skill_dir : Path).

Lemma add_line_values fm (line : string) :
  one_line line ->
  map_Forall (fun _ v => one_line v) fm ->
  map_Forall (fun _ v => one_line v) (add_line fm line).
Proof.
  intros Hline Hfm. unfold add_line.
  destruct (chr_in ":" (strip line)); [|exact Hfm].
  pose proof (one_line_partition ":" (strip line) (one_line_strip _ Hline)) as [_ Hv].
  destruct (partition ":" (strip line)) as [key value]. cbn [snd] in Hv.
  apply map_Forall_insert_2; [|exact Hfm].
  unfold strip_chr. auto using one_line_strip_by, one_line_strip.
Qed.

Lemma add_lines_values (lines : list string) fm :
  Forall one_line lines ->
  map_Forall (fun _ v => one_line v) fm ->
  map_Forall (fun _ v => one_line v) (fold_left add_line lines fm).
Proof.
  revert fm. induction lines as [|l lines IH]; intros fm Hl Hfm; [exact Hfm|].
  inversion Hl; subst. cbn [fold_left]. apply IH; [assumption|].
  apply add_line_values; assumption.
Qed.

(** Every value of a parsed header is a single line. *)
Lemma parse_frontmatter_values (content body : string) fm :
  parse_frontmatter content = (Some fm, body) ->
  map_Forall (fun _ v => one_line v) fm.
Proof.
  unfold parse_frontmatter. destruct (re_match content) as [[fm_text b]|]; [|discriminate].
  intros [= <- _]. apply add_lines_values; [apply split_one_line|].
  apply map_Forall_empty.
Qed.

Lemma skill_name_one_line skill_dir fm :
  one_line (path_name skill_dir) ->
  map_Forall (fun _ v => one_line v) fm ->
  one_line (skill_name skill_dir fm).
Proof.
  intros Hd Hfm. unfold skill_name.
  destruct (fm !! "name") as [v|] eqn:E; [exact (Hfm _ _ E)|].
  destruct (fm !! "slug") as [v|] eqn:E'; [exact (Hfm _ _ E')|exact Hd].
Qed.

Lemma skill_description_one_line fm :
  map_Forall (fun _ v => one_line v) fm -> one_line (skill_description fm).
Proof.
  intros Hfm. unfold skill_description.
  destruct (fm !! "description") as [v|] eqn:E; [exact (Hfm _ _ E)|reflexivity].
Qed.

Lemma add_line_keeps fm (line key : string) :
  is_Some (fm !! key) -> is_Some (add_line fm line !! key).
Proof.
  intros H. unfold add_line. destruct (chr_in ":" (strip line)); [|exact H].
  destruct (partition ":" (strip line)) as [k v].
  apply lookup_insert_is_Some'. right. exact H.
Qed.

Lemma add_line_homepage fm :
  add_line fm ("homepage: " +:+ dq +:+ HOMEPAGE +:+ dq) = <["homepage" := HOMEPAGE]> fm.
Proof. reflexivity. Qed.

(** The new header has six lines without a line feed. *)
Lemma new_fm_lines_one_line (name description metadata_str : string) :
  one_line name -> one_line description -> one_line metadata_str ->
  Forall one_line (new_fm_lines name description metadata_str).
Proof.
  intros Hn Hd Hm. unfold new_fm_lines.
  repeat constructor; rewrite ?one_line_app;
    repeat split; assumption || reflexivity.
Qed.

(** Parsing a document that [process_skill] wrote finds the header it
    wrote, with the homepage field. *)
Lemma parse_new_content (name description metadata_str body : string) :
  one_line name -> one_line description -> one_line metadata_str ->
  exists fm,
    parse_frontmatter
      (join nl (new_fm_lines name description metadata_str) +:+ nl +:+ body)
    = (Some fm, after_close body) /\
    is_Some (fm !! "homepage").
Proof.
  intros Hn Hd Hm.
  pose proof (new_fm_lines_one_line _ _ _ Hn Hd Hm) as Hlines.
  unfold new_fm_lines in *.
  set (l2 := "name: " +:+ dq +:+ name +:+ dq) in *.
  set (l3 := "description: " +:+ dq +:+ description +:+ dq) in *.
  set (l4 := "homepage: " +:+ dq +:+ HOMEPAGE +:+ dq) in *.
  set (l5 := "metadata: " +:+ metadata_str) in *.
  inversion Hlines as [|? ? _ Hfields]; subst.
  assert (Forall one_line [l2; l3; l4; l5]) as Hone.
  { repeat match goal with H : Forall _ (_ :: _) |- _ => inversion H; subst; clear H end.
    repeat constructor; assumption. }
  assert (join nl ["---"; l2; l3; l4; l5; "---"] +:+ nl +:+ body
          = "---" +:+ String LF (join nl [l2; l3; l4; l5]
                                 +:+ String LF ("---" +:+ String LF body))) as ->.
  { cbn [join]. rewrite !app_assoc. reflexivity. }
  unfold parse_frontmatter. rewrite re_match_header.
  - rewrite (split_join [l2; l3; l4; l5]) by (discriminate || exact Hone). cbn [fold_left].
    eexists. split; [reflexivity|].
    apply add_line_keeps. unfold l4. rewrite add_line_homepage.
    rewrite lookup_insert_eq. eauto.
  - discriminate.
  - exact Hone.
  - repeat constructor.
  - reflexivity.
Qed.

Lemma has_field_not_empty fm (key : string) : is_Some (fm !! key) -> fm <> ∅.
Proof. intros [v Hv] ->. rewrite lookup_empty in Hv. discriminate. Qed.

(** A header with the homepage field: the skill is skipped and no file is
    written, whatever the directory. *)
Lemma process_skill_skip skill_dir fs (content body : string) fm :
  SKILL_md fs = Some content ->
  parse_frontmatter content = (Some fm, body) ->
  is_Some (fm !! "homepage") ->
  process_skill skill_dir fs =
    (Ret (Some ("SKIP (already updated): " +:+ path_name skill_dir)), fs).
Proof.
  intros Hmd Hparse Hhome. unfold process_skill. rewrite Hmd, Hparse.
  cbn [no_fields]. change (default ∅ (Some fm)) with fm.
  rewrite bool_decide_eq_false_2 by eauto using has_field_not_empty.
  rewrite bool_decide_eq_true_2 by exact Hhome. reflexivity.
Qed.

(** A header with a field and without the homepage field: the skill is
    processed, unless a derived value cannot be computed. *)
Lemma process_skill_ok skill_dir fs (content body : string) fm (d : derived) :
  SKILL_md fs = Some content ->
  parse_frontmatter content = (Some fm, body) ->
  fm <> ∅ ->
  fm !! "homepage" = None ->
  derive skill_dir (skill_name skill_dir fm) (skill_description fm) content = Ret d ->
  process_skill skill_dir fs =
    (Ret (Some ("OK: " +:+ skill_name skill_dir fm)),
     processed skill_dir fs content fm body d).
Proof.
  intros Hmd Hparse Hne Hhome Hd. unfold process_skill. rewrite Hmd, Hparse.
  cbn [no_fields]. change (default ∅ (Some fm)) with fm.
  rewrite bool_decide_eq_false_2 by exact Hne.
  rewrite bool_decide_eq_false_2 by (rewrite Hhome; apply is_Some_None).
  rewrite Hd. unfold processed, new_content. cbn [claw_json instructions_md SKILL_md].
  destruct (claw_json fs), (instructions_md fs); reflexivity.
Qed.

(** The only way to the message OK. *)
Lemma process_skill_ok_inv skill_dir fs fs' (name : string) :
  process_skill skill_dir fs = (Ret (Some ("OK: " +:+ name)), fs') ->
  exists content fm body d,
    SKILL_md fs = Some content /\
    parse_frontmatter content = (Some fm, body) /\
    fm <> ∅ /\
    fm !! "homepage" = None /\
    derive skill_dir (skill_name skill_dir fm) (skill_description fm) content = Ret d /\
    name = skill_name skill_dir fm /\
    fs' = processed skill_dir fs content fm body d.
Proof.
  intros H. destruct (SKILL_md fs) as [content|] eqn:Hmd.
  2:{ unfold process_skill in H. rewrite Hmd in H. discriminate. }
  destruct (parse_frontmatter content) as [[fm|] body] eqn:Hparse.
  2:{ unfold process_skill in H. rewrite Hmd, Hparse in H. discriminate. }
  destruct (decide (fm = ∅)) as [->|Hne].
  { unfold process_skill in H. rewrite Hmd, Hparse in H. discriminate. }
  destruct (fm !! "homepage") as [h|] eqn:Hhome.
  { rewrite (process_skill_skip _ _ _ _ _ Hmd Hparse) in H by eauto. discriminate. }
  destruct (derive skill_dir (skill_name skill_dir fm) (skill_description fm) content)
    as [d|e] eqn:Hd.
  - rewrite (process_skill_ok _ _ _ _ _ _ Hmd Hparse Hne Hhome Hd) in H.
    injection H as Hname <-. exists content, fm, body, d.
    repeat (split; [assumption || reflexivity|]).
    split; [|reflexivity]. symmetry. exact Hname.
  - unfold process_skill in H. rewrite Hmd, Hparse in H. cbn [no_fields] in H.
    change (default ∅ (Some fm)) with fm in H.
    rewrite bool_decide_eq_false_2 in H by exact Hne.
    rewrite bool_decide_eq_false_2 in H by (rewrite Hhome; apply is_Some_None).
    rewrite Hd in H. discriminate.
Qed.

(** Below the root every derived value can be computed. *)
Lemma derive_total skill_dir (name description content : string) :
  skill_dir <> [] -> exists d, derive skill_dir name description content = Ret d.
Proof.
  intros Hne. unfold derive.
  assert (exists subcat, get_subcategory skill_dir = Ret subcat) as [subcat Hsub].
  { destruct skill_dir as [|a [|b [|c rest]]]; [congruence|..]; eexists; reflexivity. }
  destruct (get_subcategory_top _ _ Hsub) as [topcat Htop].
  pose proof (determine_emoji_returns skill_dir name _ _ Hsub Htop) as Hemoji.
  destruct (determine_requires_returns content) as [info Hreq].
  rewrite Hsub, Htop. cbn [mbind py_bind]. rewrite Hemoji, Hreq. eexists. reflexivity.
Qed.

End ProcessSkill.

(** ** The rewritten document and the second run *)

Section Migration.

Import Spec.

Implicit Types (fm : gmap string string) (fs : skill_files) (skill_dir : Path).

(** C2, as amended.  A skill below the root whose header has a field and
    no homepage field, in a directory whose name has no line feed, is
    processed, and its document becomes a header of exactly six lines and
    then the body that the parser found, unchanged.  The six lines are the
    opening delimiter, the name, the description, the homepage with its
    fixed value, the metadata record serialized on a single line, and the
    closing delimiter.  Six lines, hence not five. *)
Theorem process_skill_rewrites_header skill_dir fs (content body : string) fm :
  SKILL_md fs = Some content ->
  parse_frontmatter content = (Some fm, body) ->
  fm <> ∅ ->
  fm !! "homepage" = None ->
  skill_dir <> [] ->
  one_line (path_name skill_dir) ->
  exists fs' d doc,
    let name := skill_name skill_dir fm in
    let description := skill_description fm in
    let lines :=
      [ "---";
        "name: " +:+ dq +:+ name +:+ dq;
        "description: " +:+ dq +:+ description +:+ dq;
        "homepage: " +:+ dq +:+ "https://datadrivenconstruction.io" +:+ dq;
        "metadata: " +:+
          Json.dumps (metadata_dict (d_emoji d) (d_os d) HOMEPAGE (d_requires d));
        "---" ] in
    process_skill skill_dir fs = (Ret (Some ("OK: " +:+ name)), fs') /\
    derive skill_dir name description content = Ret d /\
    SKILL_md fs' = Some doc /\
    doc = join nl lines +:+ nl +:+ body /\
    length lines = 6 /\
    Forall one_line lines /\
    header_of_lines 6 doc body /\
    ~ header_of_lines 5 doc body.
Proof.
  intros Hmd Hparse Hne Hhome Hdir Hname.
  destruct (derive_total skill_dir (skill_name skill_dir fm) (skill_description fm)
              content Hdir) as [d Hd].
  pose proof (parse_frontmatter_values _ _ _ Hparse) as Hvals.
  pose proof (new_fm_lines_one_line _ _ _
                (skill_name_one_line _ _ Hname Hvals)
                (skill_description_one_line _ Hvals)
                (build_metadata_one_line (d_emoji d) (d_os d) HOMEPAGE (d_requires d)))
    as Hlines.
  exists (processed skill_dir fs content fm body d), d,
    (new_content (skill_name skill_dir fm) (skill_description fm) body d).
  cbv zeta.
  assert (header_of_lines 6
            (new_content (skill_name skill_dir fm) (skill_description fm) body d) body)
    as Hsix.
  { eexists. split; [|split; [exact Hlines|reflexivity]]. reflexivity. }
  split; [exact (process_skill_ok _ _ _ _ _ _ Hmd Hparse Hne Hhome Hd)|].
  split; [exact Hd|]. split; [reflexivity|]. split; [reflexivity|].
  split; [reflexivity|]. split; [exact Hlines|]. split; [exact Hsix|].
  intros Hfive.
  apply header_of_lines_count in Hsix; [|lia].
  apply header_of_lines_count in Hfive; [|lia]. lia.
Qed.

(** C8.  A skill whose header has the homepage field is skipped before
    anything is derived, and no file is written.  The header that a first
    run writes has that field, so a second run on the same directory
    reports SKIP and leaves the three files as the first run left them.
    The same holds when the first run itself skipped the skill. *)
Theorem process_skill_idempotent skill_dir fs :
  one_line (path_name skill_dir) ->
  (forall (content body : string) fm,
      SKILL_md fs = Some content ->
      parse_frontmatter content = (Some fm, body) ->
      is_Some (fm !! "homepage") ->
      process_skill skill_dir fs =
        (Ret (Some ("SKIP (already updated): " +:+ path_name skill_dir)), fs)) /\
  (forall (name : string) fs1,
      process_skill skill_dir fs = (Ret (Some ("OK: " +:+ name)), fs1) ->
      process_skill skill_dir fs1 =
        (Ret (Some ("SKIP (already updated): " +:+ path_name skill_dir)), fs1)) /\
  (forall (msg : string) fs1,
      process_skill skill_dir fs = (Ret (Some msg), fs1) ->
      exists reason : string,
        process_skill skill_dir fs1 =
          (Ret (Some ("SKIP (" +:+ reason +:+ "): " +:+ path_name skill_dir)), fs1)).
Proof.
  intros Hname.
  assert (forall (name : string) fs1,
             process_skill skill_dir fs = (Ret (Some ("OK: " +:+ name)), fs1) ->
             process_skill skill_dir fs1 =
               (Ret (Some ("SKIP (already updated): " +:+ path_name skill_dir)), fs1))
    as Hsecond.
  { intros name fs1 Hrun.
    apply process_skill_ok_inv in Hrun
      as (content & fm & body & d & Hmd & Hparse & Hne & Hhome & Hd & -> & ->).
    pose proof (parse_frontmatter_values _ _ _ Hparse) as Hvals.
    destruct (parse_new_content (skill_name skill_dir fm) (skill_description fm)
                (build_metadata (d_emoji d) (d_os d) HOMEPAGE (d_requires d)) body
                (skill_name_one_line _ _ Hname Hvals)
                (skill_description_one_line _ Hvals)
                (build_metadata_one_line _ _ _ _))
      as (fm' & Hparse' & Hhome').
    eapply process_skill_skip; [reflexivity | exact Hparse' | exact Hhome']. }
  split; [|split; [exact Hsecond|]].
  - intros content body fm. apply process_skill_skip.
  - intros msg fs1 Hrun. unfold process_skill in Hrun.
    destruct (SKILL_md fs) as [content|] eqn:Hmd; [|discriminate].
    destruct (parse_frontmatter content) as [fm body] eqn:Hparse.
    destruct (no_fields fm) eqn:Hnf.
    { injection Hrun as <- <-. exists "no frontmatter".
      unfold process_skill. rewrite Hmd, Hparse, Hnf. reflexivity. }
    destruct (bool_decide (is_Some (default ∅ fm !! "homepage"))) eqn:Hhome.
    { injection Hrun as <- <-. exists "already updated".
      unfold process_skill. rewrite Hmd, Hparse, Hnf, Hhome. reflexivity. }
    destruct (derive skill_dir (skill_name skill_dir (default ∅ fm))
                (skill_description (default ∅ fm)) content) as [d|e] eqn:Hd;
      [|discriminate].
    exists "already updated". apply (Hsecond (skill_name skill_dir (default ∅ fm))).
    unfold process_skill. rewrite Hmd, Hparse, Hnf, Hhome, Hd.
    injection Hrun as _ <-. reflexivity.
Qed.

(** C9.  A manifest that exists before a run is the manifest after it,
    whatever the run does; and so is an instruction file. *)
Theorem process_skill_keeps_existing skill_dir fs :
  (forall manifest : string,
      claw_json fs = Some manifest ->
      claw_json (process_skill skill_dir fs).2 = Some manifest) /\
  (forall instructions : string,
      instructions_md fs = Some instructions ->
      instructions_md (process_skill skill_dir fs).2 = Some instructions).
Proof.
  unfold process_skill.
  destruct (SKILL_md fs) as [content|]; [|split; trivial].
  destruct (parse_frontmatter content) as [fm body].
  destruct (no_fields fm); [split; trivial|].
  destruct (bool_decide _); [split; trivial|].
  destruct (derive _ _ _ _) as [d|e]; [|split; trivial].
  split; intros x Hx; cbn [snd claw_json instructions_md SKILL_md];
    destruct (claw_json fs), (instructions_md fs);
    cbn [snd claw_json instructions_md SKILL_md]; congruence.
Qed.

(** C10.  The instruction text depends on the name and the description
    only: the content argument does not matter, and two skills that are
    processed under the same name with the same description, neither with
    an instruction file yet, get the same instruction file, whatever their
    documents, directories and other files. *)
Theorem generate_instructions_by_name_and_description :
  (forall name description content1 content2 : string,
      generate_instructions name description content1 =
      generate_instructions name description content2) /\
  (forall skill_dir1 skill_dir2 fs1 fs2 fs1' fs2' (name content1 content2 body1 body2 : string)
          fm1 fm2,
      SKILL_md fs1 = Some content1 ->
      SKILL_md fs2 = Some content2 ->
      parse_frontmatter content1 = (Some fm1, body1) ->
      parse_frontmatter content2 = (Some fm2, body2) ->
      skill_description fm1 = skill_description fm2 ->
      instructions_md fs1 = None ->
      instructions_md fs2 = None ->
      process_skill skill_dir1 fs1 = (Ret (Some ("OK: " +:+ name)), fs1') ->
      process_skill skill_dir2 fs2 = (Ret (Some ("OK: " +:+ name)), fs2') ->
      instructions_md fs1' = instructions_md fs2' /\
      instructions_md fs1' =
        Some (generate_instructions name (skill_description fm1) EmptyString)).
Proof.
  split; [reflexivity|].
  intros d1 d2 fs1 fs2 fs1' fs2' name c1 c2 b1 b2 fm1 fm2
         Hmd1 Hmd2 Hp1 Hp2 Hdesc Hi1 Hi2 Hrun1 Hrun2.
  apply process_skill_ok_inv in Hrun1
    as (c1' & fm1' & b1' & dv1 & Hmd1' & Hp1' & _ & _ & _ & Hn1 & ->).
  apply process_skill_ok_inv in Hrun2
    as (c2' & fm2' & b2' & dv2 & Hmd2' & Hp2' & _ & _ & _ & Hn2 & ->).
  rewrite Hmd1 in Hmd1'. injection Hmd1' as <-.
  rewrite Hmd2 in Hmd2'. injection Hmd2' as <-.
  rewrite Hp1 in Hp1'. injection Hp1' as <- <-.
  rewrite Hp2 in Hp2'. injection Hp2' as <- <-.
  unfold processed. cbn [instructions_md]. rewrite Hi1, Hi2, <- Hn1, <- Hn2, <- Hdesc.
  split; reflexivity.
Qed.

End Migration.

(** ** The properties on the two small skills *)

Lemma process_skill_rewrites_header_witness :
  exists fs' doc,
    process_skill Examples.dir Examples.files = (Ret (Some "OK: cost-report"), fs') /\
    SKILL_md fs' = Some doc /\
    Spec.header_of_lines 6 doc Examples.body.
Proof.
  destruct (process_skill_rewrites_header Examples.dir Examples.files Examples.content
              Examples.body (default ∅ (parse_frontmatter Examples.content).1))
    as (fs' & d & doc & Hrun & _ & Hmd & _ & _ & _ & Hsix & _).
  - reflexivity.
  - vm_compute. reflexivity.
  - apply (has_field_not_empty _ "name"). vm_compute. eexists. reflexivity.
  - vm_compute. reflexivity.
  - discriminate.
  - vm_compute. reflexivity.
  - exists fs', doc. split; [exact Hrun|]. split; [exact Hmd | exact Hsix].
Defined.

(** C2, as stated, fails: the example skill is processed, and the document
    it gets is not a header of five lines followed by its body. *)
Lemma processed_header_not_five_lines :
  (process_skill Examples.dir Examples.files).1 = Ret (Some "OK: cost-report") /\
  (parse_frontmatter Examples.content).2 = Examples.body /\
  exists doc,
    SKILL_md (process_skill Examples.dir Examples.files).2 = Some doc /\
    ~ Spec.header_of_lines 5 doc Examples.body.
Proof.
  split; [vm_compute; reflexivity|]. split; [vm_compute; reflexivity|].
  destruct (SKILL_md (process_skill Examples.dir Examples.files).2) as [doc|] eqn:Hdoc;
    [|vm_compute in Hdoc; discriminate].
  exists doc. split; [reflexivity|]. intros Hfive.
  apply header_of_lines_count in Hfive; [|lia].
  vm_compute in Hdoc. injection Hdoc as <-. vm_compute in Hfive. discriminate.
Qed.

Lemma process_skill_idempotent_witness :
  let fs1 := (process_skill Examples.dir Examples.files).2 in
  process_skill Examples.dir fs1 =
    (Ret (Some ("SKIP (already updated): " +:+ path_name Examples.dir)), fs1).
Proof.
  intros fs1.
  assert (one_line (path_name Examples.dir)) as Hname by (vm_compute; reflexivity).
  destruct (process_skill_idempotent Examples.dir Examples.files Hname) as (_ & Hsecond & _).
  apply (Hsecond "cost-report"). vm_compute. reflexivity.
Defined.

Lemma process_skill_keeps_existing_witness :
  claw_json (process_skill Examples.dir Examples.files_with_manifest).2 = Some "{}" /\
  instructions_md (process_skill Examples.dir Examples.files_with_manifest).2
    = Some "Ask the site manager.".
Proof.
  destruct (process_skill_keeps_existing Examples.dir Examples.files_with_manifest)
    as [Hmanifest Hinstructions].
  split; [apply Hmanifest | apply Hinstructions]; reflexivity.
Defined.

Lemma generate_instructions_by_name_and_description_witness :
  instructions_md (process_skill Examples.dir Examples.files).2 =
  instructions_md (process_skill Examples.other_dir Examples.other_files).2.
Proof.
  destruct generate_instructions_by_name_and_description as [_ Hsame].
  refine (proj1 (Hsame Examples.dir Examples.other_dir Examples.files Examples.other_files
                   _ _ "cost-report" Examples.content Examples.other_content
                   (parse_frontmatter Examples.content).2
                   (parse_frontmatter Examples.other_content).2
                   (default ∅ (parse_frontmatter Examples.content).1)
                   (default ∅ (parse_frontmatter Examples.other_content).1)
                   _ _ _ _ _ _ _ _ _));
    vm_compute; reflexivity.
Defined.

(** The body that the parser returns starts after the closing delimiter
    line and after the blank lines that follow it. *)
Example parse_frontmatter_skips_blank_lines :
  (parse_frontmatter ("---" +:+ nl +:+ "name: x" +:+ nl +:+ "---" +:+ nl
                      +:+ nl +:+ "# Title" +:+ nl)).2
  = "# Title" +:+ nl.
Proof. vm_compute. reflexivity. Qed.

(** Directly at the root there is no category to look up: the emoji
    selection raises, and [process_skill] with it, before any file is
    written. *)
Example process_skill_at_root_raises :
  determine_emoji [] "demo" = Raise IndexError /\
  process_skill [] Examples.files = (Raise IndexError, Examples.files).
Proof. split; vm_compute; reflexivity. Qed.

(** Whitespace is that of Python, above the ASCII range too: a no-break
    space or an em space after a delimiter belongs to the delimiter line, a
    no-break space after a value or a key is stripped, and a line of such
    spaces after the header is not part of the body. *)
Example whitespace_is_that_of_python :
  forallb (fun w => all_space w && (space_len w =? String.length w)%nat
                    && String.eqb (strip ("a" +:+ w)) "a"
                    && String.eqb (strip (w +:+ "a")) "a")
          Examples.whitespace_characters = true /\
  forallb (fun w => negb (all_space w) && (space_len w =? 0)%nat
                    && String.eqb (strip (w +:+ "a" +:+ w)) (w +:+ "a" +:+ w))
          Examples.other_characters = true.
Proof. split; vm_compute; reflexivity. Qed.

Example parse_frontmatter_unicode_whitespace :
  parse_frontmatter Examples.spaced_content
  = (Some {[ "name" := "x" ]}, "Body" +:+ nl) /\
  strip (Examples.NBSP +:+ " x" +:+ Examples.EMSP +:+ "y " +:+ Examples.EMSP)
  = "x" +:+ Examples.EMSP +:+ "y" /\
  process_skill Examples.dir Examples.migrated_files
  = (Ret (Some "SKIP (already updated): cost-report"), Examples.migrated_files).
Proof. split; [|split]; vm_compute; reflexivity. Qed.

(** * Further properties *)

(** ** What the header pattern accepts *)

Section PatternShape.

Import Frontmatter Header.

Lemma drop_prefix_sound (p s r : string) : drop_prefix p s = Some r -> s = p +:+ r.
Proof.
  revert s. induction p as [|a p IH]; intros s; cbn [drop_prefix].
  - intros [= ->]. reflexivity.
  - destruct s as [|b s]; [discriminate|].
    destruct (Ascii.eqb_spec a b) as [->|]; [|discriminate].
    intros H. rewrite app_cons, (IH _ H). reflexivity.
Qed.

Lemma drop_prefix_app (p r : string) : drop_prefix p (p +:+ r) = Some r.
Proof.
  induction p as [|a p IH]; [reflexivity|].
  rewrite app_cons. cbn [drop_prefix]. rewrite (proj2 (Ascii.eqb_eq a a) eq_refl). exact IH.
Qed.

Lemma close_delim_sound (s r : string) :
  In r (close_delim s) ->
  exists w, all_space w = true /\ s = nl +:+ "---" +:+ w +:+ nl +:+ r.
Proof.
  unfold close_delim. destruct (drop_prefix (String LF "---") s) as [x|] eqn:Hx; [|intros []].
  intros H. destruct (ws_then_nl_sound _ _ H) as (w & Hw & ->).
  exists w. split; [exact Hw|]. apply drop_prefix_sound in Hx. exact Hx.
Qed.

Lemma close_delim_complete (w r : string) :
  all_space w = true -> In r (close_delim (nl +:+ "---" +:+ w +:+ nl +:+ r)).
Proof.
  intros Hw. unfold close_delim.
  change (nl +:+ "---" +:+ w +:+ nl +:+ r) with (String LF "---" +:+ w +:+ nl +:+ r).
  rewrite drop_prefix_app. apply ws_then_nl_complete, Hw.
Qed.

Lemma lazy_body_sound (s g r : string) :
  In (g, r) (lazy_body s) ->
  exists w, all_space w = true /\ s = g +:+ nl +:+ "---" +:+ w +:+ nl +:+ r.
Proof.
  revert g. induction s as [|c s IH]; intros g.
  - cbn [lazy_body]. rewrite List.app_nil_r, in_map_iff.
    intros (x & [= <- <-] & Hx). apply close_delim_sound in Hx. exact Hx.
  - rewrite lazy_body_cons, in_app_iff, !in_map_iff.
    intros [(x & [= <- <-] & Hx)|([g' r'] & [= <- <-] & Hx)].
    + apply close_delim_sound in Hx. exact Hx.
    + destruct (IH _ Hx) as (w & Hw & ->). exists w. split; [exact Hw|reflexivity].
Qed.

Lemma lazy_body_complete (g w r : string) :
  all_space w = true -> In (g, r) (lazy_body (g +:+ nl +:+ "---" +:+ w +:+ nl +:+ r)).
Proof.
  intros Hw. induction g as [|c g IH].
  - rewrite app_nil_l.
    assert (In (EmptyString, r)
              (map (fun x => (EmptyString, x))
                   (close_delim (nl +:+ "---" +:+ w +:+ nl +:+ r)))) as H.
    { apply in_map, close_delim_complete, Hw. }
    change (nl +:+ "---" +:+ w +:+ nl +:+ r)
      with (String LF ("---" +:+ w +:+ nl +:+ r)) in *.
    rewrite lazy_body_cons. apply in_or_app. left. exact H.
  - rewrite app_cons, lazy_body_cons. apply in_or_app. right.
    apply in_map_iff. exists (g, r). split; [reflexivity | exact IH].
Qed.

Lemma head_In {A} (l : list A) (x : A) : head l = Some x -> In x l.
Proof. destruct l; [discriminate|]. intros [= ->]. left. reflexivity. Qed.

Lemma In_head {A} (l : list A) (x : A) : In x l -> is_Some (head l).
Proof. destruct l; [intros []|]. intros _. eexists. reflexivity. Qed.

Lemma re_match_sound (content text rest : string) :
  re_match content = Some (text, rest) -> shaped content text rest.
Proof.
  unfold re_match. destruct (drop_prefix "---" content) as [x|] eqn:Hx; [|discriminate].
  intros H. apply head_In, in_flat_map in H as (y & Hy & H).
  apply ws_then_nl_sound in Hy as (w1 & Hw1 & ->).
  apply lazy_body_sound in H as (w2 & Hw2 & ->).
  exists w1, w2. split; [exact Hw1|]. split; [exact Hw2|].
  exact (drop_prefix_sound _ _ _ Hx).
Qed.

Lemma re_match_complete (content text rest : string) :
  shaped content text rest -> is_Some (re_match content).
Proof.
  intros (w1 & w2 & Hw1 & Hw2 & ->). unfold re_match. rewrite drop_prefix_app.
  apply (In_head _ (text, rest)), in_flat_map.
  exists (text +:+ nl +:+ "---" +:+ w2 +:+ nl +:+ rest).
  split; [apply ws_then_nl_complete, Hw1 | apply lazy_body_complete, Hw2].
Qed.

(** X1.  When the parser finds a header, the document is three dashes,
    whitespace up to a line feed, some header text, a line feed and three
    dashes, whitespace up to a line feed, and then exactly the body that the
    parser returns: the body is the end of the document, untouched. *)
Theorem parse_frontmatter_splits_document (content body : string)
    (fm : gmap string string) :
  parse_frontmatter content = (Some fm, body) ->
  exists text,
    shaped content text body /\
    fm = fold_left add_line (split LF text) ∅ /\
    exists front, content = front +:+ body.
Proof.
  unfold parse_frontmatter.
  destruct (re_match content) as [[text rest]|] eqn:Hm; [|discriminate].
  intros [= <- <-]. exists text.
  pose proof (re_match_sound _ _ _ Hm) as Hs.
  split; [exact Hs|]. split; [reflexivity|].
  destruct Hs as (w1 & w2 & _ & _ & ->).
  exists ("---" +:+ w1 +:+ nl +:+ text +:+ nl +:+ "---" +:+ w2 +:+ nl).
  rewrite !app_assoc. reflexivity.
Qed.

Lemma parse_frontmatter_splits_document_witness :
  exists front, Examples.content = front +:+ Examples.body.
Proof.
  destruct (parse_frontmatter_splits_document Examples.content Examples.body
              (default ∅ (parse_frontmatter Examples.content).1))
    as (text & _ & _ & Hfront).
  - vm_compute. reflexivity.
  - exact Hfront.
Defined.

(** X2.  The parser finds a header exactly when the document has that
    shape for some header text and rest; otherwise it returns no header and
    the whole document as the body.  A document that does not start with
    three dashes has no header. *)
Theorem parse_frontmatter_header_found (content : string) :
  (is_Some (parse_frontmatter content).1 <->
   exists text rest, shaped content text rest) /\
  ((parse_frontmatter content).1 = None -> (parse_frontmatter content).2 = content) /\
  (startswith "---" content = false -> parse_frontmatter content = (None, content)).
Proof.
  unfold parse_frontmatter. split; [|split].
  - destruct (re_match content) as [[text rest]|] eqn:Hm; cbn [fst].
    + split; [|intros _; eexists; reflexivity].
      intros _. exists text, rest. exact (re_match_sound _ _ _ Hm).
    + split; [intros [x Hx]; discriminate|].
      intros (text & rest & Hs). apply re_match_complete in Hs.
      rewrite Hm in Hs. destruct Hs as [x Hx]. discriminate.
  - destruct (re_match content) as [[text rest]|]; [discriminate|reflexivity].
  - intros Hstart. unfold re_match.
    destruct (drop_prefix "---" content) as [x|] eqn:Hx; [|reflexivity].
    apply drop_prefix_sound in Hx.
    assert (startswith "---" content = true) as Ht.
    { apply startswith_spec. exists x. exact Hx. }
    congruence.
Qed.

Lemma parse_frontmatter_header_found_witness :
  parse_frontmatter "# Cost report" = (None, "# Cost report") /\
  is_Some (parse_frontmatter Examples.content).1.
Proof.
  split.
  - apply (proj2 (proj2 (parse_frontmatter_header_found "# Cost report"))). reflexivity.
  - apply (proj1 (parse_frontmatter_header_found Examples.content)).
    exists ("name: cost-report" +:+ nl +:+ "description: Estimate costs from a CSV export"),
      Examples.body.
    exists EmptyString, EmptyString. repeat split.
Defined.

End PatternShape.

(** ** Stripping *)

Section Stripping.

Variable p : ascii -> bool.

(** Empty, or starting with a character that is not stripped. *)
Let clean_start (s : string) : Prop :=
  match s with
  | EmptyString => True
  | String c _ => p c = false
  end.

Lemma chr_in_lstrip (c : ascii) (s : string) :
  chr_in c s = false -> chr_in c (lstrip_by p s) = false.
Proof.
  induction s as [|a s IH]; [trivial|]. intros H. cbn [lstrip_by].
  destruct (p a); [|exact H]. apply IH. cbn [chr_in] in H.
  apply orb_false_iff in H. tauto.
Qed.

Lemma chr_in_rstrip (c : ascii) (s : string) :
  chr_in c s = false -> chr_in c (rstrip_by p s) = false.
Proof.
  induction s as [|a s IH]; [trivial|]. intros H. cbn [chr_in] in H.
  apply orb_false_iff in H as [Ha Hs]. specialize (IH Hs). cbn [rstrip_by].
  destruct (rstrip_by p s) as [|b r].
  - destruct (p a); [reflexivity|]. cbn [chr_in]. rewrite Ha. reflexivity.
  - cbn [chr_in] in *. rewrite Ha. exact IH.
Qed.

Lemma chr_in_strip_by (c : ascii) (s : string) :
  chr_in c s = false -> chr_in c (strip_by p s) = false.
Proof. intros H. apply chr_in_rstrip, chr_in_lstrip, H. Qed.

Lemma lstrip_clean_start (s : string) : clean_start (lstrip_by p s).
Proof.
  induction s as [|a s IH]; [exact I|]. cbn [lstrip_by].
  destruct (p a) eqn:Ha; [exact IH | exact Ha].
Qed.

Lemma lstrip_of_clean_start (s : string) : clean_start s -> lstrip_by p s = s.
Proof. destruct s as [|a s]; [reflexivity|]. cbn. intros ->. reflexivity. Qed.

Lemma rstrip_clean_start (s : string) : clean_start s -> clean_start (rstrip_by p s).
Proof.
  destruct s as [|a s]; [trivial|]. cbn [clean_start rstrip_by]. intros Ha.
  destruct (rstrip_by p s); [rewrite Ha|]; exact Ha.
Qed.

Lemma rstrip_by_idem (s : string) : rstrip_by p (rstrip_by p s) = rstrip_by p s.
Proof.
  induction s as [|a s IH]; [reflexivity|]. cbn [rstrip_by].
  destruct (rstrip_by p s) as [|b r] eqn:Hr.
  - destruct (p a) eqn:Ha; [reflexivity|]. cbn [rstrip_by]. rewrite Ha. reflexivity.
  - change (rstrip_by p (String a (String b r)))
      with (match rstrip_by p (String b r) with
            | EmptyString => if p a then EmptyString else String a EmptyString
            | String x y => String a (String x y)
            end).
    rewrite IH. reflexivity.
Qed.

(** Stripping a second time changes nothing. *)
Lemma strip_by_idem (s : string) : strip_by p (strip_by p s) = strip_by p s.
Proof.
  unfold strip_by.
  rewrite (lstrip_of_clean_start (rstrip_by p (lstrip_by p s))).
  - apply rstrip_by_idem.
  - apply rstrip_clean_start, lstrip_clean_start.
Qed.

Lemma rstrip_by_snoc_keep (t : string) (c : ascii) :
  p c = false -> rstrip_by p (t +:+ String c EmptyString) = t +:+ String c EmptyString.
Proof.
  intros Hc. induction t as [|a t IH].
  - rewrite app_nil_l. cbn [rstrip_by]. rewrite Hc. reflexivity.
  - rewrite app_cons. cbn [rstrip_by]. rewrite IH.
    destruct t; reflexivity.
Qed.

Lemma rstrip_by_snoc_drop (t : string) (c : ascii) :
  p c = true -> rstrip_by p (t +:+ String c EmptyString) = rstrip_by p t.
Proof.
  intros Hc. induction t as [|a t IH].
  - rewrite app_nil_l. cbn [rstrip_by]. rewrite Hc. reflexivity.
  - rewrite app_cons. cbn [rstrip_by]. rewrite IH. reflexivity.
Qed.

(** A text between two characters that are stripped strips to what the
    text itself strips to. *)
Lemma strip_by_wrap (v : string) (c : ascii) :
  p c = true ->
  strip_by p (String c (v +:+ String c EmptyString)) = strip_by p v.
Proof.
  intros Hc. unfold strip_by. cbn [lstrip_by]. rewrite Hc.
  induction v as [|a v IH].
  - rewrite app_nil_l. cbn [lstrip_by]. rewrite Hc. reflexivity.
  - rewrite app_cons. cbn [lstrip_by]. destruct (p a); [exact IH|].
    rewrite <- app_cons. apply rstrip_by_snoc_drop, Hc.
Qed.

(** A text that starts and ends with characters that are not stripped is
    left as it is. *)
Lemma strip_by_fixed (a z : ascii) (s t : string) :
  p a = false -> p z = false ->
  String a s = t +:+ String z EmptyString ->
  strip_by p (String a s) = String a s.
Proof.
  intros Ha Hz Heq. unfold strip_by. cbn [lstrip_by]. rewrite Ha, Heq.
  apply rstrip_by_snoc_keep, Hz.
Qed.

End Stripping.

(** ** The fields of a parsed header *)

Section ParsedFields.

Import Frontmatter Header.

Implicit Types (fm : gmap string string).

Lemma add_line_item fm (line : string) :
  add_line fm line =
    match line_item line with
    | Some (key, value) => <[key := value]> fm
    | None => fm
    end.
Proof.
  unfold add_line, line_item. destruct (chr_in ":" (strip line)); [|reflexivity].
  destruct (partition ":" (strip line)); reflexivity.
Qed.

Lemma add_line_lookup fm (line key : string) :
  add_line fm line !! key =
    match value_for key line with
    | Some v => Some v
    | None => fm !! key
    end.
Proof.
  rewrite add_line_item. unfold value_for.
  destruct (line_item line) as [[k v]|]; [|reflexivity].
  destruct (String.eqb_spec k key) as [->|Hne].
  - apply lookup_insert_eq.
  - apply lookup_insert_ne, Hne.
Qed.

(** Of the lines that give a value for a key, the last one counts. *)
Lemma add_lines_lookup (lines : list string) fm (key : string) :
  fold_left add_line lines fm !! key =
    match last (omap (value_for key) lines) with
    | Some v => Some v
    | None => fm !! key
    end.
Proof.
  revert fm. induction lines as [|l lines IH]; intros fm; [reflexivity|].
  cbn [fold_left omap list_omap]. rewrite IH, add_line_lookup.
  destruct (value_for key l) as [v|]; [|reflexivity].
  rewrite last_cons. destruct (last (omap (value_for key) lines)); reflexivity.
Qed.

Lemma chr_in_partition_fst (c : ascii) (s : string) :
  chr_in c (partition c s).1 = false.
Proof.
  induction s as [|a s IH]; [reflexivity|]. cbn [partition].
  destruct (Ascii.eqb a c) eqn:Ha; [reflexivity|].
  destruct (partition c s) as [k v]. cbn [fst chr_in] in *. rewrite Ha. exact IH.
Qed.

(** What a line gives: a trimmed key without a colon, and a value without
    quotes around it; neither holds a line feed when the line holds none. *)
Lemma line_item_clean (line key value : string) :
  line_item line = Some (key, value) ->
  strip key = key /\ chr_in ":" key = false /\ strip_chr SQ value = value /\
  (one_line line -> one_line key /\ one_line value).
Proof.
  unfold line_item. destruct (chr_in ":" (strip line)); [|discriminate].
  pose proof (chr_in_partition_fst ":" (strip line)) as Hcolon.
  pose proof (one_line_partition ":" (strip line)) as Hone.
  destruct (partition ":" (strip line)) as [k v]. cbn [fst snd] in *.
  intros [= <- <-]. split; [apply strip_idem|].
  split; [apply chr_in_strip, Hcolon|]. split; [apply strip_by_idem|].
  intros Hline. destruct (Hone (one_line_strip _ Hline)) as [Hk Hv].
  unfold strip_chr. auto using one_line_strip_by, one_line_strip.
Qed.

(** X3.  The header is read line by line: a line without a colon gives
    nothing, and of several lines for the same key the last one counts.
    Every key is trimmed and holds no colon and no line feed; every value is
    a single line that does not start or end with a single quote. *)
Theorem parse_frontmatter_fields (content body : string) fm :
  parse_frontmatter content = (Some fm, body) ->
  exists text,
    shaped content text body /\
    (forall key, fm !! key = last (omap (value_for key) (split LF text))) /\
    (forall key value,
        fm !! key = Some value ->
        strip key = key /\ chr_in ":" key = false /\ one_line key /\
        one_line value /\ strip_chr SQ value = value).
Proof.
  unfold parse_frontmatter.
  destruct (re_match content) as [[text rest]|] eqn:Hm; [|discriminate].
  intros [= <- <-]. exists text. split; [apply re_match_sound, Hm|].
  assert (forall key,
             fold_left add_line (split LF text) ∅ !! key =
             last (omap (value_for key) (split LF text))) as Hlast.
  { intros key. rewrite add_lines_lookup, lookup_empty.
    destruct (last (omap (value_for key) (split LF text))); reflexivity. }
  split; [exact Hlast|]. intros key value. rewrite Hlast. intros Hv.
  apply last_Some_elem_of, list_elem_of_omap in Hv as (line & Hline & Hv).
  unfold value_for in Hv. destruct (line_item line) as [[k v]|] eqn:Hitem; [|discriminate].
  destruct (String.eqb_spec k key) as [->|]; [|discriminate]. injection Hv as ->.
  destruct (line_item_clean _ _ _ Hitem) as (Hk & Hcolon & Hq & Hone).
  assert (one_line line) as Hl.
  { pose proof (split_one_line text) as Hall. rewrite List.Forall_forall in Hall.
    apply Hall, list_elem_of_In, Hline. }
  destruct (Hone Hl). auto.
Qed.

Lemma parse_frontmatter_fields_witness :
  let content := "---" +:+ nl +:+ "name: first" +:+ nl +:+ "no colon here" +:+ nl
                 +:+ "name :  'second' " +:+ nl +:+ "---" +:+ nl in
  (parse_frontmatter content).1 = Some {[ "name" := "second" ]} /\
  exists text,
    shaped content text EmptyString /\
    last (omap (value_for "name") (split LF text)) = Some "second".
Proof.
  intros content. split; [vm_compute; reflexivity|].
  destruct (parse_frontmatter_fields content EmptyString {[ "name" := "second" ]})
    as (text & Hshape & Hlast & _).
  - vm_compute. reflexivity.
  - exists text. split; [exact Hshape|]. rewrite <- Hlast. reflexivity.
Defined.

End ParsedFields.

(** ** Reading back a header that was written *)

Section ReadBack.

Import Frontmatter Header.

Implicit Types (fm : gmap string string) (fs : skill_files) (skill_dir : Path).

Lemma partition_app (c : ascii) (k rest : string) :
  chr_in c k = false -> partition c (k +:+ String c rest) = (k, rest).
Proof.
  induction k as [|a k IH]; intros H.
  - rewrite app_nil_l. cbn [partition]. rewrite (proj2 (Ascii.eqb_eq c c) eq_refl).
    reflexivity.
  - cbn [chr_in] in H. apply orb_false_iff in H as [Ha Hk].
    rewrite app_cons. cbn [partition]. rewrite Ha, (IH Hk). reflexivity.
Qed.

(** A line made of a trimmed key, a colon and some text gives that key. *)
Lemma add_line_field fm (a : ascii) (k raw : string) :
  plain a = true ->
  chr_in ":" (String a k) = false ->
  strip (String a k) = String a k ->
  rstrip (String a k +:+ String ":" raw) = String a k +:+ String ":" raw ->
  add_line fm (String a k +:+ String ":" raw)
  = <[String a k := strip_chr SQ (strip_chr DQ (strip raw))]> fm.
Proof.
  intros Ha Hcolon Hkey Hend. unfold add_line.
  assert (strip (String a k +:+ String ":" raw) = String a k +:+ String ":" raw) as ->.
  { unfold strip. rewrite app_cons, (lstrip_none _ (space_len_plain a _ Ha)).
    rewrite <- app_cons. exact Hend. }
  rewrite chr_in_app, Hcolon. cbn [orb chr_in].
  rewrite (proj2 (Ascii.eqb_eq ":" ":") eq_refl). cbn [orb].
  rewrite (partition_app _ _ _ Hcolon), Hkey. reflexivity.
Qed.

(** A value written between double quotes after a key and a space is read
    back without them, and without the quotes at its own ends. *)
Lemma add_line_quoted fm (a : ascii) (k v : string) :
  plain a = true ->
  chr_in ":" (String a k) = false ->
  strip (String a k) = String a k ->
  add_line fm (String a k +:+ ": " +:+ dq +:+ v +:+ dq)
  = <[String a k := strip_chr SQ (strip_chr DQ v)]> fm.
Proof.
  intros Ha Hcolon Hkey.
  change (String a k +:+ ": " +:+ dq +:+ v +:+ dq)
    with (String a k +:+ String ":" (String " " (String DQ (v +:+ dq)))).
  rewrite (add_line_field fm a k _ Ha Hcolon Hkey).
  - f_equal. f_equal. unfold strip. rewrite (lstrip_1 " " _ eq_refl).
    rewrite (lstrip_none _ (space_len_plain DQ _ eq_refl)).
    change (String DQ (v +:+ dq)) with (String DQ v +:+ String DQ EmptyString) at 1.
    rewrite rstrip_snoc_plain by reflexivity.
    rewrite app_cons. apply (strip_by_wrap (Ascii.eqb DQ)). reflexivity.
  - change (String a k +:+ String ":" (String " " (String DQ (v +:+ dq))))
      with (String a k +:+ (": " +:+ dq +:+ v) +:+ String DQ EmptyString).
    rewrite <- app_assoc. apply rstrip_snoc_plain. reflexivity.
Qed.

(** The metadata text is a JSON object: it starts and ends with a brace. *)
Lemma build_metadata_braces emoji os_list homepage info :
  exists inner, build_metadata emoji os_list homepage info
                = String "{" (inner +:+ String "}" EmptyString).
Proof. eexists. unfold build_metadata, metadata_dict. cbn [Json.dumps]. reflexivity. Qed.

Lemma add_line_metadata fm (inner : string) :
  add_line fm ("metadata: " +:+ String "{" (inner +:+ String "}" EmptyString))
  = <["metadata" := String "{" (inner +:+ String "}" EmptyString)]> fm.
Proof.
  set (md := String "{" (inner +:+ String "}" EmptyString)).
  assert (forall p : ascii -> bool, p "{"%char = false -> p "}"%char = false ->
                                     strip_by p md = md) as Hfixed.
  { intros p Hopen Hclose. apply (strip_by_fixed p _ "}"%char _ (String "{" inner));
      [exact Hopen | exact Hclose | reflexivity]. }
  change ("metadata: " +:+ md) with ("metadata" +:+ String ":" (String " " md)).
  rewrite (add_line_field fm "m" "etadata"); [| reflexivity | reflexivity | reflexivity |].
  - f_equal. unfold strip_chr.
    assert (strip (String " " md) = md) as ->.
    { unfold strip. rewrite (lstrip_1 " " _ eq_refl). fold (strip md).
      apply (strip_fixed "{" "}" _ (String "{" inner)); reflexivity. }
    rewrite !Hfixed by reflexivity. reflexivity.
  - change ("metadata" +:+ String ":" (String " " md))
      with (("metadata: " +:+ String "{" inner) +:+ String "}" EmptyString).
    apply rstrip_snoc_plain. reflexivity.
Qed.

Lemma lazy_body_settled (s g r : string) :
  head (lazy_body s) = Some (g, r) -> ws_then_nl r = [].
Proof.
  assert (forall x, head (map (fun y => (EmptyString, y)) (close_delim x)) = Some (g, r) ->
                    ws_then_nl r = []) as Hclose.
  { intros x. rewrite head_map. unfold close_delim.
    destruct (drop_prefix (String LF "---") x) as [y|]; [|discriminate].
    destruct (head (ws_then_nl y)) as [z|] eqn:Hz; [|discriminate].
    intros [= _ <-]. exact (ws_then_nl_settled _ _ Hz). }
  revert g Hclose. induction s as [|c s IH]; intros g Hclose.
  - cbn [lazy_body]. rewrite List.app_nil_r. apply Hclose.
  - rewrite lazy_body_cons.
    destruct (map (fun y => (EmptyString, y)) (close_delim (String c s))) as [|x xs] eqn:Hx.
    + cbn [app]. rewrite head_map.
      destruct (head (lazy_body s)) as [[g' r']|] eqn:Hs; [|discriminate].
      intros [= _ <-]. apply (IH g'); [|reflexivity].
      intros y Hy. rewrite head_map in Hy. unfold close_delim in Hy.
      destruct (drop_prefix (String LF "---") y) as [z|]; [|discriminate].
      destruct (head (ws_then_nl z)) as [w|] eqn:Hw; [|discriminate].
      injection Hy as _ <-. exact (ws_then_nl_settled _ _ Hw).
    + intros H. apply (Hclose (String c s)). rewrite Hx. exact H.
Qed.

(** The body that the parser returns does not start with blank lines: the
    pattern took them with the closing delimiter. *)
Lemma re_match_settled (content text rest : string) :
  re_match content = Some (text, rest) -> ws_then_nl rest = [].
Proof.
  unfold re_match. destruct (drop_prefix "---" content) as [x|]; [|discriminate].
  induction (ws_then_nl x) as [|y ys IH]; [discriminate|].
  cbn [flat_map]. destruct (lazy_body y) as [|[g r] l] eqn:Hy; [exact IH|].
  intros [= <- <-]. apply (lazy_body_settled y g r). rewrite Hy. reflexivity.
Qed.

(** The four lines between the delimiters are read back as four fields. *)
Lemma written_lines_fields (name description inner : string) :
  fold_left add_line
    [ "name: " +:+ dq +:+ name +:+ dq;
      "description: " +:+ dq +:+ description +:+ dq;
      "homepage: " +:+ dq +:+ HOMEPAGE +:+ dq;
      "metadata: " +:+ String "{" (inner +:+ String "}" EmptyString) ] ∅
  = written_fields (strip_chr SQ (strip_chr DQ name))
      (strip_chr SQ (strip_chr DQ description))
      (String "{" (inner +:+ String "}" EmptyString)).
Proof.
  cbn [fold_left].
  change ("name: " +:+ dq +:+ name +:+ dq) with ("name" +:+ ": " +:+ dq +:+ name +:+ dq).
  change ("description: " +:+ dq +:+ description +:+ dq)
    with ("description" +:+ ": " +:+ dq +:+ description +:+ dq).
  rewrite (add_line_quoted ∅ "n" "ame") by reflexivity.
  rewrite (add_line_quoted _ "d" "escription") by reflexivity.
  rewrite add_line_homepage, add_line_metadata. reflexivity.
Qed.

(** X4.  The document that [process_skill] writes reads back: parsing it
    gives exactly the four fields name, description, homepage and metadata
    (whatever other fields the old header had), with the values that were
    written, and the same body as before.  For the name and the description
    this needs that stripping quotes leaves them as they are. *)
Theorem process_skill_header_reads_back skill_dir fs (content body : string) fm :
  SKILL_md fs = Some content ->
  parse_frontmatter content = (Some fm, body) ->
  fm <> ∅ ->
  fm !! "homepage" = None ->
  skill_dir <> [] ->
  one_line (path_name skill_dir) ->
  quote_clean (skill_name skill_dir fm) ->
  quote_clean (skill_description fm) ->
  exists fs' d doc,
    process_skill skill_dir fs = (Ret (Some ("OK: " +:+ skill_name skill_dir fm)), fs') /\
    SKILL_md fs' = Some doc /\
    parse_frontmatter doc =
      (Some (written_fields (skill_name skill_dir fm) (skill_description fm)
               (build_metadata (d_emoji d) (d_os d) HOMEPAGE (d_requires d))),
       body).
Proof.
  intros Hmd Hparse Hne Hhome Hdir Hname [Hn1 Hn2] [Hd1 Hd2].
  destruct (derive_total skill_dir (skill_name skill_dir fm) (skill_description fm)
              content Hdir) as [d Hd].
  pose proof (parse_frontmatter_values _ _ _ Hparse) as Hvals.
  pose proof (skill_name_one_line _ _ Hname Hvals) as Hn.
  pose proof (skill_description_one_line _ Hvals) as Hdesc.
  set (name := skill_name skill_dir fm) in *.
  set (description := skill_description fm) in *.
  pose proof (build_metadata_one_line (d_emoji d) (d_os d) HOMEPAGE (d_requires d)) as Hm.
  destruct (build_metadata_braces (d_emoji d) (d_os d) HOMEPAGE (d_requires d))
    as [inner Hinner].
  exists (Spec.processed skill_dir fs content fm body d), d,
    (Spec.new_content name description body d).
  split; [exact (process_skill_ok _ _ _ _ _ _ Hmd Hparse Hne Hhome Hd)|].
  split; [reflexivity|].
  assert (ws_then_nl body = []) as Hbody.
  { unfold parse_frontmatter in Hparse.
    destruct (re_match content) as [[text rest]|] eqn:Hre; [|discriminate].
    injection Hparse as _ <-. exact (re_match_settled _ _ _ Hre). }
  unfold Spec.new_content. rewrite Hinner in *.
  set (md := String "{" (inner +:+ String "}" EmptyString)) in *.
  pose proof (new_fm_lines_one_line _ _ _ Hn Hdesc Hm) as Hlines.
  unfold new_fm_lines in *.
  set (l2 := "name: " +:+ dq +:+ name +:+ dq) in *.
  set (l3 := "description: " +:+ dq +:+ description +:+ dq) in *.
  set (l4 := "homepage: " +:+ dq +:+ HOMEPAGE +:+ dq) in *.
  set (l5 := "metadata: " +:+ md) in *.
  inversion Hlines as [|? ? _ Hfields]; subst.
  assert (Forall one_line [l2; l3; l4; l5]) as Hone.
  { repeat match goal with H : Forall _ (_ :: _) |- _ => inversion H; subst; clear H end.
    repeat constructor; assumption. }
  assert (join nl ["---"; l2; l3; l4; l5; "---"] +:+ nl +:+ body
          = "---" +:+ String LF (join nl [l2; l3; l4; l5]
                                 +:+ String LF ("---" +:+ String LF body))) as ->.
  { cbn [join]. rewrite !app_assoc. reflexivity. }
  unfold parse_frontmatter. rewrite re_match_header.
  - rewrite (split_join [l2; l3; l4; l5]) by (discriminate || exact Hone).
    unfold l2, l3, l4, l5, md. rewrite written_lines_fields, Hn1, Hn2, Hd1, Hd2.
    unfold Spec.after_close. rewrite Hbody. reflexivity.
  - discriminate.
  - exact Hone.
  - repeat constructor.
  - reflexivity.
Qed.

Lemma process_skill_header_reads_back_witness :
  exists doc,
    SKILL_md (process_skill Examples.dir Examples.files).2 = Some doc /\
    (parse_frontmatter doc).2 = Examples.body /\
    default ∅ (parse_frontmatter doc).1 !! "name" = Some "cost-report".
Proof.
  destruct (process_skill_header_reads_back Examples.dir Examples.files Examples.content
              Examples.body (default ∅ (parse_frontmatter Examples.content).1))
    as (fs' & d & doc & Hrun & Hmd & Hparse).
  - reflexivity.
  - vm_compute. reflexivity.
  - apply (has_field_not_empty _ "name"). vm_compute. eexists. reflexivity.
  - vm_compute. reflexivity.
  - discriminate.
  - vm_compute. reflexivity.
  - split; vm_compute; reflexivity.
  - split; vm_compute; reflexivity.
  - exists doc. rewrite Hrun. cbn [snd]. split; [exact Hmd|]. rewrite Hparse. cbn [fst snd].
    split; [reflexivity|]. vm_compute. reflexivity.
Defined.

End ReadBack.

(** ** More on the classifier *)

(** X5.  The metadata text is a single line whatever its arguments are,
    also when the emoji, the homepage or a requirement holds a line feed:
    the serialization escapes it. *)
Theorem build_metadata_single_line (emoji : string) (os_list : list string)
    (homepage : string) (info : requires_info) :
  one_line (build_metadata emoji os_list homepage info) /\
  startswith "{" (build_metadata emoji os_list homepage info) = true.
Proof.
  split; [apply dumps_one_line|].
  destruct (build_metadata_braces emoji os_list homepage info) as [inner ->]. reflexivity.
Qed.

Section Tags.

Lemma matching_names_spec (table : list (string * list string)) (s name : string) :
  In name (Spec.matching_names table s) <->
  exists kws, In (name, kws) table /\ Spec.matches kws s.
Proof.
  unfold Spec.matching_names. rewrite in_map_iff. split.
  - intros ([n kws] & <- & H). apply filter_In in H as [Hin Hm].
    exists kws. split; [exact Hin|]. apply any_in_spec. exact Hm.
  - intros (kws & Hin & Hm). exists (name, kws). split; [reflexivity|].
    apply filter_In. split; [exact Hin|]. apply any_in_spec. exact Hm.
Qed.

(** X6.  For a name, a description and a sub-category in ASCII, the tags
    are "construction" and then the tags of the table with a keyword in the
    lowercased name, description and sub-category, in table order, cut after
    five entries.  So every tag but the first has a keyword in that text,
    and a tag with a keyword in it is present whenever at most four tags of
    the table match. *)
Theorem determine_tags_matching (name description subcat topcat : string) :
  is_ascii name = true -> is_ascii description = true -> is_ascii subcat = true ->
  let combined := lower (name +:+ " " +:+ description +:+ " " +:+ subcat) in
  let tags := determine_tags name description subcat topcat in
  tags = take 5 ("construction" :: Spec.matching_names tag_keywords combined) /\
  tags `sublist_of` "construction" :: map fst tag_keywords /\
  (forall tag, In tag tags ->
     tag = "construction" \/
     exists kws, In (tag, kws) tag_keywords /\ Spec.matches kws combined) /\
  (forall tag kws,
     In (tag, kws) tag_keywords -> Spec.matches kws combined ->
     length (Spec.matching_names tag_keywords combined) <= 4 ->
     In tag tags).
Proof.
  intros _ _ _ combined tags.
  assert (tags = take 5 ("construction" :: Spec.matching_names tag_keywords combined))
    as Htags.
  { unfold tags, determine_tags. cbv zeta. rewrite tags_loop. reflexivity. }
  split; [exact Htags|]. rewrite Htags. split; [|split].
  - etrans; [apply sublist_take|].
    apply (sublist_skip "construction"), matching_names_sublist.
  - intros tag Hin. apply list_elem_of_In in Hin.
    pose proof (elem_of_sublist _ _ _ Hin
                  (sublist_take ("construction"
                                 :: Spec.matching_names tag_keywords combined) 5)) as Hin'.
    apply list_elem_of_In in Hin'. destruct Hin' as [<-|Hin']; [left; reflexivity|].
    right. apply matching_names_spec. exact Hin'.
  - intros tag kws Hin Hm Hlen. rewrite take_ge by (cbn [length]; lia).
    right. apply matching_names_spec. exists kws. split; assumption.
Qed.

Lemma determine_tags_matching_witness :
  determine_tags "bim-cost-report" "Price the schedule data of a safety KPI" "Estimating"
    "1_DDC_Toolkit"
  = ["construction"; "estimation"; "BIM"; "cost-management"; "scheduling"] /\
  In "BIM" (determine_tags "ifc-checker" "Verify a model" "BIM-Analysis" "1_DDC_Toolkit").
Proof.
  split.
  - rewrite (proj1 (determine_tags_matching "bim-cost-report"
                      "Price the schedule data of a safety KPI" "Estimating"
                      "1_DDC_Toolkit" eq_refl eq_refl eq_refl)).
    vm_compute. reflexivity.
  - apply (proj2 (proj2 (proj2 (determine_tags_matching "ifc-checker" "Verify a model"
                                  "BIM-Analysis" "1_DDC_Toolkit" eq_refl eq_refl eq_refl)))
             "BIM" ["bim"; "ifc"; "revit"; "rvt"]).
    + right. left. reflexivity.
    + apply any_in_spec. vm_compute. reflexivity.
    + vm_compute. lia.
Defined.

Lemma lower_ascii_idem (c : ascii) : lower_ascii (lower_ascii c) = lower_ascii c.
Proof. destruct c as [[] [] [] [] [] [] [] []]; reflexivity. Qed.

Lemma lower_idem (s : string) : lower (lower s) = lower s.
Proof.
  induction s as [|c s IH]; [reflexivity|]. cbn [lower].
  rewrite lower_ascii_idem, IH. reflexivity.
Qed.

Lemma lower_app (s t : string) : lower (s +:+ t) = lower s +:+ lower t.
Proof.
  induction s as [|c s IH]; [reflexivity|]. rewrite app_cons. cbn [lower].
  rewrite IH. reflexivity.
Qed.

(** X7.  The tags do not depend on the top category, and not on the case
    of the ASCII letters of the name, the description and the sub-category:
    two skills whose texts agree once lowercased get the same tags. *)
Theorem determine_tags_ignores_case (name1 description1 subcat1 topcat1 : string)
    (name2 description2 subcat2 topcat2 : string) :
  lower name1 = lower name2 ->
  lower description1 = lower description2 ->
  lower subcat1 = lower subcat2 ->
  determine_tags name1 description1 subcat1 topcat1 =
  determine_tags name2 description2 subcat2 topcat2.
Proof.
  intros Hn Hd Hs. unfold determine_tags. rewrite !lower_app, Hn, Hd, Hs. reflexivity.
Qed.

Lemma determine_tags_ignores_case_witness :
  determine_tags "BIM-Checker" "Validate IFC models" "BIM-Analysis" "1_DDC_Toolkit" =
  determine_tags "bim-checker" "validate ifc models" "bim-analysis" "anywhere".
Proof.
  apply determine_tags_ignores_case; vm_compute; reflexivity.
Defined.

End Tags.

Section Requirements.

Lemma any_bins_loop (content : string) (table : list (string * list string))
    (any_bins : list string) :
  fold_left (any_bins_step content) table any_bins =
    any_bins ++ Spec.matching_names
                  (List.filter (fun item => negb (String.eqb (fst item) "python3")) table)
                  content.
Proof.
  revert any_bins. induction table as [|[bin_name kws] table IH]; intros any_bins.
  - unfold Spec.matching_names. cbn. rewrite List.app_nil_r. reflexivity.
  - cbn [fold_left any_bins_step List.filter fst]. rewrite IH.
    destruct (String.eqb bin_name "python3"); cbn [negb]; [reflexivity|].
    unfold Spec.matching_names. cbn [List.filter snd].
    destruct (any_in kws content); cbn [map fst]; [|reflexivity].
    rewrite <- List.app_assoc. reflexivity.
Qed.

(** What [determine_requires] returns, with its three loops as filters. *)
Lemma determine_requires_shape (content : string) :
  determine_requires content =
    Ret {| requires :=
             set_if_nonempty "env" (Spec.matching_names ENV_REQUIREMENTS content)
               (set_if_nonempty "anyBins"
                  (Spec.matching_names (tail BIN_REQUIREMENTS) content)
                  (set_if_nonempty "bins"
                     (if any_in ["import "; "python"; "pip install"; "pandas"; "numpy"]
                                content
                      then ["python3"] else []) []));
           primaryEnv := List.hd_error (Spec.matching_names ENV_REQUIREMENTS content) |}.
Proof.
  unfold determine_requires.
  change (items_get "python3" BIN_REQUIREMENTS)
    with (Some ["import "; "python"; "pip install"; "pandas"; "numpy"]). cbv iota beta.
  rewrite any_bins_loop. cbn [app].
  change (List.filter (fun item => negb (String.eqb (fst item) "python3")) BIN_REQUIREMENTS)
    with (tail BIN_REQUIREMENTS).
  change (@nil string, @None string) with (@nil string, List.hd_error (@nil string)).
  rewrite env_loop; [|repeat constructor; discriminate|constructor].
  cbn [app]. set (matching := Spec.matching_names ENV_REQUIREMENTS content).
  assert ((if truthy (List.hd_error matching) then List.hd_error matching else None)
          = List.hd_error matching) as ->; [|reflexivity].
  destruct matching as [|x m] eqn:E; [reflexivity|].
  assert (In x (map fst ENV_REQUIREMENTS)) as Hin.
  { apply (matching_names_In _ content). fold matching. rewrite E. left. reflexivity. }
  cbn in Hin. destruct Hin as [<-|[<-|[]]]; reflexivity.
Qed.

(** The entry of a key in the dict of requirements: a list that is not
    empty, or no entry. *)
Lemma items_get_requires (key : string) (bins any_bins env : list string) :
  items_get key
    (set_if_nonempty "env" env
       (set_if_nonempty "anyBins" any_bins (set_if_nonempty "bins" bins [])))
  = let entry (l : list string) := match l with [] => None | _ => Some l end in
    if String.eqb key "bins" then entry bins
    else if String.eqb key "anyBins" then entry any_bins
    else if String.eqb key "env" then entry env
    else None.
Proof.
  cbv zeta.
  destruct (String.eqb_spec key "bins") as [->|Hb];
    [|destruct (String.eqb_spec key "anyBins") as [->|Ha];
      [|destruct (String.eqb_spec key "env") as [->|He]]].
  - rewrite !items_get_set_if_other by discriminate.
    destruct bins; [reflexivity|]. cbn. reflexivity.
  - rewrite items_get_set_if_other by discriminate.
    destruct any_bins; cbn [set_if_nonempty].
    + rewrite items_get_set_if_other by discriminate. reflexivity.
    + apply items_get_set_new. rewrite items_get_set_if_other by discriminate. reflexivity.
  - destruct env; cbn [set_if_nonempty].
    + rewrite !items_get_set_if_other by discriminate. reflexivity.
    + apply items_get_set_new. rewrite !items_get_set_if_other by discriminate. reflexivity.
  - rewrite !items_get_set_if_other by congruence. reflexivity.
Qed.

(** X8.  The dict of requirements has "bins" exactly when a Python marker
    occurs in the text, and then it is the one binary "python3"; it has
    "anyBins" exactly when one of the other binaries of the table has a
    keyword in the text, and then it lists those binaries in table order,
    never "python3"; it has no other keys than "bins", "anyBins" and "env",
    in that order, and no entry is an empty list. *)
Theorem determine_requires_bins (content : string) :
  let python_markers := ["import "; "python"; "pip install"; "pandas"; "numpy"] in
  let others := Spec.matching_names (tail BIN_REQUIREMENTS) content in
  exists info,
    determine_requires content = Ret info /\
    items_get "bins" (requires info) =
      (if any_in python_markers content then Some ["python3"] else None) /\
    (is_Some (items_get "bins" (requires info)) <-> Spec.matches python_markers content) /\
    items_get "anyBins" (requires info) =
      match others with [] => None | _ => Some others end /\
    ~ In "python3" others /\
    map fst (requires info) `sublist_of` ["bins"; "anyBins"; "env"] /\
    (forall key, items_get key (requires info) <> Some []).
Proof.
  intros python_markers others. eexists. split; [apply determine_requires_shape|].
  cbn [requires]. fold python_markers. fold others.
  set (env := Spec.matching_names ENV_REQUIREMENTS content).
  split; [|split; [|split; [|split; [|split]]]].
  - rewrite items_get_requires. cbv zeta. change (String.eqb "bins" "bins") with true.
    cbv iota. destruct (any_in python_markers content); reflexivity.
  - rewrite items_get_requires, <- any_in_spec. cbv zeta.
    change (String.eqb "bins" "bins") with true. cbv iota.
    destruct (any_in python_markers content); split; intros H;
      try reflexivity; try (eexists; reflexivity); try discriminate.
    destruct H as [x Hx]. discriminate.
  - rewrite items_get_requires. reflexivity.
  - intros Hin. apply matching_names_In in Hin. cbn in Hin.
    repeat (destruct Hin as [Hin|Hin]; [discriminate Hin|]). exact Hin.
  - destruct (any_in python_markers content), others, env; cbn;
      repeat first [ apply sublist_nil | apply sublist_skip | apply sublist_cons ].
  - intros key. rewrite items_get_requires. cbv zeta.
    destruct (String.eqb key "bins");
      [destruct (any_in python_markers content); discriminate|].
    destruct (String.eqb key "anyBins"); [destruct others; discriminate|].
    destruct (String.eqb key "env"); [destruct env; discriminate|discriminate].
Qed.

End Requirements.

(** ** A longer text *)

Section LongerText.

Variables pre content post : string.

Let more : string := pre +:+ content +:+ post.

Lemma occurs_in_extend (kw : string) : occurs_in kw content -> occurs_in kw more.
Proof.
  intros (a & b & ->). exists (pre +:+ a), (b +:+ post).
  unfold more. rewrite !app_assoc. reflexivity.
Qed.

Lemma any_in_extend (kws : list string) :
  any_in kws content = true -> any_in kws more = true.
Proof.
  rewrite !any_in_spec. unfold Spec.matches. rewrite !List.Exists_exists.
  intros (kw & Hin & H). exists kw. split; [exact Hin | apply occurs_in_extend, H].
Qed.

Lemma matching_names_extend (table : list (string * list string)) :
  Spec.matching_names table content `sublist_of` Spec.matching_names table more.
Proof.
  unfold Spec.matching_names. induction table as [|[name kws] table IH]; [constructor|].
  cbn [List.filter snd]. pose proof (any_in_extend kws) as Hk.
  destruct (any_in kws content).
  - rewrite (Hk eq_refl). cbn [map fst]. apply sublist_skip, IH.
  - destruct (any_in kws more); cbn [map fst]; [apply sublist_cons|]; exact IH.
Qed.

Lemma entry_extend (l l' x : list string) :
  l `sublist_of` l' ->
  match l with [] => None | _ => Some l end = Some x ->
  exists x', match l' with [] => None | _ => Some l' end = Some x' /\ x `sublist_of` x'.
Proof.
  intros Hsub. destruct l as [|a l]; [discriminate|]. intros [= <-].
  destruct l' as [|b l']; [apply sublist_nil_r in Hsub; discriminate|].
  eexists. split; [reflexivity | exact Hsub].
Qed.

(** X9.  Text added before or after a document takes nothing away: every
    permission stays, a document for Windows only stays so, every entry of
    the requirements stays with at least the names it had, in their order,
    and a primary variable stays defined. *)
Theorem longer_text_keeps_findings :
  (forall perm, In perm (determine_permissions content) ->
                In perm (determine_permissions more)) /\
  (determine_os content = ["win32"] -> determine_os more = ["win32"]) /\
  exists info info',
    determine_requires content = Ret info /\
    determine_requires more = Ret info' /\
    (forall key l, items_get key (requires info) = Some l ->
       exists l', items_get key (requires info') = Some l' /\ l `sublist_of` l') /\
    (is_Some (primaryEnv info) -> is_Some (primaryEnv info')).
Proof.
  split; [|split].
  - intros perm. unfold determine_permissions.
    pose proof (any_in_extend NETWORK_KEYWORDS) as Hk.
    destruct (any_in NETWORK_KEYWORDS content); [rewrite (Hk eq_refl); trivial|].
    destruct (any_in NETWORK_KEYWORDS more); [|trivial].
    intros [<-|[]]. left. reflexivity.
  - unfold determine_os. rewrite !determine_os_loop_spec.
    pose proof (any_in_extend WIN32_KEYWORDS) as Hk.
    destruct (any_in WIN32_KEYWORDS content); [|discriminate].
    rewrite (Hk eq_refl). reflexivity.
  - eexists. eexists. split; [apply determine_requires_shape|].
    split; [apply determine_requires_shape|]. cbn [requires primaryEnv]. split.
    + intros key l. rewrite !items_get_requires. cbv zeta.
      destruct (String.eqb key "bins").
      { apply entry_extend.
        pose proof (any_in_extend ["import "; "python"; "pip install"; "pandas"; "numpy"])
          as Hk.
        destruct (any_in _ content); [rewrite (Hk eq_refl); reflexivity|].
        apply sublist_nil_l. }
      destruct (String.eqb key "anyBins"); [apply entry_extend, matching_names_extend|].
      destruct (String.eqb key "env"); [apply entry_extend, matching_names_extend|].
      discriminate.
    + pose proof (matching_names_extend ENV_REQUIREMENTS) as Hsub.
      destruct (Spec.matching_names ENV_REQUIREMENTS content) as [|a l];
        [intros [x Hx]; discriminate|].
      destruct (Spec.matching_names ENV_REQUIREMENTS more) as [|b l'];
        [apply sublist_nil_r in Hsub; discriminate|].
      intros _. eexists. reflexivity.
Qed.

End LongerText.

(** ** More on the instruction text *)

Section InstructionPhrases.

Import Phrases.

(** First match wins: a check decides when no check before it has a
    keyword in the text, and the default is for a text without any keyword
    of any check. *)
Lemma first_phrase_spec (groups : list (list string * string)) (default s : string) :
  (forall before kws phrase after,
      groups = before ++ (kws, phrase) :: after ->
      Forall (fun g => ~ Spec.matches (fst g) s) before ->
      Spec.matches kws s ->
      first_phrase groups default s = phrase) /\
  (Forall (fun g => ~ Spec.matches (fst g) s) groups ->
   first_phrase groups default s = default).
Proof.
  unfold first_phrase. split.
  - intros before kws phrase after ->. induction before as [|g before IH]; intros Hb Hm.
    + cbn [app List.find fst]. rewrite (proj2 (any_in_spec kws s) Hm). reflexivity.
    + inversion Hb as [|? ? Hg Hb']; subst. cbn [app List.find].
      rewrite (proj2 (any_in_false (fst g) s) Hg). exact (IH Hb' Hm).
  - induction groups as [|g groups IH]; intros Hall; [reflexivity|].
    inversion Hall as [|? ? Hg Hall']; subst. cbn [List.find].
    rewrite (proj2 (any_in_false (fst g) s) Hg). exact (IH Hall').
Qed.

(** X10.  The instruction text is a fixed frame around three parts.  The
    domain phrase is that of the first of ten checks with a keyword in the
    name as it is written, and the project-management phrase when no check
    has one.  The description is copied as it is.  The action phrase, for a
    description in ASCII, is that of the first of nine checks with a keyword
    in the description in lower case, and the assistance phrase when no
    check has one.  First means that no check before it has a keyword in
    the text. *)
Theorem generate_instructions_parts (name description content : string) :
  is_ascii description = true ->
  let domain := first_phrase domain_groups "construction project management" name in
  let action :=
    first_phrase action_groups "assist with construction project tasks"
      (lower description) in
  generate_instructions name description content =
    "You are a construction industry assistant specializing in " +:+ domain +:+ "."
    +:+ nl +:+ nl +:+ description +:+ nl +:+ nl
    +:+ "When the user asks to " +:+ action +:+ instructions_tail /\
  (forall before kws phrase after,
      domain_groups = before ++ (kws, phrase) :: after ->
      Forall (fun g => ~ Spec.matches (fst g) name) before ->
      Spec.matches kws name ->
      domain = phrase) /\
  (Forall (fun g => ~ Spec.matches (fst g) name) domain_groups ->
   domain = "construction project management") /\
  (forall before kws phrase after,
      action_groups = before ++ (kws, phrase) :: after ->
      Forall (fun g => ~ Spec.matches (fst g) (lower description)) before ->
      Spec.matches kws (lower description) ->
      action = phrase) /\
  (Forall (fun g => ~ Spec.matches (fst g) (lower description)) action_groups ->
   action = "assist with construction project tasks").
Proof.
  intros _ domain action.
  split; [|split; [apply first_phrase_spec|split; [apply first_phrase_spec|
           split; apply first_phrase_spec]]].
  assert (forall d a d' a' : string, d = d' -> a = a' ->
            "You are a construction industry assistant specializing in " +:+ d +:+ "."
            +:+ nl +:+ nl +:+ description +:+ nl +:+ nl
            +:+ "When the user asks to " +:+ a +:+ instructions_tail
            = "You are a construction industry assistant specializing in " +:+ d' +:+ "."
              +:+ nl +:+ nl +:+ description +:+ nl +:+ nl
              +:+ "When the user asks to " +:+ a' +:+ instructions_tail) as Hframe.
  { intros d a d' a' -> ->. reflexivity. }
  unfold generate_instructions. cbv zeta. apply Hframe.
  - unfold domain, first_phrase, domain_groups. cbn [List.find fst snd any_in existsb].
    repeat match goal with
           | |- context [str_in ?k name] => destruct (str_in k name); cbn [orb]
           end; reflexivity.
  - unfold action, first_phrase, action_groups. cbn [List.find fst snd any_in existsb].
    repeat match goal with
           | |- context [str_in ?k (lower description)] =>
               destruct (str_in k (lower description)); cbn [orb]
           end; reflexivity.
Qed.

Lemma generate_instructions_parts_witness :
  generate_instructions "cost-report" "Track SCHEDULE data" EmptyString
  = "You are a construction industry assistant specializing in "
    +:+ "construction cost estimation and management" +:+ "."
    +:+ nl +:+ nl +:+ "Track SCHEDULE data" +:+ nl +:+ nl
    +:+ "When the user asks to " +:+ "manage and track project data"
    +:+ instructions_tail.
Proof.
  rewrite (proj1 (generate_instructions_parts "cost-report" "Track SCHEDULE data"
                    EmptyString eq_refl)).
  vm_compute. reflexivity.
Defined.

End InstructionPhrases.

(** ** More on processing one skill *)

Section Outcomes.

Import Spec.

Implicit Types (fm : gmap string string) (fs : skill_files) (skill_dir : Path).

(** The five ways a run on one directory can end. *)
Lemma process_skill_outcomes skill_dir fs :
  (SKILL_md fs = None /\ process_skill skill_dir fs = (Ret None, fs)) \/
  (exists reason : string,
      is_Some (SKILL_md fs) /\
      (reason = "no frontmatter" \/ reason = "already updated") /\
      process_skill skill_dir fs =
        (Ret (Some ("SKIP (" +:+ reason +:+ "): " +:+ path_name skill_dir)), fs)) \/
  (is_Some (SKILL_md fs) /\ skill_dir = [] /\
   process_skill skill_dir fs = (Raise IndexError, fs)) \/
  (exists (content body : string) fm d,
      SKILL_md fs = Some content /\
      parse_frontmatter content = (Some fm, body) /\
      fm <> ∅ /\ fm !! "homepage" = None /\ skill_dir <> [] /\
      process_skill skill_dir fs =
        (Ret (Some ("OK: " +:+ skill_name skill_dir fm)),
         processed skill_dir fs content fm body d)).
Proof.
  destruct (SKILL_md fs) as [content|] eqn:Hmd.
  2:{ left. split; [reflexivity|]. unfold process_skill. rewrite Hmd. reflexivity. }
  right. destruct (parse_frontmatter content) as [fm body] eqn:Hparse.
  destruct (no_fields fm) eqn:Hnf.
  { left. exists "no frontmatter". split; [eauto|]. split; [left; reflexivity|].
    unfold process_skill. rewrite Hmd, Hparse, Hnf. reflexivity. }
  destruct fm as [fm|]; [|discriminate]. cbn [no_fields] in Hnf.
  apply bool_decide_eq_false in Hnf.
  destruct (fm !! "homepage") as [h|] eqn:Hhome.
  { left. exists "already updated". split; [eauto|]. split; [right; reflexivity|].
    apply (process_skill_skip _ _ _ _ _ Hmd Hparse). eauto. }
  right. destruct skill_dir as [|top rest].
  - left. split; [eauto|]. split; [reflexivity|].
    unfold process_skill. rewrite Hmd, Hparse. cbn [no_fields].
    change (default ∅ (Some fm)) with fm.
    rewrite bool_decide_eq_false_2 by exact Hnf.
    rewrite bool_decide_eq_false_2 by (rewrite Hhome; apply is_Some_None).
    reflexivity.
  - right.
    destruct (derive_total (top :: rest) (skill_name (top :: rest) fm)
                (skill_description fm) content) as [d Hd]; [discriminate|].
    exists content, body, fm, d.
    split; [reflexivity|]. split; [exact Hparse|]. split; [exact Hnf|].
    split; [exact Hhome|]. split; [discriminate|].
    exact (process_skill_ok _ _ _ _ _ _ Hmd Hparse Hnf Hhome Hd).
Qed.

Lemma derive_parts skill_dir (name description content : string) (d : derived) :
  derive skill_dir name description content = Ret d ->
  determine_emoji skill_dir name = Ret (d_emoji d) /\
  determine_requires content = Ret (d_requires d) /\
  d_os d = determine_os content.
Proof.
  unfold derive. destruct (get_subcategory skill_dir); [|discriminate].
  destruct (get_top_category skill_dir); [|discriminate]. cbn [mbind py_bind].
  destruct (determine_emoji skill_dir name); [|discriminate].
  destruct (determine_requires content); [|discriminate].
  intros [= <-]. cbn [d_emoji d_requires d_os]. auto.
Qed.

(** X11.  What a run on one directory that returns has done to the files,
    by what it returns.  When it returns nothing there is no document, and
    nothing was written.  A message is either SKIP with a reason and the
    name of the directory, and then nothing was written; or OK with the
    name of the skill, and then the document had a header with a field and
    without the homepage field, the document is now the six lines of the new
    header and the old body, and the manifest and the instruction file both
    exist: each is the one that was there, when there was one.  A run that
    raises [IndexError] is a run on the root, and it has written nothing; no
    run raises [KeyError]. *)
Theorem process_skill_files_by_outcome skill_dir fs
    (outcome : py (option string)) fs' :
  process_skill skill_dir fs = (outcome, fs') ->
  (outcome = Ret None -> SKILL_md fs = None /\ fs' = fs) /\
  (forall msg : string, outcome = Ret (Some msg) ->
     (exists reason : string,
         msg = "SKIP (" +:+ reason +:+ "): " +:+ path_name skill_dir /\ fs' = fs) \/
     (exists (content body : string) fm (emoji : string) (info : requires_info),
         let name := skill_name skill_dir fm in
         let description := skill_description fm in
         msg = "OK: " +:+ name /\
         SKILL_md fs = Some content /\
         parse_frontmatter content = (Some fm, body) /\
         fm <> ∅ /\
         fm !! "homepage" = None /\
         determine_emoji skill_dir name = Ret emoji /\
         determine_requires content = Ret info /\
         SKILL_md fs' =
           Some (join nl (new_fm_lines name description
                            (build_metadata emoji (determine_os content) HOMEPAGE info))
                 +:+ nl +:+ body) /\
         is_Some (claw_json fs') /\
         is_Some (instructions_md fs') /\
         (forall manifest : string,
             claw_json fs = Some manifest -> claw_json fs' = Some manifest) /\
         (forall instructions : string,
             instructions_md fs = Some instructions ->
             instructions_md fs' = Some instructions))) /\
  (outcome = Raise IndexError -> skill_dir = [] /\ fs' = fs) /\
  outcome <> Raise KeyError.
Proof.
  intros Hrun.
  destruct (process_skill_outcomes skill_dir fs)
    as [[Hmd H]|[(reason & Hsome & _ & H)|[(Hsome & Hroot & H)|
        (content & body & fm & d & Hmd & Hparse & Hne & Hhome & Hdir & _)]]].
  - rewrite H in Hrun. injection Hrun as <- <-.
    split; [auto|]. split; [discriminate|]. split; discriminate.
  - rewrite H in Hrun. injection Hrun as <- <-.
    split; [discriminate|]. split; [|split; discriminate].
    intros msg [= <-]. left. exists reason. split; reflexivity.
  - rewrite H in Hrun. injection Hrun as <- <-.
    split; [discriminate|]. split; [discriminate|]. split; [auto|discriminate].
  - destruct (derive_total skill_dir (skill_name skill_dir fm) (skill_description fm)
                content Hdir) as [d' Hd].
    rewrite (process_skill_ok _ _ _ _ _ _ Hmd Hparse Hne Hhome Hd) in Hrun.
    injection Hrun as <- <-.
    destruct (derive_parts _ _ _ _ _ Hd) as (Hemoji & Hinfo & Hos).
    split; [discriminate|]. split; [|split; discriminate].
    intros msg [= <-]. right. exists content, body, fm, (d_emoji d'), (d_requires d').
    cbv zeta. unfold processed, new_content. cbn [SKILL_md claw_json instructions_md].
    rewrite <- Hos.
    split; [reflexivity|]. split; [exact Hmd|]. split; [exact Hparse|].
    split; [exact Hne|]. split; [exact Hhome|]. split; [exact Hemoji|].
    split; [exact Hinfo|]. split; [reflexivity|].
    split; [eexists; reflexivity|]. split; [eexists; reflexivity|].
    split; intros x ->; reflexivity.
Qed.

Lemma process_skill_files_by_outcome_witness :
  (process_skill Examples.dir Examples.files).1 = Ret (Some "OK: cost-report") /\
  is_Some (claw_json (process_skill Examples.dir Examples.files).2) /\
  (process_skill Examples.dir (process_skill Examples.dir Examples.files).2).2
  = (process_skill Examples.dir Examples.files).2.
Proof.
  split; [vm_compute; reflexivity|]. split.
  - destruct (process_skill_files_by_outcome Examples.dir Examples.files
                (process_skill Examples.dir Examples.files).1
                (process_skill Examples.dir Examples.files).2)
      as (_ & Hmsg & _).
    + apply surjective_pairing.
    + destruct (Hmsg "OK: cost-report") as [(reason & Hskip & _)|
                                            (content & body & fm & emoji & info & Hok)].
      * vm_compute. reflexivity.
      * discriminate Hskip.
      * cbv zeta in Hok. destruct Hok as (_ & _ & _ & _ & _ & _ & _ & _ & Hjson & _).
        exact Hjson.
  - set (fs1 := (process_skill Examples.dir Examples.files).2).
    destruct (process_skill_files_by_outcome Examples.dir fs1
                (process_skill Examples.dir fs1).1 (process_skill Examples.dir fs1).2)
      as (_ & Hmsg & _).
    + apply surjective_pairing.
    + destruct (Hmsg ("SKIP (already updated): " +:+ path_name Examples.dir))
        as [(reason & _ & Hsame)|(content & body & fm & emoji & info & Hok)].
      * vm_compute. reflexivity.
      * exact Hsame.
      * cbv zeta in Hok. destruct Hok as (Hname & _). discriminate Hname.
Defined.

(** X12.  The categories of a skill are read off its path below the root.
    The top category is the first component.  The sub-category is the second
    component when the path has three components or more, and the first
    component otherwise: a skill one or two levels below the root has its
    top category as its sub-category.  The emoji is chosen from those two and
    the name.  For the root itself there is no component: both lookups, and
    the emoji selection with them, raise [IndexError]; below the root none
    of the three raises. *)
Theorem categories_by_path (skill_path : Path) (name : string) :
  (skill_path = [] ->
   get_top_category skill_path = Raise IndexError /\
   get_subcategory skill_path = Raise IndexError /\
   determine_emoji skill_path name = Raise IndexError) /\
  (forall (top : string) (rest : list string),
      skill_path = top :: rest ->
      let subcat := match rest with sub :: _ :: _ => sub | _ => top end in
      get_top_category skill_path = Ret top /\
      get_subcategory skill_path = Ret subcat /\
      determine_emoji skill_path name = Ret (emoji_by_precedence subcat top name)).
Proof.
  split.
  - intros ->. split; [reflexivity|]. split; reflexivity.
  - intros top rest -> subcat.
    assert (get_top_category (top :: rest) = Ret top) as Htop by reflexivity.
    assert (get_subcategory (top :: rest) = Ret subcat) as Hsub.
    { unfold subcat. destruct rest as [|a [|b rest]]; reflexivity. }
    split; [exact Htop|]. split; [exact Hsub|].
    exact (determine_emoji_returns _ name _ _ Hsub Htop).
Qed.

Lemma categories_by_path_witness :
  get_subcategory ["1_DDC_Toolkit"; "CWICR-Database"; "cost-estimator"]
    = Ret "CWICR-Database" /\
  get_subcategory ["5_DDC_Innovative"; "reports"] = Ret "5_DDC_Innovative" /\
  determine_emoji [] "reports" = Raise IndexError.
Proof.
  split; [|split].
  - exact (proj1 (proj2 (proj2 (categories_by_path
                                  ["1_DDC_Toolkit"; "CWICR-Database"; "cost-estimator"]
                                  "cost-estimator")
                           "1_DDC_Toolkit" ["CWICR-Database"; "cost-estimator"] eq_refl))).
  - exact (proj1 (proj2 (proj2 (categories_by_path ["5_DDC_Innovative"; "reports"] "reports")
                           "5_DDC_Innovative" ["reports"] eq_refl))).
  - exact (proj2 (proj2 (proj1 (categories_by_path [] "reports") eq_refl))).
Defined.

End Outcomes.

(** ** The batch *)

Section Batch.

Import Spec.

Implicit Types (tree : gmap Path skill_files) (t : tally) (fs : skill_files)
  (skill_dir : Path) (skill_dirs : list Path).

Lemma files_at_write_back tree skill_dir fs (d : Path) :
  files_at (write_back tree skill_dir fs) d =
    if decide (skill_dir = d) then fs else files_at tree d.
Proof.
  unfold write_back. destruct (decide (files_at tree skill_dir = fs)) as [Heq|Hne].
  - destruct (decide (skill_dir = d)) as [<-|]; [exact Heq|reflexivity].
  - unfold files_at. destruct (decide (skill_dir = d)) as [<-|Hd].
    + rewrite lookup_insert_eq. reflexivity.
    + rewrite lookup_insert_ne by exact Hd. reflexivity.
Qed.

Lemma main_step_tree tree t skill_dir :
  (main_step (tree, t) skill_dir).1 =
    write_back tree skill_dir (process_skill skill_dir (files_at tree skill_dir)).2.
Proof.
  unfold main_step. destruct (process_skill skill_dir (files_at tree skill_dir)) as [[r|e] fs].
  - cbn [snd]. destruct (truthy r); [|reflexivity].
    destruct (startswith "OK" _); [reflexivity|].
    destruct (startswith "SKIP" _); reflexivity.
  - reflexivity.
Qed.

(** What one turn of the loop counts and prints, by the way the run ends. *)
Lemma main_step_tally tree t skill_dir :
  let t' := (main_step (tree, t) skill_dir).2 in
  match (process_skill skill_dir (files_at tree skill_dir)).1 with
  | Ret None => t' = t
  | Ret (Some msg) =>
      printed t' = printed t ++ [msg] /\ errors t' = errors t /\
      ((exists name : string, msg = "OK: " +:+ name) /\
       updated t' = updated t + 1 /\ skipped t' = skipped t \/
       (exists rest : string, msg = "SKIP (" +:+ rest) /\
       updated t' = updated t /\ skipped t' = skipped t + 1)
  | Raise e =>
      printed t' = printed t ++ ["ERROR: " +:+ path_name skill_dir +:+ " - " +:+ exn_message e] /\
      errors t' = errors t + 1 /\ updated t' = updated t /\ skipped t' = skipped t
  end.
Proof.
  cbv zeta. unfold main_step.
  destruct (process_skill_outcomes skill_dir (files_at tree skill_dir))
    as [[_ ->]|[(reason & _ & _ & ->)|[(_ & _ & ->)|
        (content & body & fm & d & _ & _ & _ & _ & _ & ->)]]]; cbn [fst snd].
  - reflexivity.
  - split; [reflexivity|]. split; [reflexivity|]. right.
    split; [eexists; reflexivity|]. split; reflexivity.
  - split; [reflexivity|]. split; [reflexivity|]. split; reflexivity.
  - split; [reflexivity|]. split; [reflexivity|]. left.
    split; [eexists; reflexivity|]. split; reflexivity.
Qed.

Lemma main_step_keeps_documents tree t skill_dir (d : Path) :
  is_Some (SKILL_md (files_at tree d)) ->
  is_Some (SKILL_md (files_at (main_step (tree, t) skill_dir).1 d)).
Proof.
  intros Hd. rewrite main_step_tree, files_at_write_back.
  destruct (decide (skill_dir = d)) as [<-|]; [|exact Hd].
  destruct (process_skill_outcomes skill_dir (files_at tree skill_dir))
    as [[_ ->]|[(reason & _ & _ & ->)|[(_ & _ & ->)|
        (content & body & fm & dv & _ & _ & _ & _ & _ & ->)]]]; cbn [snd];
    try exact Hd.
  eexists. reflexivity.
Qed.

Lemma main_loop_counts skill_dirs tree t :
  Forall (fun d => is_Some (SKILL_md (files_at tree d))) skill_dirs ->
  let t' := (fold_left main_step skill_dirs (tree, t)).2 in
  updated t' + skipped t' + errors t' =
    updated t + skipped t + errors t + length skill_dirs /\
  length (printed t') = length (printed t) + length skill_dirs.
Proof.
  revert tree t. induction skill_dirs as [|d dirs IH]; intros tree t Hdocs.
  - cbn. lia.
  - inversion Hdocs as [|? ? Hd Hrest]; subst. cbn [fold_left].
    destruct (main_step (tree, t) d) as [tree1 t1] eqn:Hstep.
    assert (Forall (fun x => is_Some (SKILL_md (files_at tree1 x))) dirs) as Hdocs1.
    { rewrite List.Forall_forall in *. intros x Hx.
      pose proof (main_step_keeps_documents tree t d x (Hrest x Hx)) as H.
      rewrite Hstep in H. exact H. }
    destruct (IH tree1 t1 Hdocs1) as [Hsum Hlen]. cbv zeta in *.
    rewrite Hsum, Hlen. cbn [length].
    pose proof (main_step_tally tree t d) as Ht. rewrite Hstep in Ht. cbn [snd] in Ht.
    destruct (process_skill_outcomes d (files_at tree d))
      as [[Hnone _]|[(reason & _ & _ & Hrun)|[(_ & _ & Hrun)|
          (content & body & fm & dv & _ & _ & _ & _ & _ & Hrun)]]].
    + rewrite Hnone in Hd. destruct Hd as [x Hx]. discriminate.
    + rewrite Hrun in Ht. cbn [fst] in Ht.
      destruct Ht as (Hp & He & [(_ & Hu & Hs)|(_ & Hu & Hs)]);
        rewrite Hp, He, Hu, Hs, length_app; cbn [length]; lia.
    + rewrite Hrun in Ht. cbn [fst] in Ht. destruct Ht as (Hp & He & Hu & Hs).
      rewrite Hp, He, Hu, Hs, length_app. cbn [length]. lia.
    + rewrite Hrun in Ht. cbn [fst] in Ht.
      destruct Ht as (Hp & He & [(_ & Hu & Hs)|(_ & Hu & Hs)]);
        rewrite Hp, He, Hu, Hs, length_app; cbn [length]; lia.
Qed.

(** The loop only adds lines to what was printed. *)
Lemma main_loop_prints skill_dirs tree t :
  exists rest, printed (fold_left main_step skill_dirs (tree, t)).2 = printed t ++ rest.
Proof.
  revert tree t. induction skill_dirs as [|d dirs IH]; intros tree t.
  - exists []. cbn. rewrite List.app_nil_r. reflexivity.
  - cbn [fold_left]. destruct (main_step (tree, t) d) as [tree1 t1] eqn:Hstep.
    destruct (IH tree1 t1) as [rest ->].
    pose proof (main_step_tally tree t d) as Ht. rewrite Hstep in Ht. cbn [snd] in Ht.
    destruct ((process_skill d (files_at tree d)).1) as [[msg|]|e].
    + destruct Ht as (-> & _). eexists. rewrite <- List.app_assoc. reflexivity.
    + subst t1. exists rest. reflexivity.
    + destruct Ht as (-> & _). eexists. rewrite <- List.app_assoc. reflexivity.
Qed.

Lemma main_unfold skill_dirs tree :
  let loop := fold_left main_step skill_dirs
                (tree, {| updated := 0; skipped := 0; errors := 0;
                          printed := [ "Found " +:+ pretty (length skill_dirs)
                                       +:+ " skills total"; str_mul "=" 60 ] |}) in
  main skill_dirs tree =
    (loop.1,
     {| updated := updated loop.2; skipped := skipped loop.2; errors := errors loop.2;
        printed := printed loop.2 ++
          [ str_mul "=" 60;
            "Updated: " +:+ pretty (updated loop.2);
            "Skipped: " +:+ pretty (skipped loop.2);
            "Errors:  " +:+ pretty (errors loop.2);
            "Total:   " +:+ pretty (updated loop.2 + skipped loop.2 + errors loop.2) ] |}).
Proof.
  cbv zeta. unfold main, print. cbn [updated skipped errors printed app].
  destruct (fold_left main_step skill_dirs _) as [tree' t']. cbn [fst snd].
  cbn [updated skipped errors printed]. rewrite <- !List.app_assoc. reflexivity.
Qed.

(** X13.  When every directory of the list has a document, each of them is
    counted exactly once, as updated, skipped or failed: the three counters
    add up to the number of directories, the total that is printed last is
    the number that is printed first, and one line is printed per directory
    between the two rules. *)
Theorem main_counts_every_skill skill_dirs tree :
  Forall (fun d => is_Some (SKILL_md (files_at tree d))) skill_dirs ->
  let t := (main skill_dirs tree).2 in
  updated t + skipped t + errors t = length skill_dirs /\
  length (printed t) = length skill_dirs + 7 /\
  head (printed t) = Some ("Found " +:+ pretty (length skill_dirs) +:+ " skills total") /\
  last (printed t) = Some ("Total:   " +:+ pretty (length skill_dirs)).
Proof.
  intros Hdocs. cbv zeta. rewrite main_unfold. cbv zeta. cbn [snd].
  set (t0 := {| updated := 0; skipped := 0; errors := 0;
                printed := [ "Found " +:+ pretty (length skill_dirs) +:+ " skills total";
                             str_mul "=" 60 ] |}).
  destruct (main_loop_counts skill_dirs tree t0 Hdocs) as [Hsum Hlen]. cbv zeta in *.
  set (loop := fold_left main_step skill_dirs (tree, t0)) in *.
  cbn [updated skipped errors printed].
  change (updated t0 + skipped t0 + errors t0) with 0 in Hsum.
  change (length (printed t0)) with 2 in Hlen.
  split; [lia|]. split; [rewrite length_app; cbn [length]; lia|]. split.
  - destruct (main_loop_prints skill_dirs tree t0) as [rest Hrest].
    fold loop in Hrest. rewrite Hrest. reflexivity.
  - rewrite Hsum. rewrite last_app. cbn. reflexivity.
Qed.

Lemma main_counts_every_skill_witness :
  let t := (main [Examples.dir; Examples.other_dir]
              (<[Examples.dir := Examples.files]>
                 (<[Examples.other_dir := Examples.other_files]> ∅))).2 in
  updated t + skipped t + errors t = 2 /\
  last (printed t) = Some "Total:   2".
Proof.
  cbv zeta.
  destruct (main_counts_every_skill [Examples.dir; Examples.other_dir]
              (<[Examples.dir := Examples.files]>
                 (<[Examples.other_dir := Examples.other_files]> ∅)))
    as (Hsum & _ & _ & Hlast).
  - repeat constructor; vm_compute; eexists; reflexivity.
  - split; [exact Hsum | exact Hlast].
Defined.

Lemma main_loop_files skill_dirs tree t (d : Path) :
  NoDup skill_dirs ->
  files_at (fold_left main_step skill_dirs (tree, t)).1 d =
    if decide (d ∈ skill_dirs) then (process_skill d (files_at tree d)).2
    else files_at tree d.
Proof.
  revert tree t. induction skill_dirs as [|d0 dirs IH]; intros tree t Hnd.
  - cbn [fold_left fst]. destruct (decide (d ∈ [])) as [H|]; [|reflexivity].
    apply elem_of_nil in H. destruct H.
  - apply NoDup_cons in Hnd as [Hd0 Hnd]. cbn [fold_left].
    destruct (main_step (tree, t) d0) as [tree1 t1] eqn:Hstep.
    assert (tree1 = write_back tree d0 (process_skill d0 (files_at tree d0)).2) as ->.
    { pose proof (main_step_tree tree t d0) as H. rewrite Hstep in H. exact H. }
    rewrite (IH _ t1 Hnd), !files_at_write_back.
    destruct (decide (d ∈ dirs)) as [Hin|Hnin].
    + destruct (decide (d0 = d)) as [->|Hne]; [contradiction|].
      destruct (decide (d ∈ d0 :: dirs)) as [_|Hn]; [reflexivity|].
      exfalso. apply Hn. right. exact Hin.
    + destruct (decide (d0 = d)) as [->|Hne].
      * destruct (decide (d ∈ d :: dirs)) as [_|Hn]; [reflexivity|].
        exfalso. apply Hn. left.
      * destruct (decide (d ∈ d0 :: dirs)) as [Hin|_]; [|reflexivity].
        apply elem_of_cons in Hin as [->|Hin]; contradiction.
Qed.

(** X14.  The batch treats every directory on its own: a directory of the
    list ends with the files that a run on it alone would leave, whatever
    happens to the others, one that raises included; a directory that is not
    in the list is not touched.  So the order of the list does not matter
    for the files. *)
Theorem main_runs_each_skill_alone skill_dirs tree :
  NoDup skill_dirs ->
  (forall d, In d skill_dirs ->
     files_at (main skill_dirs tree).1 d = (process_skill d (files_at tree d)).2) /\
  (forall d, ~ In d skill_dirs ->
     files_at (main skill_dirs tree).1 d = files_at tree d) /\
  (forall skill_dirs' d, Permutation skill_dirs skill_dirs' ->
     files_at (main skill_dirs' tree).1 d = files_at (main skill_dirs tree).1 d).
Proof.
  intros Hnd.
  assert (forall dirs, NoDup dirs -> forall d,
             files_at (main dirs tree).1 d =
               if decide (d ∈ dirs) then (process_skill d (files_at tree d)).2
               else files_at tree d) as Hfiles.
  { intros dirs Hdirs d. rewrite main_unfold. cbv zeta. cbn [fst].
    apply main_loop_files, Hdirs. }
  split; [|split].
  - intros d Hin. rewrite (Hfiles _ Hnd). apply list_elem_of_In in Hin.
    destruct (decide (d ∈ skill_dirs)); [reflexivity|contradiction].
  - intros d Hnin. rewrite (Hfiles _ Hnd).
    destruct (decide (d ∈ skill_dirs)) as [Hin|]; [|reflexivity].
    apply list_elem_of_In in Hin. contradiction.
  - intros dirs' d Hperm. rewrite (Hfiles _ Hnd).
    rewrite (Hfiles dirs') by (rewrite <- Hperm; exact Hnd).
    destruct (decide (d ∈ skill_dirs)) as [Hin|Hnin];
      destruct (decide (d ∈ dirs')) as [Hin'|Hnin']; try reflexivity.
    + rewrite <- Hperm in Hnin'. contradiction.
    + rewrite <- Hperm in Hin'. contradiction.
Qed.

Lemma main_runs_each_skill_alone_witness :
  let tree : gmap Path skill_files :=
    <[Examples.dir := Examples.files]>
      (<[Examples.other_dir := Examples.other_files]> (<[ [] := Examples.files]> ∅)) in
  files_at (main [[]; Examples.dir] tree).1 Examples.dir
    = (process_skill Examples.dir Examples.files).2 /\
  files_at (main [[]; Examples.dir] tree).1 Examples.other_dir = Examples.other_files.
Proof.
  intros tree.
  assert (NoDup [[]; Examples.dir]) as Hnd.
  { apply NoDup_cons. split; [|apply NoDup_singleton].
    intros H. apply list_elem_of_singleton in H. discriminate. }
  destruct (main_runs_each_skill_alone [[]; Examples.dir] tree Hnd) as (Hin & Hout & _).
  split.
  - apply (Hin Examples.dir). right. left. reflexivity.
  - apply (Hout Examples.other_dir). intros [H|[H|[]]]; discriminate.
Defined.

(** A second run on the files that a first run left writes nothing and
    does not report OK. *)
Lemma process_skill_again skill_dir fs :
  one_line (path_name skill_dir) ->
  let fs1 := (process_skill skill_dir fs).2 in
  (process_skill skill_dir fs1).2 = fs1 /\
  forall name : string, (process_skill skill_dir fs1).1 <> Ret (Some ("OK: " +:+ name)).
Proof.
  intros Hname. cbv zeta.
  destruct (process_skill_outcomes skill_dir fs)
    as [[_ H]|[(reason & _ & _ & H)|[(_ & _ & H)|
        (content & body & fm & d & Hmd & Hparse & _ & _ & _ & H)]]];
    rewrite H; cbn [snd].
  - rewrite H. split; [reflexivity|]. discriminate.
  - rewrite H. split; [reflexivity|]. intros name. cbn [fst]. intros [= Heq].
  - rewrite H. split; [reflexivity|]. discriminate.
  - pose proof (parse_frontmatter_values _ _ _ Hparse) as Hvals.
    destruct (parse_new_content (skill_name skill_dir fm) (skill_description fm)
                (build_metadata (d_emoji d) (d_os d) HOMEPAGE (d_requires d)) body
                (skill_name_one_line _ _ Hname Hvals)
                (skill_description_one_line _ Hvals)
                (build_metadata_one_line _ _ _ _))
      as (fm' & Hparse' & Hhome').
    rewrite (process_skill_skip skill_dir (processed skill_dir fs content fm body d)
               _ _ fm' eq_refl Hparse' Hhome').
    split; [reflexivity|]. intros name. cbn [fst]. intros [= Heq].
Qed.

Lemma main_loop_settled skill_dirs tree t :
  Forall (fun d =>
            (process_skill d (files_at tree d)).2 = files_at tree d /\
            forall name : string,
              (process_skill d (files_at tree d)).1 <> Ret (Some ("OK: " +:+ name)))
         skill_dirs ->
  (fold_left main_step skill_dirs (tree, t)).1 = tree /\
  updated (fold_left main_step skill_dirs (tree, t)).2 = updated t.
Proof.
  revert t. induction skill_dirs as [|d dirs IH]; intros t Hall; [split; reflexivity|].
  inversion Hall as [|? ? [Hsame Hnot] Hrest]; subst. cbn [fold_left].
  destruct (main_step (tree, t) d) as [tree1 t1] eqn:Hstep.
  assert (tree1 = tree) as ->.
  { pose proof (main_step_tree tree t d) as H. rewrite Hstep in H. cbn [fst] in H.
    rewrite H, Hsame. unfold write_back.
    destruct (decide (files_at tree d = files_at tree d)); [reflexivity|contradiction]. }
  destruct (IH t1 Hrest) as [-> ->]. split; [reflexivity|].
  pose proof (main_step_tally tree t d) as Ht. rewrite Hstep in Ht. cbn [snd] in Ht.
  destruct ((process_skill d (files_at tree d)).1) as [[msg|]|e].
  - destruct Ht as (_ & _ & [([name ->] & _)|(_ & Hu & _)]); [|exact Hu].
    exfalso. exact (Hnot name eq_refl).
  - subst t1. reflexivity.
  - destruct Ht as (_ & _ & Hu & _). exact Hu.
Qed.

(** X15.  The batch is idempotent: run again on the directories as the
    first run left them, it changes no file and updates nothing; every
    directory with a document is then skipped or fails as before.  This
    holds for directories that are listed once and whose names hold no line
    feed. *)
Theorem main_twice skill_dirs tree :
  NoDup skill_dirs ->
  Forall (fun d => one_line (path_name d)) skill_dirs ->
  let tree1 := (main skill_dirs tree).1 in
  (main skill_dirs tree1).1 = tree1 /\
  updated (main skill_dirs tree1).2 = 0 /\
  (Forall (fun d => is_Some (SKILL_md (files_at tree d))) skill_dirs ->
   skipped (main skill_dirs tree1).2 + errors (main skill_dirs tree1).2
   = length skill_dirs).
Proof.
  intros Hnd Hnames. cbv zeta.
  set (tree1 := (main skill_dirs tree).1).
  assert (Forall (fun d =>
                    (process_skill d (files_at tree1 d)).2 = files_at tree1 d /\
                    forall name : string,
                      (process_skill d (files_at tree1 d)).1
                      <> Ret (Some ("OK: " +:+ name))) skill_dirs) as Hsettled.
  { rewrite List.Forall_forall in *. intros d Hin.
    assert (files_at tree1 d = (process_skill d (files_at tree d)).2) as ->.
    { unfold tree1. rewrite main_unfold. cbv zeta. cbn [fst].
      rewrite main_loop_files by exact Hnd. apply list_elem_of_In in Hin.
      destruct (decide (d ∈ skill_dirs)); [reflexivity|contradiction]. }
    apply process_skill_again, Hnames, Hin. }
  rewrite (main_unfold skill_dirs tree1). cbv zeta. cbn [fst snd updated skipped errors].
  match goal with
  | |- context [fold_left main_step skill_dirs (tree1, ?t)] =>
      destruct (main_loop_settled skill_dirs tree1 t Hsettled) as [Htree Hup];
      pose proof (main_loop_counts skill_dirs tree1 t) as Hcount
  end.
  split; [exact Htree|]. split; [exact Hup|]. intros Hdocs.
  assert (Forall (fun d => is_Some (SKILL_md (files_at tree1 d))) skill_dirs) as Hdocs1.
  { rewrite List.Forall_forall in *. intros d Hin.
    unfold tree1. rewrite main_unfold. cbv zeta. cbn [fst].
    rewrite main_loop_files by exact Hnd. apply list_elem_of_In in Hin.
    destruct (decide (d ∈ skill_dirs)); [|contradiction].
    pose proof (Hdocs d ltac:(apply list_elem_of_In; assumption)) as Hd.
    destruct (process_skill_outcomes d (files_at tree d))
      as [[_ ->]|[(reason & _ & _ & ->)|[(_ & _ & ->)|
          (content & body & fm & dv & _ & _ & _ & _ & _ & ->)]]]; cbn [snd];
      try exact Hd.
    eexists. reflexivity. }
  destruct (Hcount Hdocs1) as [Hsum _]. cbv zeta in Hsum.
  cbn [updated skipped errors] in Hsum, Hup. lia.
Qed.

Lemma main_twice_witness :
  let tree : gmap Path skill_files :=
    <[Examples.dir := Examples.files]>
      (<[Examples.other_dir := Examples.other_files]> ∅) in
  let tree1 := (main [Examples.dir; Examples.other_dir] tree).1 in
  (main [Examples.dir; Examples.other_dir] tree1).1 = tree1 /\
  updated (main [Examples.dir; Examples.other_dir] tree1).2 = 0.
Proof.
  intros tree tree1.
  assert (NoDup [Examples.dir; Examples.other_dir]) as Hnd.
  { apply NoDup_cons. split; [|apply NoDup_singleton].
    intros H. apply list_elem_of_singleton in H. discriminate. }
  assert (Forall (fun d => one_line (path_name d)) [Examples.dir; Examples.other_dir])
    as Hnames by (repeat constructor).
  destruct (main_twice [Examples.dir; Examples.other_dir] tree Hnd Hnames)
    as (Htree & Hup & _).
  split; [exact Htree | exact Hup].
Defined.

End Batch.

(** ** Where the header ends *)

Section HeaderEnd.

Import Frontmatter Header.

(** The first way to match the lazy group is the shortest: no closing
    delimiter matches where a later part of the group starts. *)
Lemma lazy_body_first (s g r : string) :
  head (lazy_body s) = Some (g, r) ->
  exists remainder,
    s = g +:+ remainder /\
    forall g1 g2, g = g1 +:+ g2 -> g2 <> EmptyString ->
                  close_delim (g2 +:+ remainder) = [].
Proof.
  revert g. induction s as [|c s IH]; intros g.
  - cbn [lazy_body]. rewrite List.app_nil_r, head_map.
    change (close_delim EmptyString) with (@nil string). discriminate.
  - rewrite lazy_body_cons.
    destruct (close_delim (String c s)) as [|x xs] eqn:Hclose.
    + cbn [map app]. rewrite head_map.
      destruct (head (lazy_body s)) as [[g' r']|] eqn:Hs; [|discriminate].
      intros [= <- <-]. destruct (IH g' eq_refl) as (remainder & -> & Hmin).
      exists remainder. split; [reflexivity|]. intros g1 g2 Hg Hne.
      destruct g1 as [|a g1].
      * rewrite app_nil_l in Hg. subst g2. exact Hclose.
      * rewrite app_cons in Hg. injection Hg as <- Hg. exact (Hmin g1 g2 Hg Hne).
    + cbn [map app head]. intros [= <- <-]. exists (String c s).
      split; [reflexivity|]. intros g1 g2 Hg Hne.
      destruct g1, g2; try discriminate. congruence.
Qed.

Lemma re_match_first (content text rest : string) :
  re_match content = Some (text, rest) ->
  forall t1 t2 w,
    all_space w = true -> text <> t1 +:+ nl +:+ "---" +:+ w +:+ nl +:+ t2.
Proof.
  unfold re_match. destruct (drop_prefix "---" content) as [x|]; [|discriminate].
  induction (ws_then_nl x) as [|y ys IH]; [discriminate|].
  cbn [flat_map]. destruct (lazy_body y) as [|[g r] l] eqn:Hy; [exact IH|].
  intros [= <- <-] t1 t2 w Hw Heq.
  destruct (lazy_body_first y g r) as (remainder & _ & Hmin); [rewrite Hy; reflexivity|].
  specialize (Hmin t1 (nl +:+ "---" +:+ w +:+ nl +:+ t2) Heq ltac:(discriminate)).
  pose proof (close_delim_complete w (t2 +:+ remainder) Hw) as Hin.
  rewrite !app_assoc in Hmin. rewrite Hmin in Hin. destruct Hin.
Qed.

(** X16.  The header ends at the first closing delimiter: the header text
    holds no line feed followed by three dashes, whitespace and a line
    feed.  And the body does not start with a blank line: whitespace up to
    a line feed after the closing delimiter is dropped with it. *)
Theorem parse_frontmatter_first_delimiter (content body : string)
    (fm : gmap string string) :
  parse_frontmatter content = (Some fm, body) ->
  exists text,
    shaped content text body /\
    (forall t1 t2 w, all_space w = true ->
                     text <> t1 +:+ nl +:+ "---" +:+ w +:+ nl +:+ t2) /\
    (forall w r, all_space w = true -> body <> w +:+ nl +:+ r).
Proof.
  unfold parse_frontmatter.
  destruct (re_match content) as [[text rest]|] eqn:Hm; [|discriminate].
  intros [= <- <-]. exists text. split; [exact (re_match_sound _ _ _ Hm)|].
  split; [exact (re_match_first _ _ _ Hm)|].
  intros w r Hw ->. pose proof (ws_then_nl_complete w r Hw) as Hin.
  rewrite (re_match_settled _ _ _ Hm) in Hin. destruct Hin.
Qed.

Lemma parse_frontmatter_first_delimiter_witness :
  let content := "---" +:+ nl +:+ "name: x" +:+ nl +:+ "---" +:+ nl +:+ nl
                 +:+ "text" +:+ nl +:+ "---" +:+ nl +:+ "more" +:+ nl in
  parse_frontmatter content
    = (Some {[ "name" := "x" ]}, "text" +:+ nl +:+ "---" +:+ nl +:+ "more" +:+ nl) /\
  exists text, shaped content text ("text" +:+ nl +:+ "---" +:+ nl +:+ "more" +:+ nl).
Proof.
  intros content.
  assert (parse_frontmatter content
          = (Some {[ "name" := "x" ]}, "text" +:+ nl +:+ "---" +:+ nl +:+ "more" +:+ nl))
    as Hparse by (vm_compute; reflexivity).
  split; [exact Hparse|].
  destruct (parse_frontmatter_first_delimiter _ _ _ Hparse) as (text & Hshape & _).
  exists text. exact Hshape.
Defined.

End HeaderEnd.
